(** * split-expense: allocation, balances and settlements

    A shallow embedding of the Django application under [core/split]
    ([models.py], [forms.py], [views.py]) together with the properties of
    its allocation engine, balance calculator and settlement recorder.

    Conventions of the embedding.
    - A primary key is a [Z].
    - A value of a [MoneyField(max_digits=14, decimal_places=2)] or
      [DecimalField(decimal_places=2)] column, as stored in the database,
      is an integer number of hundredths (a [Z]): 100.00 is [10000].
    - A Python [decimal.Decimal] object manipulated by the forms is a
      [Decimal.t]: sign, coefficient and exponent, with the arithmetic of
      the default context (28 significant digits, ROUND_HALF_EVEN).
    - A table is the list of its rows; a queryset [filter(...)] is a
      [filter] of that list, in the order of the table (the [ordering] of
      the models is not modelled); the database is a record of tables
      that the writing operations thread explicitly.
    - The balance calculator adds and subtracts stored amounts: these
      Decimal operations are exact, far below 28 digits, and are taken
      on the hundredths.
    - A function that can raise returns a [Result]; one that also writes
      returns the database it leaves, exception or not (the code opens
      no transaction). *)

From Stdlib Require Import ZArith Lia Bool.
From stdpp Require Import base decidable option list gmap strings pretty.

Local Open Scope Z_scope.

(** ** Python's [decimal.Decimal] (default context) *)

Module Decimal.

(** [Dec s c e] stands for (-1)^s * c * 10^e, with 0 <= c. *)
Record t := Dec { sign : bool; coeff : Z; exp : Z }.

(** [decimal.getcontext().prec] *)
Definition prec : Z := 28.

Inductive Rounding := ROUND_HALF_EVEN | ROUND_HALF_UP.

(** [len(str(n))] for 0 <= n. *)
Fixpoint ndigits_aux (fuel : nat) (n : Z) : Z :=
  match fuel with
  | O => 1
  | S fuel' => if n <? 10 then 1 else 1 + ndigits_aux fuel' (n / 10)
  end.

Definition ndigits (n : Z) : Z := ndigits_aux (Z.to_nat (Z.log2 n)) n.

(** [c / 10^k] rounded to the nearest integer, 0 <= c and 0 <= k; a tie
    goes to the even neighbour (ROUND_HALF_EVEN) or away from zero
    (ROUND_HALF_UP). *)
Definition round_div (r : Rounding) (c k : Z) : Z :=
  let p := 10 ^ k in
  let q := c / p in
  let m := c mod p in
  if 2 * m >? p then q + 1
  else if 2 * m =? p then
    match r with
    | ROUND_HALF_EVEN => if Z.odd q then q + 1 else q
    | ROUND_HALF_UP => q + 1
    end
  else q.

(** [Decimal._fix]: round to the precision of the context.  The
    exponent limits of the context (Emin, Emax) are out of reach of the
    values of this program and are not modelled. *)
Definition fix_ (d : t) : t :=
  let n := ndigits (coeff d) in
  if n >? prec then
    let drop := n - prec in
    let c := round_div ROUND_HALF_EVEN (coeff d) drop in
    if ndigits c >? prec
    then Dec (sign d) (c / 10) (exp d + drop + 1)
    else Dec (sign d) c (exp d + drop)
  else d.

(** The loop
    [while exp < ideal_exp and coeff % 10 == 0: coeff //= 10; exp += 1]
    of an exact division; [k] is the distance [ideal_exp - exp]. *)
Fixpoint strip (k : nat) (c e : Z) : Z * Z :=
  match k with
  | O => (c, e)
  | S k' => if c mod 10 =? 0 then strip k' (c / 10) (e + 1) else (c, e)
  end.

(** [Decimal.__truediv__]; [None] when the divisor is zero
    (DivisionByZero, or InvalidOperation for 0/0, is raised). *)
Definition truediv (a b : t) : option t :=
  let s := xorb (sign a) (sign b) in
  if coeff b =? 0 then None
  else if coeff a =? 0 then Some (fix_ (Dec s 0 (exp a - exp b)))
  else
    let shift := ndigits (coeff b) - ndigits (coeff a) + prec + 1 in
    let e := exp a - exp b - shift in
    let '(q, r) :=
      if 0 <=? shift
      then Z.div_eucl (coeff a * 10 ^ shift) (coeff b)
      else Z.div_eucl (coeff a) (coeff b * 10 ^ (- shift)) in
    if r =? 0 then
      let '(q', e') := strip (Z.to_nat (exp a - exp b - e)) q e in
      Some (fix_ (Dec s q' e'))
    else
      Some (fix_ (Dec s (if q mod 5 =? 0 then q + 1 else q) e)).

(** [Decimal(n)] for a Python int. *)
Definition of_int (n : Z) : t := Dec (n <? 0) (Z.abs n) 0.

(** The value in hundredths, rounded with [r] when the exponent is
    below -2. *)
Definition round_cents (r : Rounding) (d : t) : Z :=
  let m := if exp d >=? -2
           then coeff d * 10 ^ (exp d + 2)
           else round_div r (coeff d) (- 2 - exp d) in
  if sign d then - m else m.

(** The signed coefficient once the exponent is lowered to [e],
    [e <= exp d]. *)
Definition scaled (e : Z) (d : t) : Z :=
  let m := coeff d * 10 ^ (exp d - e) in
  if sign d then - m else m.

(** [Decimal.__add__]: the exact sum at the smaller exponent, rounded to
    the context; a zero sum is negative only when both operands are. *)
Definition add (a b : t) : t :=
  let e := Z.min (exp a) (exp b) in
  let s := scaled e a + scaled e b in
  fix_ (Dec (if s =? 0 then sign a && sign b else s <? 0) (Z.abs s) e).

Definition neg (a : t) : t := Dec (negb (sign a)) (coeff a) (exp a).
Definition sub (a b : t) : t := add a (neg b).

(** [abs(a)] *)
Definition abs (a : t) : t := fix_ (Dec false (coeff a) (exp a)).

(** [a > b] *)
Definition gt (a b : t) : bool :=
  let e := Z.min (exp a) (exp b) in
  scaled e a >? scaled e b.

(** [bool(a)]: a Decimal is falsy exactly when it is zero. *)
Definition truthy (a : t) : bool := negb (coeff a =? 0).

Fixpoint zeros (n : nat) : string :=
  match n with
  | O => EmptyString
  | S n' => "0" +:+ zeros n'
  end.

(** [str(d)], scientific notation included. *)
Definition to_str (d : t) : string :=
  let digits := pretty (coeff d) in
  let len := Z.of_nat (String.length digits) in
  let leftdigits := exp d + len in
  let dotplace := if (exp d <=? 0) && (leftdigits >? -6) then leftdigits else 1 in
  let intpart :=
    if dotplace <=? 0 then "0"
    else if dotplace >=? len then digits +:+ zeros (Z.to_nat (dotplace - len))
    else String.substring 0 (Z.to_nat dotplace) digits in
  let fracpart :=
    if dotplace <=? 0 then "." +:+ zeros (Z.to_nat (- dotplace)) +:+ digits
    else if dotplace >=? len then EmptyString
    else "." +:+ String.substring (Z.to_nat dotplace) (Z.to_nat (len - dotplace)) digits in
  let e := leftdigits - dotplace in
  let exppart :=
    if e =? 0 then EmptyString
    else "E" +:+ (if e <? 0 then "-" else "+") +:+ pretty (Z.abs e) in
  (if sign d then "-" else EmptyString) +:+ intpart +:+ fracpart +:+ exppart.

End Decimal.

(** ** models.py *)

(** [Expense.ExpenseType] *)
Inductive ExpenseType := PERSONAL | GROUP.

(** [ExpenseSplit.SplitType] *)
Inductive SplitType := EQUAL | EXACT | PERCENTAGE | SHARES.

#[global] Instance ExpenseType_eq_dec : EqDecision ExpenseType.
Proof. solve_decision. Defined.

#[global] Instance SplitType_eq_dec : EqDecision SplitType.
Proof. solve_decision. Defined.

(** [ExpenseSplit.SplitType.choices], by stored value. *)
Definition SplitType_of_value (v : string) : option SplitType :=
  if decide (v = "equal") then Some EQUAL
  else if decide (v = "exact") then Some EXACT
  else if decide (v = "percentage") then Some PERCENTAGE
  else if decide (v = "shares") then Some SHARES
  else None.

Module Group.
(** A row of [Group] with the rows of its [members] many-to-many table. *)
Record t := Mk {
  id : Z;
  name : string;
  description : string;
  created_by : Z;
  members : list Z;
  default_currency : string;
  is_active : bool
}.
End Group.

Module Expense.
Record t := Mk {
  id : Z;
  description : string;
  amount : Z;
  amount_currency : string;
  expense_type : ExpenseType;
  user : Z;
  group : option Z;
  paid_by : Z
}.
End Expense.

Module ExpenseSplit.
Record t := Mk {
  id : Z;
  expense : Z;
  user : Z;
  split_type : SplitType;
  amount : Z;
  amount_currency : string;
  percentage : option Z;
  shares : option Z;
  is_settled : bool
}.
End ExpenseSplit.

Module Settlement.
Record t := Mk {
  id : Z;
  group : Z;
  paid_by : Z;
  paid_to : Z;
  amount : Z;
  amount_currency : string;
  settlement_date : Z;
  notes : string;
  payment_method : string;
  expense_splits : list Z
}.
End Settlement.

(** The database: the tables and the sequences of the primary keys. *)
Module DB.
Record t := Mk {
  users : list Z;
  groups : list Group.t;
  expenses : list Expense.t;
  splits : list ExpenseSplit.t;
  settlements : list Settlement.t;
  next_group_id : Z;
  next_split_id : Z;
  next_settlement_id : Z
}.
End DB.

Module Category.
(** A row of [Category]; [created_by] is NULL for a category of the
    system. *)
Record t := Mk { id : Z; name : string; created_by : option Z }.
End Category.

(** The database with the table and the sequences that the balances, the
    allocations and the settlements do not read. *)
Module Store.
Record t := Mk {
  db : DB.t;
  categories : list Category.t;
  next_expense_id : Z;
  next_category_id : Z
}.

Definition with_db (store : t) (db' : DB.t) : t :=
  Mk db' (categories store) (next_expense_id store) (next_category_id store).
End Store.

(** What a Python call leaves behind: a value, or a raised exception. *)
Inductive Exception :=
| ValidationError (field : option string) (message : string)
| KeyError (key : string)
| DivisionByZero
| DataError
| IntegrityError
| MoneyComparisonError
| AttributeError.

Inductive Result (A : Type) :=
| Ok (a : A)
| Raise (e : Exception).
Arguments Ok {A} a.
Arguments Raise {A} e.

(** ** Queries *)

(** [SUM(column)]: NULL over no row. *)
Definition aggregate_Sum (column : list Z) : option Z :=
  match column with
  | [] => None
  | _ => Some (foldr Z.add 0 column)
  end.

(** [total or Decimal("0.00")]: the right operand when the left one is
    [None] or a zero Decimal. *)
Definition or_zero (total : option Z) : Z :=
  match total with
  | Some v => if v =? 0 then 0 else v
  | None => 0
  end.

(** The join [expense__group]: the group of the expense a split belongs to. *)
Definition expense__group (db : DB.t) (s : ExpenseSplit.t) : option Z :=
  e ← List.find (λ e, Expense.id e =? ExpenseSplit.expense s) (DB.expenses db);
  Expense.group e.

(** The storage of a Decimal into a [decimal_places=2] column of
    [max_digits=14]: the value is rounded to 2 places, with the rounding
    mode [r] of the backend (Django's [format_number] quantizes
    half-even, PostgreSQL's numeric rounds half-up), and a value that
    needs more than 14 digits is refused. *)
Definition to_db_column (r : Decimal.Rounding) (d : Decimal.t) : Result Z :=
  let z := Decimal.round_cents r d in
  if Z.abs z <? 10 ^ 14 then Ok z else Raise DataError.

(** ** views.py: the balance calculator *)

Module BalanceEntry.
(** [{"paid": ..., "owed": ..., "balance": ...}] *)
Record t := Mk { paid : Z; owed : Z; balance : Z }.
End BalanceEntry.

Module UserBalance.
(** [{"group": ..., "balance": ..., "status": ...}] *)
Record t := Mk { group : Group.t; balance : Z; status : string }.
End UserBalance.

Module DashboardView.

(** [Expense.objects.filter(group=group, paid_by=user,
    expense_type=Expense.ExpenseType.GROUP).aggregate(total=Sum("amount"))["total"]
    or Decimal("0.00")] *)
Definition paid (db : DB.t) (group : Group.t) (user : Z) : Z :=
  or_zero (aggregate_Sum (Expense.amount <$>
    filter (λ e, Expense.group e = Some (Group.id group)
                 ∧ Expense.paid_by e = user
                 ∧ Expense.expense_type e = GROUP) (DB.expenses db))).

(** [ExpenseSplit.objects.filter(expense__group=group, user=user,
    is_settled=False).aggregate(total=Sum("amount"))["total"]
    or Decimal("0.00")] *)
Definition owed (db : DB.t) (group : Group.t) (user : Z) : Z :=
  or_zero (aggregate_Sum (ExpenseSplit.amount <$>
    filter (λ s, expense__group db s = Some (Group.id group)
                 ∧ ExpenseSplit.user s = user
                 ∧ ExpenseSplit.is_settled s = false) (DB.splits db))).

(** The body of the loop over the groups: the entry appended, if any. *)
Definition balance_entry (db : DB.t) (user : Z) (group : Group.t)
  : list UserBalance.t :=
  let balance := paid db group user - owed db group user in
  if negb (balance =? 0)
  then [UserBalance.Mk group balance (if balance >? 0 then "owed" else "owes")]
  else [].

Definition calculate_user_balances (db : DB.t) (user : Z) : list UserBalance.t :=
  let groups := filter (λ g, user ∈ Group.members g ∧ Group.is_active g = true)
                       (DB.groups db) in
  foldl (λ balances group, balances ++ balance_entry db user group) [] groups.

End DashboardView.

Module GroupDetailView.

Definition paid (db : DB.t) (group : Group.t) (member : Z) : Z :=
  or_zero (aggregate_Sum (Expense.amount <$>
    filter (λ e, Expense.group e = Some (Group.id group)
                 ∧ Expense.paid_by e = member
                 ∧ Expense.expense_type e = GROUP) (DB.expenses db))).

(** [ExpenseSplit.objects.filter(expense__group=group, user=member)
    .aggregate(total=Sum("amount"))["total"] or Decimal("0.00")] *)
Definition owed (db : DB.t) (group : Group.t) (member : Z) : Z :=
  or_zero (aggregate_Sum (ExpenseSplit.amount <$>
    filter (λ s, expense__group db s = Some (Group.id group)
                 ∧ ExpenseSplit.user s = member) (DB.splits db))).

(** The dict [balances], keyed by member. *)
Definition calculate_group_balances (db : DB.t) (group : Group.t)
  : gmap Z BalanceEntry.t :=
  let members := Group.members group in
  foldl (λ balances member,
           let paid := paid db group member in
           let owed := owed db group member in
           <[member := BalanceEntry.Mk paid owed (paid - owed)]> balances)
        ∅ members.

(** [get_queryset] and the lookup of [get_object]: the active groups of
    which the user is a member. *)
Definition get_object (db : DB.t) (user pk : Z) : option Group.t :=
  List.find (λ g, bool_decide (Group.id g = pk ∧ user ∈ Group.members g
                               ∧ Group.is_active g = true))
            (DB.groups db).

End GroupDetailView.

(** ** In-memory objects *)

Module Money.
(** [Money(amount, currency)] *)
Record t := Mk { amount : Decimal.t; currency : string }.
End Money.

Module ExpenseInstance.
(** An [Expense] model instance held by a form or a view. *)
Record t := Mk {
  pk : Z;
  description : string;
  amount : Money.t;
  expense_type : ExpenseType;
  group : option Z
}.
End ExpenseInstance.

Module SplitInstance.
(** The [ExpenseSplit] instance returned by [objects.create]. *)
Record t := Mk {
  pk : Z;
  expense : Z;
  user : Z;
  split_type : SplitType;
  amount : Money.t
}.
End SplitInstance.

(** ** Form fields *)

(** [ModelChoiceField.clean]: the posted key must be present and name a
    row of the queryset. *)
Definition ModelChoiceField_clean (field : string) (queryset : list Z)
    (value : option Z) : Result Z :=
  match value with
  | None => Raise (ValidationError (Some field) "This field is required.")
  | Some pk =>
      if decide (pk ∈ queryset) then Ok pk
      else Raise (ValidationError (Some field)
                    "Select a valid choice. That choice is not one of the available choices.")
  end.

(** [ModelMultipleChoiceField.clean] with [required=True]: the cleaned
    value is the queryset restricted to the posted keys. *)
Definition ModelMultipleChoiceField_clean (field : string) (queryset : list Z)
    (value : list Z) : Result (list Z) :=
  match value with
  | [] => Raise (ValidationError (Some field) "This field is required.")
  | _ =>
      if decide (Forall (λ pk, pk ∈ queryset) value)
      then Ok (filter (λ pk, pk ∈ value) queryset)
      else Raise (ValidationError (Some field)
                    "Select a valid choice. That choice is not one of the available choices.")
  end.

(** Django's [DecimalValidator(max_digits, decimal_places)]. *)
Definition DecimalValidator (max_digits decimal_places : Z) (d : Decimal.t) : bool :=
  let len := Decimal.ndigits (Decimal.coeff d) in
  let e := Decimal.exp d in
  let '(digits, decimals) :=
    if e >=? 0 then ((if Decimal.coeff d =? 0 then len else len + e), 0)
    else if Z.abs e >? len then (Z.abs e, Z.abs e)
    else (len, Z.abs e) in
  let whole_digits := digits - decimals in
  (digits <=? max_digits) && (decimals <=? decimal_places)
  && (whole_digits <=? max_digits - decimal_places).

(** [a < b] on Decimals, as [MinValueValidator] compares. *)
Definition Decimal_lt (a b : Decimal.t) : bool := Decimal.gt b a.

(** The errors collected by [full_clean], in order; a form is valid when
    there is none. *)
Definition errors_of {A} (r : Result A) : list Exception :=
  match r with
  | Ok _ => []
  | Raise e => [e]
  end.

Definition value_of {A} (r : Result A) : option A :=
  match r with
  | Ok a => Some a
  | Raise _ => None
  end.

(** ** forms.py *)

Module GroupForm.

(** The bound data.  [name] and [description] are given by the outcome
    of the cleaning of their field (the cleaned text, or the error the
    field raises); [members] is the list of posted keys. *)
Record data := Data {
  data_name : Result string;
  data_description : Result string;
  data_members : list Z;
  data_default_currency : string
}.

Record cleaned_data := Cleaned {
  name : string;
  description : string;
  members : list Z;
  default_currency : string
}.

Definition CURRENCY_CHOICES : list string :=
  ["INR"; "USD"; "EUR"; "GBP"; "JPY"; "AUD"; "CAD"; "SGD"].

(** [__init__]: the current user is excluded from the selectable members. *)
Definition members_queryset (db : DB.t) (user : option Z) : list Z :=
  match user with
  | Some u => filter (λ pk, pk ≠ u) (DB.users db)
  | None => DB.users db
  end.

Definition clean_default_currency (v : string) : Result string :=
  if decide (v ∈ CURRENCY_CHOICES) then Ok v
  else Raise (ValidationError (Some "default_currency") "Select a valid choice.").

(** [form.errors] after [full_clean]. *)
Definition errors (db : DB.t) (user : option Z) (d : data) : list Exception :=
  errors_of (data_name d)
  ++ errors_of (data_description d)
  ++ errors_of (ModelMultipleChoiceField_clean "members"
                  (members_queryset db user) (data_members d))
  ++ errors_of (clean_default_currency (data_default_currency d)).

(** [form.cleaned_data] of a valid form; [None] when a field is in error. *)
Definition full_clean (db : DB.t) (user : option Z) (d : data) : option cleaned_data :=
  n ← value_of (data_name d);
  ds ← value_of (data_description d);
  ms ← value_of (ModelMultipleChoiceField_clean "members"
                   (members_queryset db user) (data_members d));
  c ← value_of (clean_default_currency (data_default_currency d));
  Some (Cleaned n ds ms c).

(** [instance.save()]: for an instance that has a key, an UPDATE of the
    rows of that key, or an INSERT when there is none; otherwise an
    INSERT with the next key. *)
Definition save_row (db : DB.t) (pk : option Z) (row : Z → Group.t) : DB.t * Z :=
  match pk with
  | Some i =>
      let groups :=
        if existsb (λ g, Group.id g =? i) (DB.groups db)
        then (λ g, if decide (Group.id g = i) then row i else g) <$> DB.groups db
        else DB.groups db ++ [row i] in
      (DB.Mk (DB.users db) groups
             (DB.expenses db) (DB.splits db) (DB.settlements db)
             (DB.next_group_id db) (DB.next_split_id db) (DB.next_settlement_id db), i)
  | None =>
      let i := DB.next_group_id db in
      (DB.Mk (DB.users db) (DB.groups db ++ [row i])
             (DB.expenses db) (DB.splits db) (DB.settlements db)
             (i + 1) (DB.next_split_id db) (DB.next_settlement_id db), i)
  end.

(** [save(commit)].  [instance] is the row being edited, [None] for a
    new group; the result is the key of the returned instance ([None]
    while it is unsaved).  [instance.members.set(members)] leaves one
    membership row per distinct user; with no [self.user] the appended
    [None] makes it fail, after the row itself was written. *)
Definition save (db : DB.t) (user : option Z) (instance : option Group.t)
    (cd : cleaned_data) (commit : bool) : DB.t * Result (option Z) :=
  let created_by :=
    match user with
    | Some u => Some u
    | None => Group.created_by <$> instance
    end in
  let pk := Group.id <$> instance in
  let old_members := default [] (Group.members <$> instance) in
  let is_active := default true (Group.is_active <$> instance) in
  if commit then
    match created_by with
    | None => (db, Raise IntegrityError)
    | Some cb =>
        let row ms := λ i,
          Group.Mk i (name cd) (description cd) cb ms (default_currency cd) is_active in
        match user with
        | Some u =>
            let members := members cd ++ [u] in
            let '(db', i) := save_row db pk (row (remove_dups members)) in
            (db', Ok (Some i))
        | None =>
            let '(db', _) := save_row db pk (row old_members) in
            (db', Raise IntegrityError)
        end
    end
  else (db, Ok pk).

End GroupForm.

Module ExpenseForm.

(** The field [amount]: [forms.DecimalField(max_digits=14,
    decimal_places=2, min_value=Decimal("0.01"))]. *)
Definition clean_amount (value : option Decimal.t) : Result Decimal.t :=
  match value with
  | None => Raise (ValidationError (Some "amount") "This field is required.")
  | Some d =>
      if Decimal_lt d (Decimal.Dec false 1 (-2))
      then Raise (ValidationError (Some "amount")
                    "Ensure this value is greater than or equal to 0.01.")
      else if DecimalValidator 14 2 d then Ok d
      else Raise (ValidationError (Some "amount")
                    "Ensure that there are no more than 14 digits in total.")
  end.

(** [clean]: a group expense has a group, of which the payer is a member;
    a personal expense has none. *)
Definition clean (expense_type : option ExpenseType) (group : option Group.t)
    (paid_by : option Z) : Result unit :=
  match expense_type, group with
  | Some GROUP, None =>
      Raise (ValidationError (Some "group") "Group expenses must belong to a group.")
  | Some PERSONAL, Some _ =>
      Raise (ValidationError (Some "group")
               "Personal expenses should not belong to a group.")
  | Some GROUP, Some g =>
      match paid_by with
      | Some payer =>
          if decide (payer ∈ Group.members g) then Ok tt
          else Raise (ValidationError (Some "paid_by")
                        "Payer must be a member of the group.")
      | None => Ok tt
      end
  | _, _ => Ok tt
  end.

(** The bound data.  [description] is given by the outcome of the
    cleaning of its field; [group], [paid_by] and [category] are the
    posted keys, [None] for an empty value. *)
Record data := Data {
  data_description : Result string;
  data_amount : option Decimal.t;
  data_expense_type : string;
  data_group : option Z;
  data_paid_by : option Z;
  data_category : option Z;
  data_date : option Z;
  data_notes : string
}.

(** [cleaned_data] of a valid form. *)
Record cleaned_data := Cleaned {
  description : string;
  amount : Decimal.t;
  expense_type : ExpenseType;
  group : option Group.t;
  paid_by : Z;
  category : Z;
  date : Z;
  notes : string
}.

(** [Expense.ExpenseType.choices], by stored value. *)
Definition ExpenseType_of_value (v : string) : option ExpenseType :=
  if decide (v = "personal") then Some PERSONAL
  else if decide (v = "group") then Some GROUP
  else None.

Definition clean_expense_type (v : string) : Result ExpenseType :=
  if decide (v = EmptyString)
  then Raise (ValidationError (Some "expense_type") "This field is required.")
  else
    match ExpenseType_of_value v with
    | Some t => Ok t
    | None => Raise (ValidationError (Some "expense_type")
                       ("Select a valid choice. " +:+ v
                        +:+ " is not one of the available choices."))
    end.

(** [__init__]: the groups offered are the active groups of the user. *)
Definition group_queryset (db : DB.t) (user : option Z) : list Group.t :=
  match user with
  | Some u => filter (λ g, u ∈ Group.members g ∧ Group.is_active g = true)
                     (DB.groups db)
  | None => DB.groups db
  end.

(** The field [group], with [required = False]. *)
Definition clean_group (db : DB.t) (user : option Z) (value : option Z)
  : Result (option Group.t) :=
  match value with
  | None => Ok None
  | Some pk =>
      match List.find (λ g, Group.id g =? pk) (group_queryset db user) with
      | Some g => Ok (Some g)
      | None => Raise (ValidationError (Some "group")
                         "Select a valid choice. That choice is not one of the available choices.")
      end
  end.

Definition clean_date (v : option Z) : Result Z :=
  match v with
  | None => Raise (ValidationError (Some "date") "This field is required.")
  | Some d => Ok d
  end.

(** [paid_by] and [category] keep the querysets of the model form: every
    user, every category. *)
Definition clean_paid_by (store : Store.t) (v : option Z) : Result Z :=
  ModelChoiceField_clean "paid_by" (DB.users (Store.db store)) v.

Definition clean_category (store : Store.t) (v : option Z) : Result Z :=
  ModelChoiceField_clean "category" (Category.id <$> Store.categories store) v.

(** [form.errors] after [full_clean]: the errors of the fields, then
    those of [clean], which reads what the fields left in
    [cleaned_data]. *)
Definition errors (store : Store.t) (user : option Z) (d : data) : list Exception :=
  let et := clean_expense_type (data_expense_type d) in
  let g := clean_group (Store.db store) user (data_group d) in
  let pb := clean_paid_by store (data_paid_by d) in
  errors_of (data_description d)
  ++ errors_of (clean_amount (data_amount d))
  ++ errors_of et ++ errors_of g ++ errors_of pb
  ++ errors_of (clean_category store (data_category d))
  ++ errors_of (clean_date (data_date d))
  ++ errors_of (clean (value_of et) (mjoin (value_of g)) (value_of pb)).

(** [form.cleaned_data] once the fields and [clean] have run
    ([_clean_fields], [_clean_form]); [None] when there is an error. *)
Definition clean_form (store : Store.t) (user : option Z) (d : data)
  : option cleaned_data :=
  ds ← value_of (data_description d);
  am ← value_of (clean_amount (data_amount d));
  et ← value_of (clean_expense_type (data_expense_type d));
  g ← value_of (clean_group (Store.db store) user (data_group d));
  pb ← value_of (clean_paid_by store (data_paid_by d));
  cat ← value_of (clean_category store (data_category d));
  dt ← value_of (clean_date (data_date d));
  _ ← value_of (clean (Some et) g (Some pb));
  Some (Cleaned ds am et g pb cat dt (data_notes d)).

(** [_post_clean]: the cleaned values are put on the instance, which is
    then validated as a model, the fields in error left out.  The
    validator of the column [Expense.amount] is Django's
    [MinValueValidator(Decimal("0.01"))]; django-money hands it the
    [Money] of the instance, and [Money < Decimal] is refused by
    py-moneyed with [MoneyComparisonError], a [TypeError] that no form
    collects.  So the exception leaves [full_clean] whenever the field
    [amount] has let a value through, whatever the other fields hold. *)
Definition post_clean (d : data) : Result unit :=
  match clean_amount (data_amount d) with
  | Ok _ => Raise MoneyComparisonError
  | Raise _ => Ok tt
  end.

(** [full_clean], as [is_valid] runs it: the cleaned data of a form
    without error, [None] for a form with errors, or the exception that
    the validation of the model lets out. *)
Definition full_clean (store : Store.t) (user : option Z) (d : data)
  : Result (option cleaned_data) :=
  match post_clean d with
  | Raise e => Raise e
  | Ok _ => Ok (clean_form store user d)
  end.

(** The currency [save] gives the amount: the default currency of the
    group when it has one, INR otherwise. *)
Definition currency (group : option Group.t) : string :=
  match group with
  | Some g =>
      if decide (Group.default_currency g = EmptyString) then "INR"
      else Group.default_currency g
  | None => "INR"
  end.

(** [save()] of the valid form of a new expense, the row committed: one
    INSERT with the next key.  An amount that is falsy keeps the
    currency of the column, INR; without [self.user] the row has no
    [user] and is refused. *)
Definition save (r : Decimal.Rounding) (store : Store.t) (user : option Z)
    (cd : cleaned_data) : Store.t * Result ExpenseInstance.t :=
  let money :=
    Money.Mk (amount cd)
      (if Decimal.truthy (amount cd) then currency (group cd) else "INR") in
  match user with
  | None => (store, Raise IntegrityError)
  | Some u =>
      match to_db_column r (amount cd) with
      | Raise e => (store, Raise e)
      | Ok stored =>
          let db := Store.db store in
          let pk := Store.next_expense_id store in
          let row := Expense.Mk pk (description cd) stored (Money.currency money)
                       (expense_type cd) u (Group.id <$> group cd) (paid_by cd) in
          (Store.Mk
             (DB.Mk (DB.users db) (DB.groups db) (DB.expenses db ++ [row])
                    (DB.splits db) (DB.settlements db)
                    (DB.next_group_id db) (DB.next_split_id db)
                    (DB.next_settlement_id db))
             (Store.categories store) (pk + 1) (Store.next_category_id store),
           Ok (ExpenseInstance.Mk pk (description cd) money (expense_type cd)
                 (Group.id <$> group cd)))
      end
  end.

End ExpenseForm.

Module ExpenseSplitFormSet.

(** [form.cleaned_data] of one [ExpenseSplitForm]; a key that is absent
    reads as [None] through [get]. *)
Record cleaned_data := Cleaned {
  user : option Z;
  amount : option Decimal.t;
  percentage : option Decimal.t;
  shares : option Z;
  DELETE : bool
}.

(** One form of the formset: whether its error dict is non-empty, and
    its [cleaned_data] ([None]: the empty dict of an untouched extra
    form). *)
Record form := Form {
  has_errors : bool;
  form_cleaned_data : option cleaned_data
}.

Record totals := Totals {
  total_amount : Decimal.t;
  total_percentage : Decimal.t;
  total_shares : Z;
  users : list (option Z)
}.

Definition initial : totals :=
  Totals (Decimal.Dec false 0 (-2)) (Decimal.Dec false 0 (-2)) 0 [].

Definition set_users (users' : list (option Z)) (t : totals) : totals :=
  Totals (total_amount t) (total_percentage t) (total_shares t) users'.

Definition set_total_amount (total : Decimal.t) (t : totals) : totals :=
  Totals total (total_percentage t) (total_shares t) (users t).

Definition set_total_percentage (total : Decimal.t) (t : totals) : totals :=
  Totals (total_amount t) total (total_shares t) (users t).

Definition set_total_shares (total : Z) (t : totals) : totals :=
  Totals (total_amount t) (total_percentage t) total (users t).

(** The body of [for form in self.forms]. *)
Definition visit (split_type : SplitType) (t : totals) (f : form) : Result totals :=
  match form_cleaned_data f with
  | Some cd =>
      if DELETE cd then Ok t
      else if decide (user cd ∈ users t)
      then Raise (ValidationError None "Each user can only be added once.")
      else
        let t := set_users (users t ++ [user cd]) t in
        match split_type with
        | EXACT =>
            match amount cd with
            | Some amount =>
                if Decimal.truthy amount
                then Ok (set_total_amount (Decimal.add (total_amount t) amount) t)
                else Ok t
            | None => Ok t
            end
        | PERCENTAGE =>
            match percentage cd with
            | Some percentage =>
                if Decimal.truthy percentage
                then Ok (set_total_percentage
                           (Decimal.add (total_percentage t) percentage) t)
                else Ok t
            | None => Ok t
            end
        | SHARES =>
            match shares cd with
            | Some shares =>
                if negb (shares =? 0)
                then Ok (set_total_shares (total_shares t + shares) t)
                else Ok t
            | None => Ok t
            end
        | EQUAL => Ok t
        end
  | None => Ok t
  end.

Fixpoint visit_all (split_type : SplitType) (t : totals) (forms : list form)
  : Result totals :=
  match forms with
  | [] => Ok t
  | f :: forms' =>
      match visit split_type t f with
      | Ok t' => visit_all split_type t' forms'
      | Raise e => Raise e
      end
  end.

Definition exact_message (total expected : Decimal.t) : string :=
  "Split amounts must equal expense amount. Total: ₹" +:+ Decimal.to_str total
  +:+ ", Expected: ₹" +:+ Decimal.to_str expected.

Definition percentage_message (total : Decimal.t) : string :=
  "Percentages must add up to 100%. Current total: " +:+ Decimal.to_str total
  +:+ "%".

(** [clean].  [Ok tt] is a return without exception. *)
Definition clean (expense : option ExpenseInstance.t) (split_type : SplitType)
    (forms : list form) : Result unit :=
  if existsb has_errors forms then Ok tt
  else
    match visit_all split_type initial forms with
    | Raise e => Raise e
    | Ok t =>
        match expense with
        | Some expense =>
            let expense_amount := Money.amount (ExpenseInstance.amount expense) in
            match split_type with
            | EXACT =>
                if Decimal.gt (Decimal.abs (Decimal.sub (total_amount t) expense_amount))
                              (Decimal.Dec false 1 (-2))
                then Raise (ValidationError None
                              (exact_message (total_amount t) expense_amount))
                else Ok tt
            | PERCENTAGE =>
                if Decimal.gt (Decimal.abs (Decimal.sub (total_percentage t)
                                                        (Decimal.Dec false 10000 (-2))))
                              (Decimal.Dec false 1 (-2))
                then Raise (ValidationError None
                              (percentage_message (total_percentage t)))
                else Ok tt
            | _ => Ok tt
            end
        | None => Ok tt
        end
    end.

End ExpenseSplitFormSet.

(** [ExpenseSplit.objects.create(expense=..., user=..., split_type=...,
    amount=...)]: one INSERT; the row takes the stored amount, the
    instance handed back keeps the Decimal it was given. *)
Definition ExpenseSplit_create (r : Decimal.Rounding) (db : DB.t)
    (expense user : Z) (split_type : SplitType) (amount : Money.t)
  : DB.t * Result SplitInstance.t :=
  match to_db_column r (Money.amount amount) with
  | Raise e => (db, Raise e)
  | Ok stored =>
      let pk := DB.next_split_id db in
      let row := ExpenseSplit.Mk pk expense user split_type stored
                   (Money.currency amount) None None false in
      (DB.Mk (DB.users db) (DB.groups db) (DB.expenses db)
             (DB.splits db ++ [row]) (DB.settlements db)
             (DB.next_group_id db) (pk + 1) (DB.next_settlement_id db),
       Ok (SplitInstance.Mk pk expense user split_type amount))
  end.

(** [expense.splits.all().delete()]: the splits of the expense go, and
    with them the rows that link them to a settlement. *)
Definition delete_splits (db : DB.t) (expense : Z) : DB.t :=
  let gone := ExpenseSplit.id <$>
                filter (λ s, ExpenseSplit.expense s = expense) (DB.splits db) in
  DB.Mk (DB.users db) (DB.groups db) (DB.expenses db)
        (filter (λ s, ExpenseSplit.expense s ≠ expense) (DB.splits db))
        ((λ st, Settlement.Mk (Settlement.id st) (Settlement.group st)
                  (Settlement.paid_by st) (Settlement.paid_to st)
                  (Settlement.amount st) (Settlement.amount_currency st)
                  (Settlement.settlement_date st) (Settlement.notes st)
                  (Settlement.payment_method st)
                  (filter (λ i, i ∉ gone) (Settlement.expense_splits st)))
           <$> DB.settlements db)
        (DB.next_group_id db) (DB.next_split_id db) (DB.next_settlement_id db).

(** [group.delete()]: the row goes and, by [on_delete=CASCADE], the
    expenses of the group with their splits and the settlements of the
    group; a settlement that stays loses its links to the splits that
    go. *)
Definition Group_delete (db : DB.t) (group : Z) : DB.t :=
  let gone_expenses :=
    Expense.id <$> filter (λ e, Expense.group e = Some group) (DB.expenses db) in
  let gone := ExpenseSplit.id <$>
                filter (λ s, ExpenseSplit.expense s ∈ gone_expenses) (DB.splits db) in
  DB.Mk (DB.users db)
        (filter (λ g, Group.id g ≠ group) (DB.groups db))
        (filter (λ e, Expense.group e ≠ Some group) (DB.expenses db))
        (filter (λ s, ExpenseSplit.expense s ∉ gone_expenses) (DB.splits db))
        ((λ st, Settlement.Mk (Settlement.id st) (Settlement.group st)
                  (Settlement.paid_by st) (Settlement.paid_to st)
                  (Settlement.amount st) (Settlement.amount_currency st)
                  (Settlement.settlement_date st) (Settlement.notes st)
                  (Settlement.payment_method st)
                  (filter (λ i, i ∉ gone) (Settlement.expense_splits st)))
           <$> filter (λ st, Settlement.group st ≠ group) (DB.settlements db))
        (DB.next_group_id db) (DB.next_split_id db) (DB.next_settlement_id db).

Module SimpleSplitForm.

(** The posted data. *)
Record data := Data {
  data_split_type : string;
  data_members : list Z
}.

(** [cleaned_data]; a field in error is absent. *)
Record cleaned_data := Cleaned {
  split_type : option SplitType;
  members : option (list Z)
}.

(** [__init__]: the members of the group, or [User.objects.none()]. *)
Definition members_queryset (group : option Group.t) : list Z :=
  match group with
  | Some g => Group.members g
  | None => []
  end.

Definition clean_split_type (v : string) : Result SplitType :=
  match SplitType_of_value v with
  | Some s => Ok s
  | None => Raise (ValidationError (Some "split_type") "Select a valid choice.")
  end.

Definition clean_fields (group : option Group.t) (d : data)
  : cleaned_data * list Exception :=
  let st := clean_split_type (data_split_type d) in
  let ms := ModelMultipleChoiceField_clean "members"
              (members_queryset group) (data_members d) in
  (Cleaned (value_of st) (value_of ms), errors_of st ++ errors_of ms).

(** [form.errors] after [full_clean]. *)
Definition errors (group : option Group.t) (d : data) : list Exception :=
  (clean_fields group d).2.

Definition is_valid (group : option Group.t) (d : data) : bool :=
  bool_decide (errors group d = []).

(** [for member in members: ... splits.append(split)] *)
Fixpoint create_all (r : Decimal.Rounding) (db : DB.t) (expense : Z)
    (split_type : SplitType) (amount : Money.t) (members : list Z)
    (splits : list SplitInstance.t) : DB.t * Result (list SplitInstance.t) :=
  match members with
  | [] => (db, Ok splits)
  | member :: members' =>
      match ExpenseSplit_create r db expense member split_type amount with
      | (db', Ok split) =>
          create_all r db' expense split_type amount members' (splits ++ [split])
      | (db', Raise e) => (db', Raise e)
      end
  end.

(** [save]. *)
Definition save (r : Decimal.Rounding) (db : DB.t)
    (expense : option ExpenseInstance.t) (cd : cleaned_data)
  : DB.t * Result (list SplitInstance.t) :=
  match expense with
  | None => (db, Ok [])
  | Some expense =>
      match split_type cd, members cd with
      | None, _ => (db, Raise (KeyError "split_type"))
      | Some _, None => (db, Raise (KeyError "members"))
      | Some split_type, Some members =>
          let db1 := delete_splits db (ExpenseInstance.pk expense) in
          let expense_amount := Money.amount (ExpenseInstance.amount expense) in
          let num_members := Z.of_nat (length members) in
          if decide (split_type = EQUAL) then
            match Decimal.truediv expense_amount (Decimal.of_int num_members) with
            | None => (db1, Raise DivisionByZero)
            | Some per_person =>
                create_all r db1 (ExpenseInstance.pk expense) split_type
                  (Money.Mk per_person
                     (Money.currency (ExpenseInstance.amount expense)))
                  members []
            end
          else (db1, Ok [])
      end
  end.

End SimpleSplitForm.

Module SettlementForm.

(** The posted data; [amount] is the text posted under that name, empty
    when there is none.  [expense_splits] stands for allocation keys
    sent along with the request: [Meta.fields] does not list that field,
    so the form never reads them. *)
Record data := Data {
  data_paid_by : option Z;
  data_paid_to : option Z;
  data_amount : string;
  data_settlement_date : option Z;
  data_payment_method : string;
  data_notes : string;
  data_expense_splits : list Z
}.

(** [cleaned_data]; a field in error is absent. *)
Record cleaned_data := Cleaned {
  paid_by : option Z;
  paid_to : option Z;
  amount : option Money.t;
  settlement_date : option Z;
  payment_method : option string;
  notes : string
}.

(** [__init__]: with a group, payer and payee are chosen among its
    members. *)
Definition queryset (db : DB.t) (group : option Group.t) : list Z :=
  match group with
  | Some g => Group.members g
  | None => DB.users db
  end.

(** The field [amount].  The form field of a [MoneyField] column is
    django-money's [MoneyField], a [MultiValueField] of an amount and a
    currency that reads a list of two values from its [MoneyWidget];
    [Meta.widgets] puts a single [NumberInput] in its place, which hands
    over the posted text.  [MultiValueField.clean] takes an empty text
    for a missing value and refuses any other value that is not a list:
    no posted amount gets through. *)
Definition clean_amount (v : string) : Result Money.t :=
  if decide (v = EmptyString)
  then Raise (ValidationError (Some "amount") "This field is required.")
  else Raise (ValidationError (Some "amount") "Enter a list of values.").

Definition clean_settlement_date (v : option Z) : Result Z :=
  match v with
  | None => Raise (ValidationError (Some "settlement_date") "This field is required.")
  | Some d => Ok d
  end.

Definition clean_payment_method (v : string) : Result string :=
  if Z.of_nat (String.length v) <=? 50 then Ok v
  else Raise (ValidationError (Some "payment_method")
                "Ensure this value has at most 50 characters.").

Definition clean_fields (db : DB.t) (group : option Group.t) (d : data)
  : cleaned_data * list Exception :=
  let pb := ModelChoiceField_clean "paid_by" (queryset db group) (data_paid_by d) in
  let pt := ModelChoiceField_clean "paid_to" (queryset db group) (data_paid_to d) in
  let am := clean_amount (data_amount d) in
  let sd := clean_settlement_date (data_settlement_date d) in
  let pm := clean_payment_method (data_payment_method d) in
  (Cleaned (value_of pb) (value_of pt) (value_of am) (value_of sd) (value_of pm)
           (data_notes d),
   errors_of pb ++ errors_of pt ++ errors_of am ++ errors_of sd ++ errors_of pm).

(** [clean]. *)
Definition clean (cd : cleaned_data) : Result cleaned_data :=
  match paid_by cd, paid_to cd with
  | Some paid_by, Some paid_to =>
      if decide (paid_by = paid_to)
      then Raise (ValidationError None "You cannot settle with yourself.")
      else Ok cd
  | _, _ => Ok cd
  end.

(** [_post_clean]: the validation of the model instance, from which a
    field in error is left out.  The validator of the column
    [Settlement.amount], Django's [MinValueValidator(Decimal("0.01"))],
    is handed the [Money] of the instance, and [Money < Decimal] is
    refused by py-moneyed with [MoneyComparisonError], a [TypeError]
    that no form collects. *)
Definition validate_amount (cd : cleaned_data) : Result unit :=
  match amount cd with
  | Some _ => Raise MoneyComparisonError
  | None => Ok tt
  end.

(** [form.errors] after [full_clean]: the errors of the fields, then
    that of [clean]. *)
Definition errors (db : DB.t) (group : option Group.t) (d : data) : list Exception :=
  let '(cd, field_errors) := clean_fields db group d in
  field_errors ++ errors_of (clean cd).

(** [is_valid()]: whether [full_clean] leaves no error, or the exception
    that the validation of the model lets out. *)
Definition is_valid (db : DB.t) (group : option Group.t) (d : data) : Result bool :=
  match validate_amount (clean_fields db group d).1 with
  | Raise e => Raise e
  | Ok _ => Ok (bool_decide (errors db group d = []))
  end.

(** [save(commit)] on a form without errors, [cd] being its cleaned
    data; the result is the key of the returned instance ([None] while
    unsaved).  A settlement without group violates the NOT NULL
    constraint of the column.  The row holds what the form has cleaned
    and the group the form was given: no link to a split, whatever the
    request named. *)
Definition save (r : Decimal.Rounding) (db : DB.t) (group : option Group.t)
    (cd : cleaned_data) (commit : bool) : DB.t * Result (option Z) :=
  if commit then
    match group, paid_by cd, paid_to cd, amount cd, settlement_date cd with
    | Some g, Some pb, Some pt, Some m, Some date =>
        match to_db_column r (Money.amount m) with
        | Raise e => (db, Raise e)
        | Ok stored =>
            let pk := DB.next_settlement_id db in
            let row := Settlement.Mk pk (Group.id g) pb pt stored (Money.currency m)
                         date (notes cd) (default "" (payment_method cd)) [] in
            (DB.Mk (DB.users db) (DB.groups db) (DB.expenses db) (DB.splits db)
                   (DB.settlements db ++ [row])
                   (DB.next_group_id db) (DB.next_split_id db) (pk + 1),
             Ok (Some pk))
        end
    | _, _, _, _, _ => (db, Raise IntegrityError)
    end
  else (db, Ok None).

End SettlementForm.

(** ** views.py: the writing views *)

Inductive Response :=
| Redirect
| FormInvalid (errors : list Exception)
| Raised (e : Exception)
| Http404.

Inductive Message :=
| success (text : string)
| error (text : string).

Definition dquote : string := String (Ascii.ascii_of_nat 34) EmptyString.

(** What a view leaves for the browser: the response and the messages it
    has queued. *)
Module Reply.
Record t := Mk { response : Response; messages : list Message }.
End Reply.

Module ExpenseCreateView.

(** [form_valid], for the form of [user] whose cleaned data are [cd];
    [POST] is the split data of the same request.
    [super().form_valid(form)] saves the expense and prepares the
    redirect to [get_success_url()], which reads [self.object.group.pk]
    for a group expense; only then is the split form looked at, for the
    group of the saved expense as the database holds it. *)
Definition form_valid (r : Decimal.Rounding) (store : Store.t) (user : Z)
    (cd : ExpenseForm.cleaned_data) (POST : SimpleSplitForm.data)
  : Store.t * Reply.t :=
  match ExpenseForm.save r store (Some user) cd with
  | (store1, Raise e) => (store1, Reply.Mk (Raised e) [])
  | (store1, Ok self_object) =>
      if decide (ExpenseInstance.expense_type self_object = GROUP) then
        match ExpenseInstance.group self_object with
        | None => (store1, Reply.Mk (Raised AttributeError) [])
        | Some pk =>
            let db := Store.db store1 in
            let group := List.find (λ g, Group.id g =? pk) (DB.groups db) in
            if SimpleSplitForm.is_valid group POST then
              match SimpleSplitForm.save r db (Some self_object)
                      (SimpleSplitForm.clean_fields group POST).1 with
              | (db', Ok _) =>
                  (Store.with_db store1 db',
                   Reply.Mk Redirect
                     [success ("Expense " +:+ dquote
                               +:+ ExpenseInstance.description self_object +:+ dquote
                               +:+ " created and split among members!")])
              | (db', Raise e) => (Store.with_db store1 db', Reply.Mk (Raised e) [])
              end
            else
              (store1, Reply.Mk Redirect [error "Error creating splits. Please try again."])
        end
      else
        (store1,
         Reply.Mk Redirect
           [success ("Personal expense " +:+ dquote
                     +:+ ExpenseInstance.description self_object +:+ dquote
                     +:+ " added!")])
  end.

(** A POST to [expenses/create/] by [user]: [form.is_valid()], then
    [form_valid] or the form shown again with its errors; an exception
    that leaves [is_valid] ends the request. *)
Definition post (r : Decimal.Rounding) (store : Store.t) (user : Z)
    (d : ExpenseForm.data) (POST : SimpleSplitForm.data) : Store.t * Reply.t :=
  match ExpenseForm.full_clean store (Some user) d with
  | Raise e => (store, Reply.Mk (Raised e) [])
  | Ok None => (store, Reply.Mk (FormInvalid (ExpenseForm.errors store (Some user) d)) [])
  | Ok (Some cd) => form_valid r store user cd POST
  end.

End ExpenseCreateView.

Module SettlementCreateView.

(** [get_object_or_404(Group, pk=group_pk, members=request.user)] *)
Definition get_group (db : DB.t) (user group_pk : Z) : option Group.t :=
  List.find (λ g, bool_decide (Group.id g = group_pk ∧ user ∈ Group.members g))
            (DB.groups db).

(** [get_form_kwargs]: the group is looked up when [group_pk] is truthy;
    the outer [None] stands for the 404. *)
Definition get_form_kwargs (db : DB.t) (user group_pk : Z)
  : option (option Group.t) :=
  if group_pk =? 0 then Some None
  else
    match get_group db user group_pk with
    | Some group => Some (Some group)
    | None => None
    end.

(** A POST to [groups/<group_pk>/settle/] by [user]. *)
Definition post (r : Decimal.Rounding) (db : DB.t) (user group_pk : Z)
    (d : SettlementForm.data) : DB.t * Response :=
  match get_form_kwargs db user group_pk with
  | None => (db, Http404)
  | Some group =>
      match SettlementForm.is_valid db group d with
      | Raise e => (db, Raised e)
      | Ok true =>
          match SettlementForm.save r db group
                  (SettlementForm.clean_fields db group d).1 true with
          | (db', Ok _) => (db', Redirect)
          | (db', Raise e) => (db', Raised e)
          end
      | Ok false => (db, FormInvalid (SettlementForm.errors db group d))
      end
  end.

End SettlementCreateView.

Module GroupCreateView.

(** A POST to [groups/create/] by [user]. *)
Definition post (db : DB.t) (user : Z) (d : GroupForm.data) : DB.t * Response :=
  match GroupForm.full_clean db (Some user) d with
  | Some cd =>
      match GroupForm.save db (Some user) None cd true with
      | (db', Ok _) => (db', Redirect)
      | (db', Raise e) => (db', Raised e)
      end
  | None => (db, FormInvalid (GroupForm.errors db (Some user) d))
  end.

End GroupCreateView.

Module GroupUpdateView.

(** [get_queryset]: only the creator edits, and only an active group. *)
Definition get_object (db : DB.t) (user pk : Z) : option Group.t :=
  List.find (λ g, bool_decide (Group.id g = pk ∧ Group.created_by g = user
                               ∧ Group.is_active g = true))
            (DB.groups db).

(** A POST to [groups/<pk>/edit/] by [user]. *)
Definition post (db : DB.t) (user pk : Z) (d : GroupForm.data) : DB.t * Response :=
  match get_object db user pk with
  | None => (db, Http404)
  | Some instance =>
      match GroupForm.full_clean db (Some user) d with
      | Some cd =>
          match GroupForm.save db (Some user) (Some instance) cd true with
          | (db', Ok _) => (db', Redirect)
          | (db', Raise e) => (db', Raised e)
          end
      | None => (db, FormInvalid (GroupForm.errors db (Some user) d))
      end
  end.

End GroupUpdateView.

Module GroupDeleteView.

(** [get_queryset]: only the creator deletes, and only an active group. *)
Definition get_object (db : DB.t) (user pk : Z) : option Group.t :=
  List.find (λ g, bool_decide (Group.id g = pk ∧ Group.created_by g = user
                               ∧ Group.is_active g = true))
            (DB.groups db).

(** The method [delete], which [View.dispatch] runs for a request of the
    HTTP method DELETE to [groups/<pk>/delete/] by [user]: the row is
    kept and saved with [is_active = False]. *)
Definition delete (db : DB.t) (user pk : Z) : DB.t * Reply.t :=
  match get_object db user pk with
  | None => (db, Reply.Mk Http404 [])
  | Some object =>
      let row := λ i,
        Group.Mk i (Group.name object) (Group.description object)
          (Group.created_by object) (Group.members object)
          (Group.default_currency object) false in
      ((GroupForm.save_row db (Some (Group.id object)) row).1,
       Reply.Mk Redirect
         [success ("Group " +:+ dquote +:+ Group.name object +:+ dquote
                   +:+ " deleted successfully!")])
  end.

(** A POST to [groups/<pk>/delete/] by [user], as the confirmation page
    sends it.  The view does not define [post]: [BaseDeleteView.post]
    of the Django this project runs on (its settings use [STORAGES],
    its admin [usable_password]) checks the empty form and goes to
    [form_valid], which calls [self.object.delete()] and redirects; the
    method [delete] above is not called and no message is queued. *)
Definition post (db : DB.t) (user pk : Z) : DB.t * Reply.t :=
  match get_object db user pk with
  | None => (db, Reply.Mk Http404 [])
  | Some object => (Group_delete db (Group.id object), Reply.Mk Redirect [])
  end.

End GroupDeleteView.

Module ExpenseListView.

(** The rows that the join [group__members] gives an expense (a LEFT
    OUTER JOIN, under [Q(...) | Q(...)]): one per member of its group,
    or one of NULLs when it has no group or the group no member. *)
Definition group__members (db : DB.t) (e : Expense.t) : list (option Z) :=
  match pk ← Expense.group e; List.find (λ g, Group.id g =? pk) (DB.groups db) with
  | Some g =>
      match Group.members g with
      | [] => [None]
      | members => Some <$> members
      end
  | None => [None]
  end.

(** [Expense.objects.filter(Q(user=user) | Q(group__members=user))]: the
    expense comes once for every row of the join that passes the
    condition (the queryset has no [distinct()]). *)
Definition filter_Q (db : DB.t) (user : Z) : list Expense.t :=
  e ← DB.expenses db;
  (λ _, e) <$> filter (λ m, Expense.user e = user ∨ m = Some user)
                      (group__members db e).

(** [get_queryset], for the value of the parameter [type] of the request
    ("all" when it is absent); the rows are in the order of the table,
    not in that of [order_by]. *)
Definition get_queryset (db : DB.t) (user : Z) (expense_type : string)
  : list Expense.t :=
  let queryset := filter_Q db user in
  if decide (expense_type = "personal")
  then filter (λ e, Expense.expense_type e = PERSONAL) queryset
  else if decide (expense_type = "group")
  then filter (λ e, Expense.expense_type e = GROUP) queryset
  else queryset.

End ExpenseListView.

(** [queryset.get()]: the row, [DoesNotExist] (a 404 in a detail view)
    or [MultipleObjectsReturned]. *)
Inductive Lookup (A : Type) :=
| Found (a : A)
| DoesNotExist
| MultipleObjectsReturned.
Arguments Found {A} a.
Arguments DoesNotExist {A}.
Arguments MultipleObjectsReturned {A}.

Module ExpenseDetailView.

(** [get_object]: [get_queryset().filter(pk=pk).get()]. *)
Definition get_object (db : DB.t) (user pk : Z) : Lookup Expense.t :=
  match filter (λ e, Expense.id e = pk) (ExpenseListView.filter_Q db user) with
  | [] => DoesNotExist
  | [e] => Found e
  | _ => MultipleObjectsReturned
  end.

End ExpenseDetailView.

Module ExpenseDeleteView.

(** [get_queryset]: only the user who recorded the expense deletes it. *)
Definition get_object (db : DB.t) (user pk : Z) : option Expense.t :=
  List.find (λ e, bool_decide (Expense.id e = pk ∧ Expense.user e = user))
            (DB.expenses db).

(** The method [delete], which [View.dispatch] runs for a request of the
    HTTP method DELETE to [expenses/<pk>/delete/] by [user]: the row
    goes and, by [on_delete=CASCADE], its splits and their links to
    settlements with it.  A POST removes the same rows through
    [form_valid] and queues no message. *)
Definition delete (db : DB.t) (user pk : Z) : DB.t * Reply.t :=
  match get_object db user pk with
  | None => (db, Reply.Mk Http404 [])
  | Some expense =>
      let db1 := delete_splits db pk in
      (DB.Mk (DB.users db1) (DB.groups db1)
             (filter (λ e, Expense.id e ≠ pk) (DB.expenses db1))
             (DB.splits db1) (DB.settlements db1)
             (DB.next_group_id db1) (DB.next_split_id db1)
             (DB.next_settlement_id db1),
       Reply.Mk Redirect
         [success ("Expense " +:+ dquote +:+ Expense.description expense +:+ dquote
                   +:+ " deleted successfully!")])
  end.

End ExpenseDeleteView.

Module SettlementListView.

(** [Settlement.objects.filter(group__pk=group_pk,
    group__members=request.user)]: the rows, in the order of the table
    and not in that of [order_by]. *)
Definition get_queryset (db : DB.t) (user group_pk : Z) : list Settlement.t :=
  filter (λ st, Settlement.group st = group_pk
                ∧ Exists (λ g, Group.id g = Settlement.group st
                               ∧ user ∈ Group.members g) (DB.groups db))
         (DB.settlements db).

(** A GET of [groups/<group_pk>/settlements/] by [user]: the queryset
    the pages are cut from, or [None] for the 404 of
    [get_context_data]. *)
Definition get (db : DB.t) (user group_pk : Z) : option (list Settlement.t) :=
  match SettlementCreateView.get_group db user group_pk with
  | Some _ => Some (get_queryset db user group_pk)
  | None => None
  end.

End SettlementListView.

Module CategoryForm.

(** The bound data: [name] by the outcome of the cleaning of its field. *)
Record data := Data { data_name : Result string }.

(** [save(commit)] on a valid form, [name] being its cleaned name; the
    result is the key of the returned instance ([None] while unsaved). *)
Definition save (store : Store.t) (user : option Z) (name : string)
    (commit : bool) : Store.t * option Z :=
  if commit then
    let pk := Store.next_category_id store in
    (Store.Mk (Store.db store)
              (Store.categories store ++ [Category.Mk pk name user])
              (Store.next_expense_id store) (pk + 1),
     Some pk)
  else (store, None).

End CategoryForm.

Module CategoryCreateView.

(** A POST to [categories/create/] by [user]. *)
Definition post (store : Store.t) (user : Z) (d : CategoryForm.data)
  : Store.t * Reply.t :=
  match CategoryForm.data_name d with
  | Ok name =>
      ((CategoryForm.save store (Some user) name true).1,
       Reply.Mk Redirect
         [success ("Category " +:+ dquote +:+ name +:+ dquote +:+ " created!")])
  | Raise e => (store, Reply.Mk (FormInvalid [e]) [])
  end.

End CategoryCreateView.

Module CategoryListView.

(** [Category.objects.filter(Q(created_by=None) |
    Q(created_by=request.user))]: the rows, in the order of the table
    and not in that of [order_by]. *)
Definition get_queryset (store : Store.t) (user : Z) : list Category.t :=
  filter (λ c, Category.created_by c = None ∨ Category.created_by c = Some user)
         (Store.categories store).

End CategoryListView.

(** ** templatetags/expense_filters.py *)

Module expense_filters.

(** What a template hands to a filter: a Decimal, an int, a string or
    [None]. *)
Inductive value :=
| Number (d : Decimal.t)
| Integer (n : Z)
| Text (s : string)
| NoneValue.

(** [abs_value]: [abs(value)], or the value itself when [abs] raises
    TypeError, as it does on a string and on [None]. *)
Definition abs_value (v : value) : value :=
  match v with
  | Number d => Number (Decimal.abs d)
  | Integer n => Integer (Z.abs n)
  | Text _ | NoneValue => v
  end.

End expense_filters.

(** ** The quantities the properties speak of *)

Definition sumZ (l : list Z) : Z := foldr Z.add 0 l.

(** The sum of the balances held by the dict of a group. *)
Definition balances_total (balances : gmap Z BalanceEntry.t) : Z :=
  map_fold (λ _ entry total, BalanceEntry.balance entry + total) 0 balances.

(** The allocations of one expense, and what they leave of its amount. *)
Definition splits_of (db : DB.t) (expense : Z) : list ExpenseSplit.t :=
  filter (λ s, ExpenseSplit.expense s = expense) (DB.splits db).

Definition allocated (db : DB.t) (expense : Z) : Z :=
  sumZ (ExpenseSplit.amount <$> splits_of db expense).

Definition residual (db : DB.t) (e : Expense.t) : Z :=
  Expense.amount e - allocated db (Expense.id e).

Definition expenses_of (db : DB.t) (group : Group.t) : list Expense.t :=
  filter (λ e, Expense.group e = Some (Group.id group)) (DB.expenses db).


(** The value of a non-negative Decimal of exponent at least -2, in
    hundredths. *)
Definition hundredths (d : Decimal.t) : Z :=
  Decimal.coeff d * 10 ^ (Decimal.exp d + 2).

(** What a [DecimalField(max_digits, decimal_places=2)] with
    [MinValueValidator(0)] lets through: a non-negative value of at most
    2 decimal places and [max_digits] digits. *)
Definition field_value (max_digits : Z) (d : Decimal.t) : Prop :=
  Decimal.sign d = false ∧ 0 ≤ Decimal.coeff d ∧ -2 ≤ Decimal.exp d
  ∧ hundredths d < 10 ^ max_digits.

(** The rows that the loop of [SimpleSplitForm.save] inserts, one per
    member, from the key [pk] on. *)
Fixpoint created_rows (pk expense : Z) (split_type : SplitType) (stored : Z)
    (currency : string) (members : list Z) : list ExpenseSplit.t :=
  match members with
  | [] => []
  | member :: members' =>
      ExpenseSplit.Mk pk expense member split_type stored currency None None false
      :: created_rows (pk + 1) expense split_type stored currency members'
  end.

(** The quotient of [c] hundredths by [n] rounded to the hundredth, a tie
    going the way of [r]. *)
Definition rounded_share (r : Decimal.Rounding) (c n : Z) : Z :=
  let q := c / n in
  let m := c mod n in
  if 2 * m >? n then q + 1
  else if 2 * m =? n then
    match r with
    | Decimal.ROUND_HALF_EVEN => if Z.odd q then q + 1 else q
    | Decimal.ROUND_HALF_UP => q + 1
    end
  else q.

(** The allocations that a valid submission of the split form installs
    for the expense of key [expense] and of amount [amount], the next
    key of the splits being [pk]: the rows of an equal split among the
    members, the share rounded as it is stored; none for another split
    type. *)
Definition installed (r : Decimal.Rounding) (pk expense : Z) (amount : Money.t)
    (split_type : SplitType) (members : list Z) : list ExpenseSplit.t :=
  match split_type,
        Decimal.truediv (Money.amount amount)
          (Decimal.of_int (Z.of_nat (length members))) with
  | EQUAL, Some per_person =>
      created_rows pk expense EQUAL (Decimal.round_cents r per_person)
        (Money.currency amount) members
  | _, _ => []
  end.

(** The row of the expense that the cleaned data [cd] of the form of
    [user] stand for, the amount counted in hundredths, and the instance
    that goes with it. *)
Definition saved_expense (store : Store.t) (user : Z) (cd : ExpenseForm.cleaned_data)
  : Expense.t :=
  Expense.Mk (Store.next_expense_id store) (ExpenseForm.description cd)
    (hundredths (ExpenseForm.amount cd))
    (ExpenseForm.currency (ExpenseForm.group cd))
    (ExpenseForm.expense_type cd) user
    (Group.id <$> ExpenseForm.group cd) (ExpenseForm.paid_by cd).

Definition saved_instance (store : Store.t) (cd : ExpenseForm.cleaned_data)
  : ExpenseInstance.t :=
  ExpenseInstance.Mk (Store.next_expense_id store) (ExpenseForm.description cd)
    (Money.Mk (ExpenseForm.amount cd) (ExpenseForm.currency (ExpenseForm.group cd)))
    (ExpenseForm.expense_type cd) (Group.id <$> ExpenseForm.group cd).

(** The store with one more expense, written with the next key. *)
Definition with_expense (store : Store.t) (row : Expense.t) : Store.t :=
  let db := Store.db store in
  Store.Mk
    (DB.Mk (DB.users db) (DB.groups db) (DB.expenses db ++ [row])
           (DB.splits db) (DB.settlements db)
           (DB.next_group_id db) (DB.next_split_id db) (DB.next_settlement_id db))
    (Store.categories store) (Store.next_expense_id store + 1)
    (Store.next_category_id store).

(** The participants of a formset: the cleaned data of the forms that are
    filled in and not marked for deletion. *)
Definition participants (forms : list ExpenseSplitFormSet.form)
  : list ExpenseSplitFormSet.cleaned_data :=
  omap (λ f, cd ← ExpenseSplitFormSet.form_cleaned_data f;
             if ExpenseSplitFormSet.DELETE cd then None else Some cd) forms.

(** The primary keys of the splits are distinct and were all handed out
    by the sequence. *)
Definition split_keys_ok (db : DB.t) : Prop :=
  NoDup (ExpenseSplit.id <$> DB.splits db)
  ∧ Forall (λ s, ExpenseSplit.id s < DB.next_split_id db) (DB.splits db).

(** Every link of a settlement leads to a split of the table. *)
Definition links_ok (db : DB.t) : Prop :=
  Forall (λ st, Forall (λ i, i ∈ ExpenseSplit.id <$> DB.splits db)
                       (Settlement.expense_splits st))
         (DB.settlements db).

(** The primary keys of the groups are distinct and were all handed out
    by the sequence. *)
Definition group_keys_ok (db : DB.t) : Prop :=
  NoDup (Group.id <$> DB.groups db)
  ∧ Forall (λ g, Group.id g < DB.next_group_id db) (DB.groups db).

(** The invariant of the groups in the data model: the creator of a
    group is one of its members, and no member is listed twice. *)
Definition members_ok (db : DB.t) : Prop :=
  Forall (λ g, Group.created_by g ∈ Group.members g ∧ NoDup (Group.members g))
         (DB.groups db).

(** A group once it is soft-deleted: the same row, inactive. *)
Definition archived (g : Group.t) : Group.t :=
  Group.Mk (Group.id g) (Group.name g) (Group.description g) (Group.created_by g)
           (Group.members g) (Group.default_currency g) false.

(** Who owes what for an expense: the users of its splits with their
    amounts. *)
Definition shares_of (db : DB.t) (expense : Z) : list (Z * Z) :=
  (λ s, (ExpenseSplit.user s, ExpenseSplit.amount s)) <$> splits_of db expense.

(** What the closed allocations of a member amount to in a group. *)
Definition settled (db : DB.t) (group : Group.t) (m : Z) : Z :=
  sumZ (ExpenseSplit.amount <$>
    filter (λ s, ExpenseSplit.is_settled s = true)
      (filter (λ s, ExpenseSplit.user s = m)
        (filter (λ s, expense__group db s = Some (Group.id group)) (DB.splits db)))).

(** Every split belongs to an expense of the table. *)
Definition splits_have_expense (db : DB.t) : Prop :=
  Forall (λ s, ExpenseSplit.expense s ∈ Expense.id <$> DB.expenses db) (DB.splits db).

(** Whether a form is that of a participant. *)
Definition takes_part (f : ExpenseSplitFormSet.form) : bool :=
  match ExpenseSplitFormSet.form_cleaned_data f with
  | Some cd => negb (ExpenseSplitFormSet.DELETE cd)
  | None => false
  end.

(** The sum of the percentages of the participants, in hundredths. *)
Definition percentage_sum (forms : list ExpenseSplitFormSet.form) : Z :=
  sumZ ((λ cd, from_option hundredths 0 (ExpenseSplitFormSet.percentage cd))
          <$> participants forms).

(** What the text of the specification defines, to be compared with the
    code above. *)
Module Spec.

(** paid(m) = sum of the amounts of the GROUP expenses in the group
    where payer = m *)
Definition paid (db : DB.t) (group : Group.t) (m : Z) : Z :=
  sumZ (Expense.amount <$>
    filter (λ e, Expense.expense_type e = GROUP)
      (filter (λ e, Expense.paid_by e = m) (expenses_of db group))).

(** owed(m) = sum of the amounts of the allocations in the group where
    user = m *)
Definition owed (db : DB.t) (group : Group.t) (m : Z) : Z :=
  sumZ (ExpenseSplit.amount <$>
    filter (λ s, ExpenseSplit.user s = m)
      (filter (λ s, expense__group db s = Some (Group.id group)) (DB.splits db))).

(** owed(m), filtered to the open allocations (OUTSTANDING mode) *)
Definition owed_open (db : DB.t) (group : Group.t) (m : Z) : Z :=
  sumZ (ExpenseSplit.amount <$>
    filter (λ s, ExpenseSplit.is_settled s = false)
      (filter (λ s, ExpenseSplit.user s = m)
        (filter (λ s, expense__group db s = Some (Group.id group)) (DB.splits db)))).

(** balance(m) = paid(m) - owed(m) *)
Definition balance (db : DB.t) (group : Group.t) (m : Z) : Z :=
  paid db group m - owed db group m.

(** A validation error names a field when it is keyed by it. *)
Definition names_field (field : string) (e : Exception) : Prop :=
  match e with
  | ValidationError (Some f) _ => f = field
  | _ => False
  end.

End Spec.

(** The entry the loop of [calculate_group_balances] writes for a member. *)
Definition group_entry (db : DB.t) (group : Group.t) (member : Z) : BalanceEntry.t :=
  BalanceEntry.Mk (GroupDetailView.paid db group member)
                  (GroupDetailView.owed db group member)
                  (GroupDetailView.paid db group member
                   - GroupDetailView.owed db group member).

Ltac by_compute :=
  lazymatch goal with
  | |- ?P => apply (@bool_decide_unpack P _); vm_compute; exact I
  end.

(** ** Sample data *)

Module Sample.

Definition trip : Group.t := Group.Mk 1 "Trip" "" 1 [1; 2; 3] "INR" true.

Definition dinner : Expense.t := Expense.Mk 1 "Dinner" 10000 "INR" GROUP 1 (Some 1) 1.
Definition taxi : Expense.t := Expense.Mk 2 "Taxi" 10000 "INR" GROUP 2 (Some 1) 2.

Definition share (pk expense user : Z) : ExpenseSplit.t :=
  ExpenseSplit.Mk pk expense user EQUAL 3333 "INR" None None false.

(** The group with one expense paid by user 1 and no allocation. *)
Definition db_unsplit : DB.t := DB.Mk [1; 2; 3] [trip] [dinner] [] [] 2 1 1.

(** The same, the expense split in three. *)
Definition db_split : DB.t :=
  DB.Mk [1; 2; 3] [trip] [dinner] [share 1 1 1; share 2 1 2; share 3 1 3] [] 2 4 1.

(** Two expenses of 100.00, each split in three shares of 33.33. *)
Definition db_two : DB.t :=
  DB.Mk [1; 2; 3] [trip] [dinner; taxi]
        [share 1 1 1; share 2 1 2; share 3 1 3;
         share 4 2 1; share 5 2 2; share 6 2 3] [] 2 7 1.

Definition hundred : Money.t := Money.Mk (Decimal.Dec false 10000 (-2)) "INR".

Definition dinner_object : ExpenseInstance.t :=
  ExpenseInstance.Mk 1 "Dinner" hundred GROUP (Some 1).

Definition percent (user hundredths : Z) : ExpenseSplitFormSet.form :=
  ExpenseSplitFormSet.Form false
    (Some (ExpenseSplitFormSet.Cleaned (Some user) None
             (Some (Decimal.Dec false hundredths (-2))) None false)).

(** User 2 pays 33.33 to user 1 and names allocation 2 as settled. *)
Definition repay : SettlementForm.data :=
  SettlementForm.Data (Some 2) (Some 1) "33.33" (Some 0) "UPI" "" [2].


(** The split dinner with a settlement on record, of 33.33 paid by
    user 2 to user 1, that is linked to allocation 2. *)
Definition db_linked : DB.t :=
  DB.Mk [1; 2; 3] [trip] [dinner] [share 1 1 1; share 2 1 2; share 3 1 3]
        [Settlement.Mk 1 1 2 1 3333 "INR" 0 "" "UPI" [2]] 2 4 2.

(** User 2 pays 33.33 to user 2. *)
Definition repay_self : SettlementForm.data :=
  SettlementForm.Data (Some 2) (Some 2) "33.33" (Some 0) "UPI" "" [].

Definition new_group : GroupForm.data :=
  GroupForm.Data (Ok "Flat") (Ok "") [2; 3] "INR".

(** The dinner of 100.00 split equally among the three members. *)
Definition equal_three : SimpleSplitForm.data := SimpleSplitForm.Data "equal" [1; 2; 3].

Definition allocate_dinner (r : Decimal.Rounding)
  : DB.t * Result (list SplitInstance.t) :=
  SimpleSplitForm.save r db_unsplit (Some dinner_object)
    (SimpleSplitForm.clean_fields (Some trip) equal_three).1.

(** The database of the split dinner with a category and the sequences
    of the expenses and of the categories. *)
Definition store : Store.t := Store.Mk db_split [Category.Mk 1 "Food" None] 2 2.

(** User 1 posts a lunch of 45.00 paid by user 1 in the group. *)
Definition lunch : ExpenseForm.data :=
  ExpenseForm.Data (Ok "Lunch") (Some (Decimal.Dec false 4500 (-2))) "group"
    (Some 1) (Some 1) (Some 1) (Some 0) "".

(** What the fields and [clean] make of it. *)
Definition lunch_cleaned : ExpenseForm.cleaned_data :=
  ExpenseForm.Cleaned "Lunch" (Decimal.Dec false 4500 (-2)) GROUP (Some trip)
    1 1 0 "".

(** User 2 posts a coffee of 3.50 as a personal expense. *)
Definition coffee : ExpenseForm.data :=
  ExpenseForm.Data (Ok "Coffee") (Some (Decimal.Dec false 350 (-2))) "personal"
    None (Some 2) (Some 1) (Some 0) "".

(** What the fields and [clean] make of it. *)
Definition coffee_cleaned : ExpenseForm.cleaned_data :=
  ExpenseForm.Cleaned "Coffee" (Decimal.Dec false 350 (-2)) PERSONAL None
    2 1 0 "".

(** The split dinner and a coffee that user 2 keeps as a personal
    expense. *)
Definition coffee_row : Expense.t := Expense.Mk 2 "Coffee" 350 "INR" PERSONAL 2 None 2.

Definition db_coffee : DB.t :=
  DB.Mk [1; 2; 3] [trip] [dinner; coffee_row]
        [share 1 1 1; share 2 1 2; share 3 1 3] [] 2 4 1.

(** The split dinner once user 2 has settled: allocation 2 is closed. *)
Definition db_settled : DB.t :=
  DB.Mk [1; 2; 3] [trip] [dinner]
        [share 1 1 1;
         ExpenseSplit.Mk 2 1 2 EQUAL 3333 "INR" None None true;
         share 3 1 3] [] 2 4 1.

(** Split data that name nobody. *)
Definition no_member : SimpleSplitForm.data := SimpleSplitForm.Data "equal" [].

End Sample.

(** * Properties *)

(** ** Sums and queries *)

Lemma or_zero_aggregate_Sum (column : list Z) :
  or_zero (aggregate_Sum column) = sumZ column.
Proof.
  destruct column as [|x column]; [done|].
  unfold aggregate_Sum, or_zero, sumZ.
  destruct (Z.eqb_spec (foldr Z.add 0 (x :: column)) 0) as [E|E]; [by rewrite E|done].
Qed.

Lemma sumZ_fmap_add {A} (a b : A → Z) (l : list A) :
  sumZ ((λ x, a x + b x) <$> l) = sumZ (a <$> l) + sumZ (b <$> l).
Proof. unfold sumZ. induction l as [|x l IH]; cbn in *; lia. Qed.

Lemma sumZ_fmap_sub {A} (a b : A → Z) (l : list A) :
  sumZ ((λ x, a x - b x) <$> l) = sumZ (a <$> l) - sumZ (b <$> l).
Proof. unfold sumZ. induction l as [|x l IH]; cbn in *; lia. Qed.

Lemma sumZ_fmap_zero {A} (l : list A) : sumZ ((λ _, 0) <$> l) = 0.
Proof. unfold sumZ. induction l as [|x l IH]; cbn in *; lia. Qed.

Lemma sumZ_indicator_absent (k v : Z) (ms : list Z) :
  k ∉ ms → sumZ ((λ m, if decide (k = m) then v else 0) <$> ms) = 0.
Proof.
  induction ms as [|m ms IH]; intros Hk; [done|].
  apply not_elem_of_cons in Hk as [Hne Hk]. cbn.
  rewrite decide_False by done. fold (sumZ ((λ m, if decide (k = m) then v else 0) <$> ms)).
  rewrite IH by done. done.
Qed.

Lemma sumZ_indicator (k v : Z) (ms : list Z) :
  NoDup ms → k ∈ ms → sumZ ((λ m, if decide (k = m) then v else 0) <$> ms) = v.
Proof.
  induction 1 as [|m ms Hm Hnd IH]; intros Hk; [by apply elem_of_nil in Hk|].
  cbn. fold (sumZ ((λ m, if decide (k = m) then v else 0) <$> ms)).
  destruct (decide (k = m)) as [->|Hne].
  - rewrite sumZ_indicator_absent by done. lia.
  - apply elem_of_cons in Hk as [?|Hk]; [done|]. rewrite IH by done. lia.
Qed.

(** Rows that are grouped by a key taken in a duplicate-free list of keys
    are each counted once. *)
Lemma sumZ_partition {A} (f : A → Z) (key : A → Z) (ms : list Z) (l : list A) :
  NoDup ms →
  Forall (λ x, key x ∈ ms) l →
  sumZ ((λ m, sumZ (f <$> filter (λ x, key x = m) l)) <$> ms) = sumZ (f <$> l).
Proof.
  intros Hnd. induction 1 as [|x l Hx Hl IH].
  - apply sumZ_fmap_zero.
  - transitivity
      (sumZ ((λ m, (if decide (key x = m) then f x else 0)
                   + sumZ (f <$> filter (λ x, key x = m) l)) <$> ms)).
    + f_equal. apply list_fmap_ext. intros _ m _.
      rewrite filter_cons. by destruct (decide (key x = m)).
    + rewrite sumZ_fmap_add, IH, sumZ_indicator by done. done.
Qed.

Lemma paid_spec (db : DB.t) (group : Group.t) (m : Z) :
  GroupDetailView.paid db group m = Spec.paid db group m.
Proof.
  unfold GroupDetailView.paid, Spec.paid, expenses_of.
  rewrite or_zero_aggregate_Sum, !list_filter_filter.
  do 2 f_equal. apply list_filter_iff. intros ?; tauto.
Qed.

Lemma owed_spec (db : DB.t) (group : Group.t) (m : Z) :
  GroupDetailView.owed db group m = Spec.owed db group m.
Proof.
  unfold GroupDetailView.owed, Spec.owed.
  rewrite or_zero_aggregate_Sum, list_filter_filter.
  do 2 f_equal. apply list_filter_iff. intros ?; tauto.
Qed.

(** ** The dict of group balances *)

Lemma balances_loop_lookup (db : DB.t) (group : Group.t) (members : list Z)
    (balances : gmap Z BalanceEntry.t) (m : Z) :
  foldl (λ balances member, <[member := group_entry db group member]> balances)
        balances members !! m
  = if decide (m ∈ members) then Some (group_entry db group m) else balances !! m.
Proof.
  revert balances. induction members as [|x members IH]; intros balances.
  - destruct (decide (m ∈ [])) as [Hin|_]; [by apply elem_of_nil in Hin|done].
  - cbn [foldl]. rewrite IH.
    destruct (decide (m ∈ members)) as [Hin|Hout];
      destruct (decide (m ∈ x :: members)) as [Hin'|Hout']; try done.
    + exfalso. apply Hout'. by apply elem_of_cons; right.
    + apply elem_of_cons in Hin' as [->|?]; [|done]. apply lookup_insert_eq.
    + apply lookup_insert_ne. intros ->. apply Hout'. apply elem_of_cons; by left.
Qed.

Lemma calculate_group_balances_lookup (db : DB.t) (group : Group.t) (m : Z) :
  GroupDetailView.calculate_group_balances db group !! m
  = if decide (m ∈ Group.members group) then Some (group_entry db group m) else None.
Proof.
  unfold GroupDetailView.calculate_group_balances.
  rewrite (balances_loop_lookup db group (Group.members group) ∅ m).
  by rewrite lookup_empty.
Qed.

(** C6: for every group and member m, the dict of group balances holds
    for m the triple paid(m), owed(m), balance(m) of the specification:
    paid(m) is the sum of the amounts of the GROUP expenses of the group
    paid by m, owed(m) the sum of the amounts of the allocations of the
    group whose user is m, and balance(m) = paid(m) - owed(m). *)
Theorem group_balances_formula (db : DB.t) (group : Group.t) (m : Z) :
  m ∈ Group.members group →
  GroupDetailView.calculate_group_balances db group !! m
  = Some (BalanceEntry.Mk (Spec.paid db group m) (Spec.owed db group m)
                          (Spec.balance db group m)).
Proof.
  intros Hm. rewrite calculate_group_balances_lookup, decide_True by done.
  unfold group_entry. by rewrite paid_spec, owed_spec.
Qed.

Lemma group_balances_formula_witness :
  GroupDetailView.calculate_group_balances Sample.db_split Sample.trip !! 1
  = Some (BalanceEntry.Mk 10000 3333 6667).
Proof.
  apply (group_balances_formula Sample.db_split Sample.trip 1).
  unfold Sample.trip; simpl. apply elem_of_cons; by left.
Defined.

(** ** The balances of a user *)

Lemma foldl_append_concat {A B} (h : B → list A) (l : list B) (init : list A) :
  foldl (λ acc x, acc ++ h x) init l = init ++ mjoin (h <$> l).
Proof.
  revert init. induction l as [|x l IH]; intros init; cbn.
  - by rewrite app_nil_r.
  - by rewrite IH, app_assoc.
Qed.

Lemma mjoin_all_nil {A B} (h : B → list A) (l : list B) :
  (∀ x, x ∈ l → h x = []) → mjoin (h <$> l) = [].
Proof.
  induction l as [|x l IH]; intros Hnil; [done|].
  cbn. rewrite (Hnil x) by (apply elem_of_cons; by left).
  apply IH. intros y Hy. apply Hnil. by apply elem_of_cons; right.
Qed.

Lemma calculate_user_balances_concat (db : DB.t) (user : Z) :
  DashboardView.calculate_user_balances db user
  = mjoin (DashboardView.balance_entry db user <$>
      filter (λ g, user ∈ Group.members g ∧ Group.is_active g = true) (DB.groups db)).
Proof. unfold DashboardView.calculate_user_balances. by rewrite foldl_append_concat. Qed.

Lemma user_paid_spec (db : DB.t) (group : Group.t) (m : Z) :
  DashboardView.paid db group m = Spec.paid db group m.
Proof. apply paid_spec. Qed.

Lemma user_owed_spec (db : DB.t) (group : Group.t) (m : Z) :
  DashboardView.owed db group m = Spec.owed_open db group m.
Proof.
  unfold DashboardView.owed, Spec.owed_open.
  rewrite or_zero_aggregate_Sum, !list_filter_filter.
  do 2 f_equal. apply list_filter_iff. intros ?; tauto.
Qed.

Lemma sumZ_filter_none {A} (f : A → Z) (P : A → Prop) `{!∀ x, Decision (P x)}
    (l : list A) :
  (∀ x, x ∈ l → ¬ P x) → sumZ (f <$> filter P l) = 0.
Proof.
  intros Hnone. replace (filter P l) with (@nil A); [done|].
  symmetry. induction l as [|x l IH]; [done|].
  rewrite filter_cons, decide_False.
  - apply IH. intros y Hy. apply Hnone. by apply elem_of_cons; right.
  - apply Hnone. apply elem_of_cons; by left.
Qed.

(** C5 (amended): the per-user balances hold an entry for a group exactly
    when it is an active group of the user whose balance, paid minus the
    owed of the open allocations only, is not 0; the list is empty when
    the user has no open allocation in any group and has paid no GROUP
    expense.
    (Having no open allocation is not enough: what the user paid still
    counts.) *)
Theorem user_balances_outstanding (db : DB.t) (user : Z) :
  (∀ entry, entry ∈ DashboardView.calculate_user_balances db user ↔
     ∃ g, g ∈ DB.groups db
          ∧ user ∈ Group.members g
          ∧ Group.is_active g = true
          ∧ Spec.paid db g user - Spec.owed_open db g user ≠ 0
          ∧ entry = UserBalance.Mk g
                      (Spec.paid db g user - Spec.owed_open db g user)
                      (if Spec.paid db g user - Spec.owed_open db g user >? 0
                       then "owed" else "owes"))
  ∧ ((∀ s, s ∈ DB.splits db → ExpenseSplit.user s = user →
           ExpenseSplit.is_settled s = true) →
     (∀ e, e ∈ DB.expenses db → Expense.expense_type e = GROUP →
           Expense.paid_by e ≠ user) →
     DashboardView.calculate_user_balances db user = []).
Proof.
  rewrite calculate_user_balances_concat. split.
  - intros entry. rewrite list_elem_of_join. split.
    + intros (l & Hentry & Hl).
      apply list_elem_of_fmap in Hl as (g & -> & Hg).
      apply list_elem_of_filter in Hg as [[Hmember Hactive] Hg].
      unfold DashboardView.balance_entry in Hentry.
      rewrite user_paid_spec, user_owed_spec in Hentry.
      destruct (Z.eqb_spec (Spec.paid db g user - Spec.owed_open db g user) 0)
        as [E|E]; cbn in Hentry.
      * by apply elem_of_nil in Hentry.
      * apply list_elem_of_singleton in Hentry as ->. by exists g.
    + intros (g & Hg & Hmember & Hactive & Hbalance & ->).
      exists (DashboardView.balance_entry db user g). split.
      * unfold DashboardView.balance_entry.
        rewrite user_paid_spec, user_owed_spec.
        destruct (Z.eqb_spec (Spec.paid db g user - Spec.owed_open db g user) 0);
          [done|]. cbn. apply list_elem_of_singleton. done.
      * apply list_elem_of_fmap_2. apply list_elem_of_filter. done.
  - intros Hopen Hpaid. apply mjoin_all_nil. intros g _.
    unfold DashboardView.balance_entry.
    rewrite user_paid_spec, user_owed_spec.
    assert (Spec.paid db g user = 0) as ->.
    { unfold Spec.paid. rewrite list_filter_filter. apply sumZ_filter_none.
      intros e He [Htype Hpayer].
      apply list_elem_of_filter in He as [_ He]. by apply (Hpaid e). }
    assert (Spec.owed_open db g user = 0) as ->.
    { unfold Spec.owed_open. rewrite list_filter_filter. apply sumZ_filter_none.
      intros s Hs [Hsettled Huser].
      apply list_elem_of_filter in Hs as [_ Hs].
      rewrite (Hopen s Hs Huser) in Hsettled. done. }
    done.
Qed.

Lemma user_balances_outstanding_witness :
  DashboardView.calculate_user_balances Sample.db_unsplit 3 = [].
Proof.
  apply (user_balances_outstanding Sample.db_unsplit 3).
  - intros s Hs. cbn in Hs. by apply elem_of_nil in Hs.
  - intros e He _. cbn in He. apply list_elem_of_singleton in He as ->. cbn. lia.
Defined.

(** C5, as stated, fails: user 1 paid the dinner of 100.00 and has no
    allocation at all, open or closed, yet the list holds an entry, of
    balance 100.00. *)
Lemma user_balances_no_open_allocation_counterexample :
  (∀ s, s ∈ DB.splits Sample.db_unsplit → ExpenseSplit.user s = 1 →
        ExpenseSplit.is_settled s = true)
  ∧ DashboardView.calculate_user_balances Sample.db_unsplit 1
    = [UserBalance.Mk Sample.trip 10000 "owed"]
  ∧ DashboardView.calculate_user_balances Sample.db_unsplit 1 ≠ [].
Proof.
  split; [|split].
  - intros s Hs. cbn in Hs. by apply elem_of_nil in Hs.
  - vm_compute. reflexivity.
  - vm_compute. discriminate.
Qed.

(** ** The total of the balances of a group *)

Lemma balances_total_insert (balances : gmap Z BalanceEntry.t) (m : Z)
    (entry : BalanceEntry.t) :
  balances !! m = None →
  balances_total (<[m := entry]> balances)
  = BalanceEntry.balance entry + balances_total balances.
Proof.
  intros Hfresh. unfold balances_total.
  rewrite map_fold_insert_L; [done| |done].
  intros; lia.
Qed.

Lemma balances_total_loop (db : DB.t) (group : Group.t) (members : list Z)
    (balances : gmap Z BalanceEntry.t) :
  NoDup members →
  (∀ m, m ∈ members → balances !! m = None) →
  balances_total
    (foldl (λ balances member, <[member := group_entry db group member]> balances)
           balances members)
  = sumZ ((λ m, BalanceEntry.balance (group_entry db group m)) <$> members)
    + balances_total balances.
Proof.
  intros Hnd. revert balances.
  induction Hnd as [|x members Hx Hnd IH]; intros balances Hfresh; [done|].
  cbn [foldl]. rewrite IH.
  - rewrite balances_total_insert by (apply Hfresh, elem_of_cons; by left).
    rewrite fmap_cons. unfold sumZ. cbn [foldr]. lia.
  - intros m Hm. rewrite lookup_insert_ne by (intros ->; done).
    apply Hfresh. by apply elem_of_cons; right.
Qed.

Lemma balances_total_members (db : DB.t) (group : Group.t) :
  NoDup (Group.members group) →
  balances_total (GroupDetailView.calculate_group_balances db group)
  = sumZ (Spec.paid db group <$> Group.members group)
    - sumZ (Spec.owed db group <$> Group.members group).
Proof.
  intros Hnd. unfold GroupDetailView.calculate_group_balances.
  rewrite (balances_total_loop db group (Group.members group) ∅ Hnd)
    by (intros; apply lookup_empty).
  unfold balances_total at 1. rewrite map_fold_empty.
  transitivity (sumZ ((λ m, Spec.paid db group m + - Spec.owed db group m)
                        <$> Group.members group)).
  - rewrite Z.add_0_r. f_equal. apply list_fmap_ext. intros _ m _.
    cbn. rewrite paid_spec, owed_spec. lia.
  - rewrite sumZ_fmap_add.
    assert (∀ l : list Z, sumZ ((λ m, - Spec.owed db group m) <$> l)
                          = - sumZ (Spec.owed db group <$> l)) as ->; [|lia].
    intros l. unfold sumZ. induction l as [|y l IH]; cbn in *; lia.
Qed.

Lemma filter_all {A} (P : A → Prop) `{!∀ x, Decision (P x)} (l : list A) :
  (∀ x, x ∈ l → P x) → filter P l = l.
Proof.
  induction l as [|x l IH]; intros Hall; [done|].
  rewrite filter_cons, decide_True by (apply Hall, elem_of_cons; by left).
  f_equal. apply IH. intros y Hy. apply Hall. by apply elem_of_cons; right.
Qed.

Lemma find_unique_id (expenses : list Expense.t) (e : Expense.t) :
  NoDup (Expense.id <$> expenses) →
  e ∈ expenses →
  List.find (λ x, Expense.id x =? Expense.id e) expenses = Some e.
Proof.
  induction expenses as [|x expenses IH]; intros Hnd He.
  - by apply elem_of_nil in He.
  - cbn in Hnd. apply NoDup_cons in Hnd as [Hx Hnd]. cbn.
    destruct (Z.eqb_spec (Expense.id x) (Expense.id e)) as [E|E].
    + apply elem_of_cons in He as [->|He]; [done|].
      exfalso. apply Hx. rewrite E. by apply list_elem_of_fmap_2.
    + apply elem_of_cons in He as [->|He]; [done|]. by apply IH.
Qed.

Lemma expense__group_Some (db : DB.t) (s : ExpenseSplit.t) (g : Z) :
  expense__group db s = Some g →
  ∃ e, e ∈ DB.expenses db ∧ Expense.id e = ExpenseSplit.expense s
       ∧ Expense.group e = Some g.
Proof.
  unfold expense__group. intros H.
  destruct (List.find _ (DB.expenses db)) as [e|] eqn:Hfind; [|done].
  cbn in H. apply find_some in Hfind as [Hin Hid].
  exists e. split; [by apply list_elem_of_In|]. split; [lia|done].
Qed.

Lemma paid_total (db : DB.t) (group : Group.t) :
  NoDup (Group.members group) →
  (∀ e, e ∈ expenses_of db group →
        Expense.expense_type e = GROUP ∧ Expense.paid_by e ∈ Group.members group) →
  sumZ (Spec.paid db group <$> Group.members group)
  = sumZ (Expense.amount <$> expenses_of db group).
Proof.
  intros Hnd Hwf.
  rewrite <-(sumZ_partition Expense.amount Expense.paid_by (Group.members group)
               (expenses_of db group) Hnd).
  - f_equal. apply list_fmap_ext. intros _ m _. unfold Spec.paid.
    rewrite filter_all; [done|].
    intros e He. apply list_elem_of_filter in He as [_ He]. by apply Hwf.
  - apply Forall_forall. intros e He. by apply Hwf.
Qed.

Lemma owed_total (db : DB.t) (group : Group.t) :
  NoDup (Group.members group) →
  (∀ s, s ∈ DB.splits db → expense__group db s = Some (Group.id group) →
        ExpenseSplit.user s ∈ Group.members group) →
  sumZ (Spec.owed db group <$> Group.members group)
  = sumZ (ExpenseSplit.amount <$>
      filter (λ s, expense__group db s = Some (Group.id group)) (DB.splits db)).
Proof.
  intros Hnd Hwf.
  rewrite <-(sumZ_partition ExpenseSplit.amount ExpenseSplit.user
               (Group.members group) _ Hnd); [done|].
  apply Forall_forall. intros s Hs.
  apply list_elem_of_filter in Hs as [Hg Hs]. by apply Hwf.
Qed.

Lemma allocated_total (db : DB.t) (group : Group.t) :
  NoDup (Expense.id <$> DB.expenses db) →
  sumZ (ExpenseSplit.amount <$>
    filter (λ s, expense__group db s = Some (Group.id group)) (DB.splits db))
  = sumZ ((λ e, allocated db (Expense.id e)) <$> expenses_of db group).
Proof.
  intros Hnd.
  rewrite <-(sumZ_partition ExpenseSplit.amount ExpenseSplit.expense
               (Expense.id <$> expenses_of db group)).
  - rewrite <-list_fmap_compose. f_equal. apply list_fmap_ext. intros i e He.
    cbn. unfold allocated, splits_of. rewrite list_filter_filter.
    do 2 f_equal. apply list_filter_iff. intros s. split; [tauto|].
    intros Hs. split; [done|].
    apply list_elem_of_lookup_2 in He.
    apply list_elem_of_filter in He as [Hg He].
    unfold expense__group. rewrite Hs, (find_unique_id _ e Hnd He). done.
  - eapply sublist_NoDup; [exact Hnd|]. apply fmap_sublist, sublist_filter.
  - apply Forall_forall. intros s Hs.
    apply list_elem_of_filter in Hs as [Hg Hs].
    apply expense__group_Some in Hg as (e & He & Hid & Hg).
    rewrite <-Hid. apply list_elem_of_fmap_2.
    apply list_elem_of_filter. done.
Qed.

Lemma sumZ_abs_bound {A} (f : A → Z) (l : list A) :
  (∀ x, x ∈ l → Z.abs (f x) ≤ 1) → Z.abs (sumZ (f <$> l)) ≤ Z.of_nat (length l).
Proof.
  induction l as [|x l IH]; intros Hb; [done|].
  cbn. fold (sumZ (f <$> l)).
  assert (Z.abs (f x) ≤ 1) by (apply Hb, elem_of_cons; by left).
  assert (Z.abs (sumZ (f <$> l)) ≤ Z.of_nat (length l)).
  { apply IH. intros y Hy. apply Hb. by apply elem_of_cons; right. }
  lia.
Qed.

(** C3 (amended): in a group whose expenses are all of type GROUP, whose
    payers and allocation users are members, and whose expenses each
    reconcile within 0.01, the ALL_TIME balances add up to the sum, over
    the expenses of the group, of what the allocations leave of each
    amount; so the total is 0.00 within 0.01 times the number of
    expenses of the group, not within 0.01. *)
Theorem group_balances_total (db : DB.t) (group : Group.t) :
  NoDup (Group.members group) →
  NoDup (Expense.id <$> DB.expenses db) →
  (∀ e, e ∈ expenses_of db group →
        Expense.expense_type e = GROUP ∧ Expense.paid_by e ∈ Group.members group) →
  (∀ s, s ∈ DB.splits db → expense__group db s = Some (Group.id group) →
        ExpenseSplit.user s ∈ Group.members group) →
  (∀ e, e ∈ expenses_of db group → Z.abs (residual db e) ≤ 1) →
  balances_total (GroupDetailView.calculate_group_balances db group)
  = sumZ (residual db <$> expenses_of db group)
  ∧ Z.abs (balances_total (GroupDetailView.calculate_group_balances db group))
    ≤ Z.of_nat (length (expenses_of db group)).
Proof.
  intros Hmembers Hids Hpayers Husers Hreconcile.
  assert (balances_total (GroupDetailView.calculate_group_balances db group)
          = sumZ (residual db <$> expenses_of db group)) as Htotal.
  { rewrite balances_total_members, paid_total, owed_total, allocated_total by done.
    unfold residual. by rewrite sumZ_fmap_sub. }
  split; [done|]. rewrite Htotal. by apply sumZ_abs_bound.
Qed.

Lemma group_balances_total_witness :
  balances_total (GroupDetailView.calculate_group_balances Sample.db_two Sample.trip)
  = sumZ (residual Sample.db_two <$> expenses_of Sample.db_two Sample.trip)
  ∧ Z.abs (balances_total
             (GroupDetailView.calculate_group_balances Sample.db_two Sample.trip))
    ≤ Z.of_nat (length (expenses_of Sample.db_two Sample.trip)).
Proof.
  apply (group_balances_total Sample.db_two Sample.trip).
  - by_compute.
  - by_compute.
  - apply Forall_forall. by_compute.
  - intros s Hs _. revert s Hs. apply Forall_forall. by_compute.
  - apply Forall_forall. by_compute.
Defined.

(** C3, as stated, fails: with two expenses of 100.00 each split in three
    shares of 33.33, every expense reconciles within 0.01 and every payer
    and allocation user is a member, yet the balances add up to 0.02. *)
Lemma group_balances_total_counterexample :
  Forall (λ e, Z.abs (residual Sample.db_two e) ≤ 1
               ∧ Expense.paid_by e ∈ Group.members Sample.trip)
         (expenses_of Sample.db_two Sample.trip)
  ∧ Forall (λ s, ExpenseSplit.user s ∈ Group.members Sample.trip)
           (DB.splits Sample.db_two)
  ∧ balances_total
      (GroupDetailView.calculate_group_balances Sample.db_two Sample.trip) = 2
  ∧ ¬ Z.abs (balances_total
               (GroupDetailView.calculate_group_balances Sample.db_two Sample.trip))
      ≤ 1.
Proof.
  split; [by_compute|]. split; [by_compute|].
  assert (balances_total
            (GroupDetailView.calculate_group_balances Sample.db_two Sample.trip) = 2)
    as E by (vm_compute; reflexivity).
  split; [exact E|]. rewrite E. lia.
Qed.

(** ** Recording a settlement *)


(** No posted amount passes the field [amount]. *)
Lemma SettlementForm_clean_amount (v : string) :
  ∃ message,
    SettlementForm.clean_amount v = Raise (ValidationError (Some "amount") message).
Proof. unfold SettlementForm.clean_amount. destruct (decide _); eauto. Qed.

(** The errors of the form, field by field. *)
Lemma SettlementForm_errors (db : DB.t) (group : option Group.t)
    (d : SettlementForm.data) :
  ∃ message,
    SettlementForm.errors db group d
    = errors_of (ModelChoiceField_clean "paid_by" (SettlementForm.queryset db group)
                   (SettlementForm.data_paid_by d))
      ++ errors_of (ModelChoiceField_clean "paid_to" (SettlementForm.queryset db group)
                      (SettlementForm.data_paid_to d))
      ++ [ValidationError (Some "amount") message]
      ++ errors_of (SettlementForm.clean_settlement_date
                      (SettlementForm.data_settlement_date d))
      ++ errors_of (SettlementForm.clean_payment_method
                      (SettlementForm.data_payment_method d))
      ++ errors_of (SettlementForm.clean (SettlementForm.clean_fields db group d).1)
    ∧ SettlementForm.amount (SettlementForm.clean_fields db group d).1 = None.
Proof.
  destruct (SettlementForm_clean_amount (SettlementForm.data_amount d)) as [message Ham].
  exists message. unfold SettlementForm.errors, SettlementForm.clean_fields.
  rewrite Ham. cbn [errors_of value_of fst]. split; [|done].
  rewrite <-!app_assoc. reflexivity.
Qed.

(** So a form is never valid, and the view never gets to [save]. *)
Lemma SettlementForm_never_valid (db : DB.t) (group : option Group.t)
    (d : SettlementForm.data) :
  SettlementForm.is_valid db group d = Ok false.
Proof.
  destruct (SettlementForm_errors db group d) as (message & Herrors & Hamount).
  unfold SettlementForm.is_valid, SettlementForm.validate_amount.
  rewrite Hamount. f_equal. apply bool_decide_eq_false. rewrite Herrors.
  intros Hnil. apply app_eq_nil in Hnil as [_ Hnil].
  apply app_eq_nil in Hnil as [_ Hnil]. done.
Qed.

Lemma SettlementCreateView_post_answer (r : Decimal.Rounding) (db : DB.t)
    (user group_pk : Z) (d : SettlementForm.data) :
  SettlementCreateView.post r db user group_pk d
  = (db, match SettlementCreateView.get_form_kwargs db user group_pk with
         | None => Http404
         | Some group => FormInvalid (SettlementForm.errors db group d)
         end).
Proof.
  unfold SettlementCreateView.post.
  destruct (SettlementCreateView.get_form_kwargs db user group_pk) as [group|]; [|done].
  by rewrite SettlementForm_never_valid.
Qed.






(** ** Validation of a settlement *)

Lemma ModelChoiceField_clean_Ok (field : string) (queryset : list Z)
    (value : option Z) (pk : Z) :
  ModelChoiceField_clean field queryset value = Ok pk →
  value = Some pk ∧ pk ∈ queryset.
Proof.
  unfold ModelChoiceField_clean. destruct value as [v|]; [|done].
  destruct (decide (v ∈ queryset)); [|done]. by intros [= ->].
Qed.

Lemma ModelChoiceField_clean_Raise (field : string) (queryset : list Z)
    (value : option Z) (e : Exception) :
  ModelChoiceField_clean field queryset value = Raise e →
  ∃ message, e = ValidationError (Some field) message.
Proof.
  unfold ModelChoiceField_clean. destruct value as [v|]; [|intros [= <-]; eauto].
  destruct (decide (v ∈ queryset)); [done|]. intros [= <-]. eauto.
Qed.

Lemma errors_of_nil {A} (res : Result A) :
  errors_of res = [] → ∃ a, res = Ok a.
Proof. destruct res; [eauto|done]. Qed.

(** Every error of the settlement form is a [ValidationError]. *)
Lemma SettlementForm_errors_kind (db : DB.t) (group : option Group.t)
    (d : SettlementForm.data) :
  Forall (λ e, ∃ field message, e = ValidationError field message)
         (SettlementForm.errors db group d).
Proof.
  destruct (SettlementForm_errors db group d) as (message & -> & _).
  repeat apply Forall_app_2.
  - destruct (ModelChoiceField_clean "paid_by" _ _) as [|e] eqn:H; [done|].
    apply ModelChoiceField_clean_Raise in H as [? ->]. apply Forall_singleton. eauto.
  - destruct (ModelChoiceField_clean "paid_to" _ _) as [|e] eqn:H; [done|].
    apply ModelChoiceField_clean_Raise in H as [? ->]. apply Forall_singleton. eauto.
  - apply Forall_singleton. eauto.
  - unfold SettlementForm.clean_settlement_date.
    destruct (SettlementForm.data_settlement_date d); [done|].
    apply Forall_singleton. eauto.
  - unfold SettlementForm.clean_payment_method.
    destruct (_ <=? 50); [done|]. apply Forall_singleton. eauto.
  - unfold SettlementForm.clean.
    destruct (SettlementForm.paid_by _) as [pb|]; [|done].
    destruct (SettlementForm.paid_to _) as [pt|]; [|done].
    destruct (decide (pb = pt)); [|done]. apply Forall_singleton. eauto.
Qed.

(** C8 (amended): a settlement request whose payer is its payee always
    fails and creates no settlement; the form comes back with its
    errors, all of them ValidationErrors, among which the one that is
    not keyed to a field, "You cannot settle with yourself.", when that
    user can be selected: the code has no error class for conflicts.  A
    request passes the checks on its payer and its payee, its errors
    being on other fields only, only if payer and payee are given,
    differ and are both members of the group.  As the form is written,
    no request is accepted, whatever its amount. *)
Theorem settlement_validation (r : Decimal.Rounding) (db : DB.t)
    (user group_pk : Z) (d : SettlementForm.data) :
  let result := SettlementCreateView.post r db user group_pk d in
  (∀ u, SettlementForm.data_paid_by d = Some u →
        SettlementForm.data_paid_to d = Some u →
        result.1 = db ∧ result.2 ≠ Redirect
        ∧ ∀ group, SettlementCreateView.get_form_kwargs db user group_pk = Some group →
                   u ∈ SettlementForm.queryset db group →
                   ∃ errors,
                     result.2 = FormInvalid errors
                     ∧ ValidationError None "You cannot settle with yourself." ∈ errors
                     ∧ Forall (λ e, ∃ field message, e = ValidationError field message)
                              errors)
  ∧ (∀ g, SettlementCreateView.get_form_kwargs db user group_pk = Some (Some g) →
          (∀ e, e ∈ SettlementForm.errors db (Some g) d →
                ∃ message, e = ValidationError (Some "amount") message
                           ∨ e = ValidationError (Some "settlement_date") message
                           ∨ e = ValidationError (Some "payment_method") message) →
          ∃ payer payee,
            SettlementForm.data_paid_by d = Some payer
            ∧ SettlementForm.data_paid_to d = Some payee
            ∧ payer ≠ payee
            ∧ payer ∈ Group.members g
            ∧ payee ∈ Group.members g)
  ∧ (result.1 = db ∧ result.2 ≠ Redirect).
Proof.
  intros result. subst result. rewrite SettlementCreateView_post_answer. cbn [fst snd].
  split; [|split];
    [| |split; [done|];
        by destruct (SettlementCreateView.get_form_kwargs db user group_pk)].
  - intros u Hu Hu'. split; [done|].
    split; [by destruct (SettlementCreateView.get_form_kwargs db user group_pk)|].
    intros group -> Hmember. eexists. split; [done|].
    split; [|apply SettlementForm_errors_kind].
    destruct (SettlementForm_errors db group d) as (message & -> & _).
    unfold SettlementForm.clean_fields. rewrite Hu, Hu'.
    unfold ModelChoiceField_clean, SettlementForm.clean. cbn.
    rewrite !decide_True by done. cbn. rewrite decide_True by done.
    apply elem_of_cons. right. rewrite !elem_of_app. do 2 right.
    apply list_elem_of_singleton. done.
  - intros g _ Hother.
    destruct (SettlementForm_errors db (Some g) d) as (message & Herrors & _).
    rewrite Herrors in Hother. clear Herrors.
    unfold SettlementForm.clean_fields in Hother. cbn [fst SettlementForm.queryset] in *.
    destruct (ModelChoiceField_clean "paid_by" (Group.members g)
                (SettlementForm.data_paid_by d)) as [payer|e] eqn:Hpb.
    2:{ exfalso. apply ModelChoiceField_clean_Raise in Hpb as [m ->].
        destruct (Hother (ValidationError (Some "paid_by") m)) as [? [H|[H|H]]];
          [apply elem_of_app; left; by apply list_elem_of_singleton|done..]. }
    destruct (ModelChoiceField_clean "paid_to" (Group.members g)
                (SettlementForm.data_paid_to d)) as [payee|e] eqn:Hpt.
    2:{ exfalso. apply ModelChoiceField_clean_Raise in Hpt as [m ->].
        destruct (Hother (ValidationError (Some "paid_to") m)) as [? [H|[H|H]]];
          [apply elem_of_app; right; apply elem_of_app; left;
           by apply list_elem_of_singleton|done..]. }
    apply ModelChoiceField_clean_Ok in Hpb as [Hpb Hpbin].
    apply ModelChoiceField_clean_Ok in Hpt as [Hpt Hptin].
    exists payer, payee. repeat split; try done.
    intros ->. cbn in Hother.
    rewrite decide_True in Hother by done.
    destruct (Hother (ValidationError None "You cannot settle with yourself."))
      as [? [H|[H|H]]]; [|done..].
    apply elem_of_cons. right. rewrite !elem_of_app. do 2 right.
    apply list_elem_of_singleton. done.
Qed.

Lemma settlement_validation_witness :
  ((SettlementCreateView.post Decimal.ROUND_HALF_EVEN Sample.db_split 2 1
      Sample.repay_self).1 = Sample.db_split
   ∧ (SettlementCreateView.post Decimal.ROUND_HALF_EVEN Sample.db_split 2 1
        Sample.repay_self).2 ≠ Redirect)
  ∧ ∃ payer payee,
      SettlementForm.data_paid_by Sample.repay = Some payer
      ∧ SettlementForm.data_paid_to Sample.repay = Some payee
      ∧ payer ≠ payee
      ∧ payer ∈ Group.members Sample.trip
      ∧ payee ∈ Group.members Sample.trip.
Proof.
  split.
  - destruct (settlement_validation Decimal.ROUND_HALF_EVEN Sample.db_split 2 1
                Sample.repay_self) as [Hself _].
    destruct (Hself 2 eq_refl eq_refl) as (Hdb & Hresponse & _).
    split; assumption.
  - destruct (settlement_validation Decimal.ROUND_HALF_EVEN Sample.db_split 2 1
                Sample.repay) as (_ & Hchecks & _).
    apply (Hchecks Sample.trip eq_refl).
    intros e He. vm_compute in He. apply list_elem_of_singleton in He as ->.
    exists "Enter a list of values.". by left.
Defined.

(** C8, as stated, fails on the kind of the error: user 2 settling with
    user 2 raises no exception at all; the form comes back with two
    errors, both of them ValidationErrors, and nothing is written. *)
Lemma self_settlement_error_kind_counterexample :
  SettlementCreateView.post Decimal.ROUND_HALF_EVEN Sample.db_split 2 1
    Sample.repay_self
  = (Sample.db_split,
     FormInvalid [ValidationError (Some "amount") "Enter a list of values.";
                  ValidationError None "You cannot settle with yourself."])
  ∧ ∀ e, (SettlementCreateView.post Decimal.ROUND_HALF_EVEN Sample.db_split 2 1
            Sample.repay_self).2 ≠ Raised e.
Proof. split; [by vm_compute|]. intros e. vm_compute. discriminate. Qed.

(** ** The members of a group *)

Lemma save_row_written (db : DB.t) (pk : option Z) (row : Z → Group.t) :
  (∀ i, Group.id (row i) = i) →
  let result := GroupForm.save_row db pk row in
  row result.2 ∈ DB.groups result.1.
Proof.
  intros Hid. unfold GroupForm.save_row. destruct pk as [i|]; cbn.
  - destruct (existsb (λ g, Group.id g =? i) (DB.groups db)) eqn:Hex.
    + apply existsb_exists in Hex as (g0 & Hin & Hg0).
      apply list_elem_of_fmap. exists g0. split.
      * rewrite decide_True by lia. done.
      * by apply list_elem_of_In.
    + apply elem_of_app. right. apply elem_of_cons. by left.
  - apply elem_of_app. right. apply elem_of_cons. by left.
Qed.

(** What [GroupForm.save] writes for a user, the row being committed. *)
Lemma GroupForm_save_members (db : DB.t) (u : Z) (instance : option Group.t)
    (d : GroupForm.data) (cd : GroupForm.cleaned_data) :
  GroupForm.full_clean db (Some u) d = Some cd →
  let result := GroupForm.save db (Some u) instance cd true in
  ∃ pk g,
    result.2 = Ok (Some pk)
    ∧ g ∈ DB.groups result.1
    ∧ Group.id g = pk
    ∧ (∀ i, instance = Some i → pk = Group.id i)
    ∧ Group.created_by g = u
    ∧ u ∈ Group.members g
    ∧ Group.members g ≠ []
    ∧ (u ∉ GroupForm.members_queryset db (Some u))
    ∧ (u ∉ GroupForm.members cd)
    ∧ (∀ m, m ∈ Group.members g ↔ m ∈ GroupForm.members cd ∨ m = u).
Proof.
  intros Hclean result. subst result. unfold GroupForm.save. cbn.
  set (row := λ i : Z,
         Group.Mk i (GroupForm.name cd) (GroupForm.description cd) u
           (remove_dups (GroupForm.members cd ++ [u]))
           (GroupForm.default_currency cd)
           (default true (Group.is_active <$> instance))).
  pose proof (save_row_written db (Group.id <$> instance) row (λ i, eq_refl)) as Hrow.
  assert (∀ i, instance = Some i
               → (GroupForm.save_row db (Group.id <$> instance) row).2 = Group.id i)
    as Hpk by (by intros i ->).
  destruct (GroupForm.save_row db (Group.id <$> instance) row) as [db' i] eqn:Hsave.
  cbn in *. exists i, (row i).
  assert (u ∈ remove_dups (GroupForm.members cd ++ [u])) as Hu.
  { apply elem_of_remove_dups, elem_of_app. right. apply elem_of_cons. by left. }
  assert (u ∉ GroupForm.members_queryset db (Some u)) as Hout.
  { cbn. intros [Hne _]%list_elem_of_filter. done. }
  repeat split; try done.
  - cbn. intros E. rewrite E in Hu. by apply elem_of_nil in Hu.
  - unfold GroupForm.full_clean in Hclean.
    destruct (value_of (GroupForm.data_name d)); [|done].
    destruct (value_of (GroupForm.data_description d)); [|done].
    destruct (value_of (ModelMultipleChoiceField_clean "members" _ _)) as [ms|] eqn:Hms;
      [|done].
    destruct (value_of (GroupForm.clean_default_currency _)); [|done].
    cbn in Hclean. inversion Hclean; subst cd; cbn.
    unfold ModelMultipleChoiceField_clean in Hms.
    destruct (GroupForm.data_members d) as [|x posted]; [done|].
    destruct (decide (Forall _ _)); [|done]. cbn in Hms. inversion Hms; subst ms.
    intros [_ Hin]%list_elem_of_filter. by apply Hout.
  - cbn. intros Hm. apply elem_of_remove_dups, elem_of_app in Hm as [Hm|Hm]; [by left|].
    right. by apply list_elem_of_singleton in Hm.
  - cbn. intros Hm. apply elem_of_remove_dups, elem_of_app.
    destruct Hm as [Hm| ->]; [by left|]. right. apply elem_of_cons. by left.
Qed.

(** C9: a group created or updated through the group form has the user
    who submits it, its creator, among its members, so that its member
    set is not empty, although that user is not among the members the
    form lets one select.  This holds of the form saved for a user with
    the row committed, and so of the two views that save it. *)
Theorem group_form_includes_creator (db : DB.t) (user : Z) (d : GroupForm.data) :
  (∀ instance cd,
     GroupForm.full_clean db (Some user) d = Some cd →
     ∃ g, g ∈ DB.groups (GroupForm.save db (Some user) instance cd true).1
          ∧ (GroupForm.save db (Some user) instance cd true).2 = Ok (Some (Group.id g))
          ∧ Group.created_by g = user
          ∧ user ∈ Group.members g
          ∧ Group.members g ≠ []
          ∧ (user ∉ GroupForm.members_queryset db (Some user))
          ∧ (∀ m, m ∈ Group.members g ↔ m ∈ GroupForm.members cd ∨ m = user))
  ∧ ((GroupCreateView.post db user d).2 = Redirect →
     ∃ g, g ∈ DB.groups (GroupCreateView.post db user d).1
          ∧ Group.created_by g = user
          ∧ user ∈ Group.members g
          ∧ Group.members g ≠ [])
  ∧ (∀ pk, (GroupUpdateView.post db user pk d).2 = Redirect →
           ∃ g, g ∈ DB.groups (GroupUpdateView.post db user pk d).1
                ∧ Group.id g = pk
                ∧ Group.created_by g = user
                ∧ user ∈ Group.members g
                ∧ Group.members g ≠ []).
Proof.
  split; [|split].
  - intros instance cd Hclean.
    destruct (GroupForm_save_members db user instance d cd Hclean)
      as (pk & g & Hres & Hg & <- & _ & Hcreator & Hin & Hne & Hout & _ & Hmembers).
    exists g. done.
  - unfold GroupCreateView.post.
    destruct (GroupForm.full_clean db (Some user) d) as [cd|] eqn:Hclean; [|done].
    destruct (GroupForm_save_members db user None d cd Hclean)
      as (pk & g & Hres & Hg & _ & _ & Hcreator & Hin & Hne & _).
    destruct (GroupForm.save db (Some user) None cd true) as [db' res].
    cbn in *. subst res. intros _. by exists g.
  - intros pk. unfold GroupUpdateView.post.
    destruct (GroupUpdateView.get_object db user pk) as [instance|] eqn:Hobject; [|done].
    destruct (GroupForm.full_clean db (Some user) d) as [cd|] eqn:Hclean; [|done].
    destruct (GroupForm_save_members db user (Some instance) d cd Hclean)
      as (pk' & g & Hres & Hg & Hid & Hpk & Hcreator & Hin & Hne & _).
    destruct (GroupForm.save db (Some user) (Some instance) cd true) as [db' res].
    cbn in *. subst res. intros _. exists g. repeat split; try done.
    rewrite Hid, (Hpk instance eq_refl).
    apply find_some in Hobject as [_ Hobject].
    apply bool_decide_eq_true in Hobject. tauto.
Qed.

Lemma group_form_includes_creator_witness :
  ∃ g, g ∈ DB.groups (GroupCreateView.post Sample.db_unsplit 1 Sample.new_group).1
       ∧ Group.created_by g = 1
       ∧ 1 ∈ Group.members g
       ∧ Group.members g ≠ [].
Proof.
  apply (group_form_includes_creator Sample.db_unsplit 1 Sample.new_group).
  vm_compute. reflexivity.
Defined.

(** ** Allocation through the split form *)

Lemma SplitType_of_value_EQUAL (v : string) :
  SplitType_of_value v = Some EQUAL → v = "equal".
Proof.
  unfold SplitType_of_value.
  repeat (case_decide; [done || congruence|]). done.
Qed.

Lemma SimpleSplitForm_valid (group : option Group.t) (d : SimpleSplitForm.data) :
  SimpleSplitForm.is_valid group d = true →
  ∃ st ms,
    (SimpleSplitForm.clean_fields group d).1 = SimpleSplitForm.Cleaned (Some st) (Some ms)
    ∧ SplitType_of_value (SimpleSplitForm.data_split_type d) = Some st
    ∧ ModelMultipleChoiceField_clean "members"
        (SimpleSplitForm.members_queryset group) (SimpleSplitForm.data_members d)
      = Ok ms.
Proof.
  intros Hvalid. apply bool_decide_eq_true in Hvalid.
  unfold SimpleSplitForm.errors, SimpleSplitForm.clean_fields in *. cbn in *.
  apply app_eq_nil in Hvalid as [Hst Hms].
  apply errors_of_nil in Hst as [st Hst]. apply errors_of_nil in Hms as [ms Hms].
  exists st, ms. rewrite Hst, Hms. repeat split; try done.
  unfold SimpleSplitForm.clean_split_type in Hst.
  destruct (SplitType_of_value _); [by inversion Hst|done].
Qed.

(** C10: a valid submission of the split form whose split type is not
    EQUAL deletes every split of the expense, creates none and returns
    the empty list: the expense is left with no allocation. *)
Theorem non_equal_split_leaves_no_allocation (r : Decimal.Rounding) (db : DB.t)
    (group : option Group.t) (expense : ExpenseInstance.t)
    (d : SimpleSplitForm.data) :
  SimpleSplitForm.is_valid group d = true →
  SimpleSplitForm.data_split_type d ≠ "equal" →
  let result := SimpleSplitForm.save r db (Some expense)
                  (SimpleSplitForm.clean_fields group d).1 in
  result.2 = Ok []
  ∧ DB.splits result.1
    = filter (λ s, ExpenseSplit.expense s ≠ ExpenseInstance.pk expense) (DB.splits db)
  ∧ splits_of result.1 (ExpenseInstance.pk expense) = [].
Proof.
  intros Hvalid Htype result. subst result.
  destruct (SimpleSplitForm_valid group d Hvalid) as (st & ms & -> & Hst & _).
  unfold SimpleSplitForm.save. cbn.
  destruct (decide (st = EQUAL)) as [->|_].
  - by apply SplitType_of_value_EQUAL in Hst.
  - cbn. repeat split. unfold splits_of. cbn.
    rewrite list_filter_filter.
    induction (DB.splits db) as [|s l IH]; [done|].
    rewrite filter_cons, decide_False by tauto. done.
Qed.

Lemma non_equal_split_leaves_no_allocation_witness :
  (SimpleSplitForm.save Decimal.ROUND_HALF_EVEN Sample.db_split
     (Some Sample.dinner_object)
     (SimpleSplitForm.clean_fields (Some Sample.trip)
        (SimpleSplitForm.Data "percentage" [1; 2])).1).2 = Ok []
  ∧ DB.splits
      (SimpleSplitForm.save Decimal.ROUND_HALF_EVEN Sample.db_split
         (Some Sample.dinner_object)
         (SimpleSplitForm.clean_fields (Some Sample.trip)
            (SimpleSplitForm.Data "percentage" [1; 2])).1).1
    = filter (λ s, ExpenseSplit.expense s ≠ 1) (DB.splits Sample.db_split)
  ∧ splits_of
      (SimpleSplitForm.save Decimal.ROUND_HALF_EVEN Sample.db_split
         (Some Sample.dinner_object)
         (SimpleSplitForm.clean_fields (Some Sample.trip)
            (SimpleSplitForm.Data "percentage" [1; 2])).1).1 1 = [].
Proof.
  apply (non_equal_split_leaves_no_allocation Decimal.ROUND_HALF_EVEN Sample.db_split
           (Some Sample.trip) Sample.dinner_object
           (SimpleSplitForm.Data "percentage" [1; 2])).
  - vm_compute. reflexivity.
  - vm_compute. discriminate.
Defined.

(** ** Decimal arithmetic *)

Example truediv_third :
  Decimal.truediv (Decimal.Dec false 10000 (-2)) (Decimal.of_int 3)
  = Some (Decimal.Dec false 3333333333333333333333333333 (-26)).
Proof. reflexivity. Qed.

Example truediv_quarter :
  Decimal.truediv (Decimal.Dec false 10000 (-2)) (Decimal.of_int 4)
  = Some (Decimal.Dec false 2500 (-2)).
Proof. reflexivity. Qed.

Example truediv_two_thirds :
  Decimal.to_str <$> Decimal.truediv (Decimal.Dec false 200 0) (Decimal.of_int 3)
  = Some "66.66666666666666666666666667".
Proof. reflexivity. Qed.

Example round_cents_tie :
  Decimal.round_cents Decimal.ROUND_HALF_EVEN (Decimal.Dec false 5 (-3)) = 0
  ∧ Decimal.round_cents Decimal.ROUND_HALF_UP (Decimal.Dec false 5 (-3)) = 1.
Proof. split; reflexivity. Qed.

Lemma ndigits_aux_pos (fuel : nat) (n : Z) : 1 ≤ Decimal.ndigits_aux fuel n.
Proof.
  revert n. induction fuel as [|fuel IH]; intros n; cbn; [lia|].
  destruct (n <? 10); [lia|]. specialize (IH (n / 10)). lia.
Qed.

Lemma ndigits_aux_le (fuel : nat) (n k : Z) :
  1 ≤ k → n < 10 ^ k → Decimal.ndigits_aux fuel n ≤ k.
Proof.
  revert n k. induction fuel as [|fuel IH]; intros n k Hk Hn; cbn; [lia|].
  destruct (Z.ltb_spec n 10) as [Hlt|Hge]; [lia|].
  assert (k ≠ 1) by (intros ->; change (10 ^ 1) with 10 in Hn; lia).
  assert (10 ^ k = 10 * 10 ^ (k - 1)) as Hpow.
  { rewrite <-Z.pow_succ_r by lia. f_equal. lia. }
  assert (n / 10 < 10 ^ (k - 1)).
  { apply Z.div_lt_upper_bound; lia. }
  specialize (IH (n / 10) (k - 1)). lia.
Qed.

Lemma ndigits_pos (n : Z) : 1 ≤ Decimal.ndigits n.
Proof. apply ndigits_aux_pos. Qed.

Lemma ndigits_le (n k : Z) : 1 ≤ k → n < 10 ^ k → Decimal.ndigits n ≤ k.
Proof. apply ndigits_aux_le. Qed.

Lemma fix_small (s : bool) (c e : Z) :
  c < 10 ^ Decimal.prec → Decimal.fix_ (Decimal.Dec s c e) = Decimal.Dec s c e.
Proof.
  intros Hc. unfold Decimal.fix_. cbn [Decimal.coeff].
  pose proof (ndigits_le c Decimal.prec ltac:(unfold Decimal.prec; lia) Hc).
  destruct (Z.gtb_spec (Decimal.ndigits c) Decimal.prec); [lia|done].
Qed.

(** Adding a field value to a running total of exponent -2 is exact while
    the total stays below 28 digits. *)
Lemma add_exact (x : Z) (p : Decimal.t) (digits : Z) :
  0 ≤ x → field_value digits p →
  x + hundredths p < 10 ^ Decimal.prec →
  Decimal.add (Decimal.Dec false x (-2)) p
  = Decimal.Dec false (x + hundredths p) (-2).
Proof.
  intros Hx (Hsign & Hc & He & _) Hsum.
  unfold Decimal.add, Decimal.scaled, hundredths in *. cbn.
  rewrite Hsign. cbn. rewrite Z.min_l by lia.
  change (-2 - -2) with 0. rewrite Z.pow_0_r, Z.mul_1_r.
  replace (Decimal.exp p - -2) with (Decimal.exp p + 2) by lia.
  assert (0 ≤ Decimal.coeff p * 10 ^ (Decimal.exp p + 2))
    by (apply Z.mul_nonneg_nonneg; [lia|apply Z.pow_nonneg; lia]).
  rewrite Z.abs_eq by lia.
  rewrite fix_small by done.
  destruct (Z.eqb_spec (x + Decimal.coeff p * 10 ^ (Decimal.exp p + 2)) 0); [done|].
  destruct (Z.ltb_spec (x + Decimal.coeff p * 10 ^ (Decimal.exp p + 2)) 0); [lia|done].
Qed.

(** [abs(total - Decimal("100.00")) > Decimal("0.01")] on a total of
    exponent -2. *)
Lemma tolerance_check (x target : Z) :
  0 ≤ x → x < 10 ^ Decimal.prec → 0 ≤ target → target < 10 ^ Decimal.prec →
  Decimal.gt (Decimal.abs (Decimal.sub (Decimal.Dec false x (-2))
                                        (Decimal.Dec false target (-2))))
             (Decimal.Dec false 1 (-2))
  = (Z.abs (x - target) >? 1).
Proof.
  intros Hx Hxb Ht Htb.
  unfold Decimal.sub, Decimal.add, Decimal.neg, Decimal.scaled. cbn.
  rewrite !Z.mul_1_r.
  assert (Z.abs (x + - target) < 10 ^ Decimal.prec) by lia.
  rewrite fix_small by done.
  unfold Decimal.abs. cbn. rewrite fix_small by done.
  unfold Decimal.gt, Decimal.scaled. cbn. rewrite Z.mul_1_r.
  f_equal; lia.
Qed.

Lemma pow10_pos (k : Z) : 0 ≤ k → 0 < 10 ^ k.
Proof. intros. apply Z.pow_pos_nonneg; lia. Qed.

Lemma pow10_succ (k : Z) : 0 ≤ k → 10 ^ (k + 1) = 10 * 10 ^ k.
Proof. intros. rewrite Z.pow_add_r by lia. change (10 ^ 1) with 10. lia. Qed.

Lemma pow10_add (j k : Z) : 0 ≤ j → 0 ≤ k → 10 ^ (j + k) = 10 ^ j * 10 ^ k.
Proof. intros. by rewrite Z.pow_add_r. Qed.

Lemma ndigits_aux_lower (fuel : nat) (n : Z) :
  0 < n → n < 2 ^ (Z.of_nat fuel + 1) →
  10 ^ (Decimal.ndigits_aux fuel n - 1) ≤ n.
Proof.
  revert n. induction fuel as [|fuel IH]; intros n Hpos Hfuel; cbn [Decimal.ndigits_aux].
  - change (10 ^ (1 - 1)) with 1. lia.
  - destruct (Z.ltb_spec n 10) as [Hlt|Hge]; [change (10 ^ (1 - 1)) with 1; lia|].
    pose proof (ndigits_aux_pos fuel (n / 10)) as Hd.
    assert (0 < n / 10) by (apply Z.div_str_pos; lia).
    assert (n / 10 < 2 ^ (Z.of_nat fuel + 1)).
    { apply Z.div_lt_upper_bound; [lia|].
      replace (Z.of_nat (S fuel) + 1) with (Z.of_nat fuel + 1 + 1) in Hfuel by lia.
      rewrite Z.pow_add_r in Hfuel by lia. change (2 ^ 1) with 2 in Hfuel. lia. }
    specialize (IH (n / 10) ltac:(done) ltac:(done)).
    replace (1 + Decimal.ndigits_aux fuel (n / 10) - 1)
      with (Decimal.ndigits_aux fuel (n / 10) - 1 + 1) by lia.
    rewrite pow10_succ by lia.
    pose proof (Z.mul_div_le n 10 ltac:(lia)). lia.
Qed.

Lemma ndigits_aux_upper (fuel : nat) (n : Z) :
  0 ≤ n → n < 2 ^ (Z.of_nat fuel + 1) →
  n < 10 ^ Decimal.ndigits_aux fuel n.
Proof.
  revert n. induction fuel as [|fuel IH]; intros n Hpos Hfuel; cbn [Decimal.ndigits_aux].
  - change (2 ^ (Z.of_nat 0 + 1)) with 2 in Hfuel. change (10 ^ 1) with 10. lia.
  - destruct (Z.ltb_spec n 10) as [Hlt|Hge]; [change (10 ^ 1) with 10; lia|].
    pose proof (ndigits_aux_pos fuel (n / 10)) as Hd.
    assert (0 ≤ n / 10) by (apply Z.div_pos; lia).
    assert (n / 10 < 2 ^ (Z.of_nat fuel + 1)).
    { apply Z.div_lt_upper_bound; [lia|].
      replace (Z.of_nat (S fuel) + 1) with (Z.of_nat fuel + 1 + 1) in Hfuel by lia.
      rewrite Z.pow_add_r in Hfuel by lia. change (2 ^ 1) with 2 in Hfuel. lia. }
    specialize (IH (n / 10) ltac:(done) ltac:(done)).
    replace (1 + Decimal.ndigits_aux fuel (n / 10))
      with (Decimal.ndigits_aux fuel (n / 10) + 1) by lia.
    rewrite pow10_succ by lia.
    pose proof (Z.mod_pos_bound n 10 ltac:(lia)).
    pose proof (Z.div_mod n 10 ltac:(lia)). lia.
Qed.

Lemma ndigits_fuel (n : Z) : 0 < n → n < 2 ^ (Z.of_nat (Z.to_nat (Z.log2 n)) + 1).
Proof.
  intros Hn. rewrite Z2Nat.id by apply Z.log2_nonneg.
  replace (Z.log2 n + 1) with (Z.succ (Z.log2 n)) by lia.
  by apply Z.log2_spec.
Qed.

Lemma ndigits_lower (n : Z) : 0 < n → 10 ^ (Decimal.ndigits n - 1) ≤ n.
Proof. intros Hn. apply ndigits_aux_lower; [done|by apply ndigits_fuel]. Qed.

Lemma ndigits_upper (n : Z) : 0 ≤ n → n < 10 ^ Decimal.ndigits n.
Proof.
  intros Hn. destruct (decide (n = 0)) as [->|Hne]; [done|].
  apply ndigits_aux_upper; [done|apply ndigits_fuel; lia].
Qed.

Lemma round_div_nonneg (r : Decimal.Rounding) (c k : Z) :
  0 ≤ c → 0 ≤ k → 0 ≤ Decimal.round_div r c k.
Proof.
  intros Hc Hk. unfold Decimal.round_div.
  pose proof (pow10_pos k Hk).
  assert (0 ≤ c / 10 ^ k) by (apply Z.div_pos; lia).
  destruct (2 * (c mod 10 ^ k) >? 10 ^ k); [lia|].
  destruct (2 * (c mod 10 ^ k) =? 10 ^ k); [|lia].
  destruct r; [destruct (Z.odd _)|]; lia.
Qed.

(** Rounding does not pass a multiple of the unit that bounds the value. *)
Lemma round_div_le (r : Decimal.Rounding) (c k M : Z) :
  0 ≤ k → c ≤ M * 10 ^ k → Decimal.round_div r c k ≤ M.
Proof.
  intros Hk Hc. unfold Decimal.round_div.
  pose proof (pow10_pos k Hk) as Hp.
  assert (c / 10 ^ k ≤ M) as Hq by (apply Z.div_le_upper_bound; lia).
  pose proof (Z.div_mod c (10 ^ k) ltac:(lia)) as Hdm.
  pose proof (Z.mod_pos_bound c (10 ^ k) Hp) as Hm.
  destruct (Z.gtb_spec (2 * (c mod 10 ^ k)) (10 ^ k)) as [Hgt|Hle]; [nia|].
  destruct (Z.eqb_spec (2 * (c mod 10 ^ k)) (10 ^ k)) as [Heq|Hne]; [|lia].
  assert (c / 10 ^ k < M) by nia.
  destruct r; [destruct (Z.odd _)|]; lia.
Qed.

Lemma strip_invariant (k : nat) (c e : Z) :
  0 ≤ c →
  let result := Decimal.strip k c e in
  result.1 * 10 ^ (result.2 - e) = c ∧ e ≤ result.2 ∧ 0 ≤ result.1.
Proof.
  revert c e. induction k as [|k IH]; intros c e Hc; cbn.
  - rewrite Z.sub_diag. cbn. lia.
  - destruct (Z.eqb_spec (c mod 10) 0) as [Hmod|Hmod]; cbn.
    + assert (0 ≤ c / 10) by (apply Z.div_pos; lia).
      destruct (IH (c / 10) (e + 1) ltac:(done)) as (Hval & He & Hpos).
      repeat split; [|lia|done].
      replace ((Decimal.strip k (c / 10) (e + 1)).2 - e)
        with ((Decimal.strip k (c / 10) (e + 1)).2 - (e + 1) + 1) by lia.
      rewrite pow10_succ by lia.
      pose proof (Z.div_mod c 10 ltac:(lia)). lia.
    + rewrite Z.sub_diag. cbn. lia.
Qed.

Lemma strip_pow (k : nat) (x e : Z) :
  Decimal.strip k (x * 10 ^ Z.of_nat k) e = (x, e + Z.of_nat k).
Proof.
  revert e. induction k as [|k IH]; intros e.
  - cbn. f_equal; lia.
  - cbn [Decimal.strip].
    replace (Z.of_nat (S k)) with (Z.of_nat k + 1) by lia.
    rewrite pow10_succ by lia.
    replace (x * (10 * 10 ^ Z.of_nat k)) with (x * 10 ^ Z.of_nat k * 10) by lia.
    rewrite Z.mod_mul, Z.div_mul by lia. cbn.
    rewrite IH. f_equal. lia.
Qed.

Lemma strip_exp_le (k : nat) (c e : Z) :
  (Decimal.strip k c e).2 ≤ e + Z.of_nat k.
Proof.
  revert c e. induction k as [|k IH]; intros c e; cbn; [lia|].
  destruct (c mod 10 =? 0); cbn; [|lia].
  specialize (IH (c / 10) (e + 1)). lia.
Qed.

(** The value of a coefficient [c] at exponent [ex], counted in units of
    [10^e]. *)
Lemma fix_le (s : bool) (x ex e M j : Z) :
  0 ≤ x → e ≤ ex →
  Decimal.ndigits x - Decimal.prec + (ex - e) ≤ j →
  x * 10 ^ (ex - e) ≤ M * 10 ^ j →
  let p := Decimal.fix_ (Decimal.Dec s x ex) in
  Decimal.sign p = s ∧ 0 ≤ Decimal.coeff p ∧ e ≤ Decimal.exp p
  ∧ Decimal.coeff p * 10 ^ (Decimal.exp p - e) ≤ M * 10 ^ j.
Proof.
  intros Hx He Hj Hval. unfold Decimal.fix_. cbn [Decimal.coeff Decimal.sign Decimal.exp].
  destruct (Z.gtb_spec (Decimal.ndigits x) Decimal.prec) as [Hbig|Hsmall];
    [|cbn; done].
  set (drop := Decimal.ndigits x - Decimal.prec) in *.
  set (cr := Decimal.round_div Decimal.ROUND_HALF_EVEN x drop).
  assert (0 < drop) by lia.
  pose proof (pow10_pos (ex - e) ltac:(lia)) as HP1.
  pose proof (pow10_pos drop ltac:(lia)) as HP2.
  pose proof (pow10_pos (j - drop - (ex - e)) ltac:(lia)) as HP3.
  assert (10 ^ j = 10 ^ (j - drop - (ex - e)) * 10 ^ drop * 10 ^ (ex - e)) as Hj10.
  { rewrite <-!pow10_add by lia. f_equal. lia. }
  assert (0 ≤ cr) as Hcr0 by (apply round_div_nonneg; lia).
  assert (cr ≤ M * 10 ^ (j - drop - (ex - e))) as Hcr.
  { apply round_div_le; [lia|]. rewrite Hj10 in Hval. nia. }
  assert (cr * (10 ^ drop * 10 ^ (ex - e)) ≤ M * 10 ^ j) as Hcrv.
  { rewrite Hj10. nia. }
  destruct (Decimal.ndigits cr >? Decimal.prec); cbn.
  - repeat split; [apply Z.div_pos; lia|lia|].
    replace (ex + drop + 1 - e) with (1 + (drop + (ex - e))) by lia.
    rewrite !pow10_add by lia. change (10 ^ 1) with 10.
    pose proof (Z.mul_div_le cr 10 ltac:(lia)).
    assert (0 < 10 ^ drop * 10 ^ (ex - e)) by lia. nia.
  - repeat split; [done|lia|].
    replace (ex + drop - e) with (drop + (ex - e)) by lia.
    rewrite pow10_add by lia. lia.
Qed.

Lemma pow10_lt_inv (a b : Z) : 0 ≤ a → 10 ^ a < 10 ^ b → a < b.
Proof.
  intros Ha H. destruct (Z.lt_ge_cases a b) as [|Hge]; [done|].
  destruct (Z.lt_ge_cases b 0) as [Hneg|Hb].
  - rewrite (Z.pow_neg_r 10 b) in H by done. pose proof (pow10_pos a Ha). lia.
  - pose proof (Z.pow_le_mono_r 10 b a ltac:(lia) Hge). lia.
Qed.

Lemma div_eucl_spec (N n : Z) :
  0 < n → Z.div_eucl N n = (N / n, N mod n).
Proof. intros. unfold Z.div, Z.modulo. by destruct (Z.div_eucl N n). Qed.

Lemma truediv_le (a : Decimal.t) (n : Z) :
  Decimal.sign a = false → 0 < Decimal.coeff a → Decimal.coeff a < 10 ^ 14 → 1 ≤ n →
  let shift := Decimal.ndigits n - Decimal.ndigits (Decimal.coeff a) + 29 in
  let e := Decimal.exp a - shift in
  ∃ p, Decimal.truediv a (Decimal.of_int n) = Some p
       ∧ Decimal.sign p = false ∧ 0 ≤ Decimal.coeff p ∧ e ≤ Decimal.exp p
       ∧ Decimal.coeff p * 10 ^ (Decimal.exp p - e) ≤ Decimal.coeff a * 10 ^ shift.
Proof.
  intros Hsign Hc Hc14 Hn shift e.
  set (c := Decimal.coeff a) in *.
  pose proof (ndigits_le c 14 ltac:(lia) Hc14) as Hla.
  pose proof (ndigits_pos c) as Hla1.
  pose proof (ndigits_pos n) as Hlb.
  pose proof (ndigits_lower n ltac:(lia)) as Hnlow.
  pose proof (ndigits_upper n ltac:(lia)) as Hnup.
  pose proof (ndigits_upper c ltac:(lia)) as Hcup.
  assert (16 ≤ shift) as Hshift by (unfold shift; lia).
  unfold Decimal.truediv, Decimal.of_int. cbn [Decimal.coeff Decimal.sign Decimal.exp].
  fold c. rewrite Hsign, Z.abs_eq by lia.
  replace (n <? 0) with false by (symmetry; apply Z.ltb_ge; lia).
  cbn [xorb].
  destruct (Z.eqb_spec n 0); [lia|]. destruct (Z.eqb_spec c 0); [lia|].
  change Decimal.prec with 28.
  replace (Decimal.ndigits n - Decimal.ndigits c + 28 + 1) with shift by (unfold shift; lia).
  replace (Decimal.exp a - 0 - shift) with e by (unfold e; lia).
  destruct (Z.leb_spec 0 shift); [|lia].
  rewrite div_eucl_spec by lia.
  set (N := c * 10 ^ shift).
  set (q := N / n). set (r := N mod n).
  pose proof (Z.div_mod N n ltac:(lia)) as Hdm. fold q r in Hdm.
  pose proof (Z.mod_pos_bound N n ltac:(lia)) as Hr. fold r in Hr.
  pose proof (pow10_pos shift ltac:(lia)) as HPs.
  assert (0 ≤ q) as Hq0 by (apply Z.div_pos; unfold N; nia).
  assert (q ≤ N) as HqN by nia.
  (* the quotient has at most 30 digits *)
  assert (q < 10 ^ 30) as Hq30.
  { assert (10 ^ (Decimal.ndigits c + shift)
            = 10 ^ (Decimal.ndigits n - 1) * 10 ^ 30) as Hsplit.
    { rewrite <-pow10_add by lia. f_equal. unfold shift. lia. }
    assert (N < 10 ^ (Decimal.ndigits c + shift)).
    { rewrite pow10_add by lia. unfold N. nia. }
    pose proof (pow10_pos (Decimal.ndigits n - 1) ltac:(lia)).
    assert (q * 10 ^ (Decimal.ndigits n - 1) ≤ q * n) by nia.
    nia. }
  (* and is at least 1 *)
  assert (n < N) as HnN.
  { assert (10 ^ shift = 10 ^ Decimal.ndigits n * 10 ^ (shift - Decimal.ndigits n))
      as Hsplit.
    { rewrite <-pow10_add by lia. f_equal. lia. }
    pose proof (pow10_pos (shift - Decimal.ndigits n) ltac:(unfold shift; lia)).
    unfold N. rewrite Hsplit. nia. }
  assert (1 ≤ q) as Hq1 by nia.
  destruct (Z.eqb_spec r 0) as [Hr0|Hr0].
  - (* exact quotient *)
    replace (Decimal.exp a - 0 - e) with shift by (unfold e; lia).
    pose proof (strip_invariant (Z.to_nat shift) q e Hq0) as (Hval & He & Hpos).
    pose proof (strip_exp_le (Z.to_nat shift) q e) as Hek.
    destruct (Decimal.strip (Z.to_nat shift) q e) as [q' e'] eqn:Hstrip.
    cbn [fst snd] in *. rewrite Z2Nat.id in Hek by lia.
    eexists. split; [reflexivity|].
    apply (fix_le false q' e' e c shift); [done|done| |fold N; lia].
    assert (0 < q') by nia.
    pose proof (ndigits_lower q' ltac:(done)) as Hq'low.
    pose proof (ndigits_pos q').
    assert (10 ^ (Decimal.ndigits q' - 1 + (e' - e)) < 10 ^ 30) as Hpow.
    { rewrite pow10_add by lia.
      pose proof (pow10_pos (e' - e) ltac:(lia)). nia. }
    apply pow10_lt_inv in Hpow; [|lia]. change Decimal.prec with 28. lia.
  - (* inexact quotient *)
    set (q2 := if q mod 5 =? 0 then q + 1 else q).
    assert (q ≤ q2 ≤ q + 1) as Hq2 by (unfold q2; destruct (q mod 5 =? 0); lia).
    assert (2 ≤ n) by nia.
    assert (q2 ≤ N) by nia.
    eexists. split; [reflexivity|].
    apply (fix_le false q2 e e c shift); [lia|lia| |rewrite Z.sub_diag; fold N; lia].
    assert (q2 < 10 ^ 31) by (change (10 ^ 31) with (10 * 10 ^ 30); lia).
    pose proof (ndigits_le q2 31 ltac:(lia) ltac:(done)).
    change Decimal.prec with 28. lia.
Qed.

Lemma round_cents_le (r : Decimal.Rounding) (p : Decimal.t) (e A : Z) :
  Decimal.sign p = false → 0 ≤ Decimal.coeff p → e ≤ Decimal.exp p → e ≤ -2 →
  Decimal.coeff p * 10 ^ (Decimal.exp p - e) ≤ A * 10 ^ (-2 - e) →
  0 ≤ Decimal.round_cents r p ≤ A.
Proof.
  intros Hsign Hc He He2 Hval. unfold Decimal.round_cents. rewrite Hsign.
  destruct (Z.geb_spec (Decimal.exp p) (-2)) as [Hge|Hlt].
  - pose proof (pow10_pos (Decimal.exp p + 2) ltac:(lia)).
    pose proof (pow10_pos (-2 - e) ltac:(lia)).
    replace (Decimal.exp p - e) with (Decimal.exp p + 2 + (-2 - e)) in Hval by lia.
    rewrite pow10_add in Hval by lia. nia.
  - pose proof (pow10_pos (Decimal.exp p - e) ltac:(lia)).
    pose proof (pow10_pos (-2 - Decimal.exp p) ltac:(lia)).
    replace (-2 - e) with (-2 - Decimal.exp p + (Decimal.exp p - e)) in Hval by lia.
    rewrite pow10_add in Hval by lia.
    split; [apply round_div_nonneg; lia|].
    apply round_div_le; [lia|nia].
Qed.

(** ** The percentages of a formset *)

Lemma hundredths_nonneg (digits : Z) (p : Decimal.t) :
  field_value digits p → 0 ≤ hundredths p.
Proof.
  intros (_ & Hc & He & _). unfold hundredths.
  apply Z.mul_nonneg_nonneg; [lia|apply Z.pow_nonneg; lia].
Qed.

Lemma hundredths_falsy (p : Decimal.t) :
  Decimal.truthy p = false → hundredths p = 0.
Proof.
  unfold Decimal.truthy, hundredths. intros H.
  destruct (Z.eqb_spec (Decimal.coeff p) 0) as [->|]; [lia|done].
Qed.

Lemma percentage_sum_nonneg (forms : list ExpenseSplitFormSet.form) :
  Forall (λ cd, ∀ p, ExpenseSplitFormSet.percentage cd = Some p → field_value 5 p)
         (participants forms) →
  0 ≤ percentage_sum forms.
Proof.
  unfold percentage_sum. induction 1 as [|cd l Hcd Hl IH]; [done|].
  rewrite fmap_cons. unfold sumZ in *. cbn [foldr].
  destruct (ExpenseSplitFormSet.percentage cd) as [p|]; cbn; [|lia].
  pose proof (hundredths_nonneg 5 p (Hcd p eq_refl)). lia.
Qed.

Lemma participants_cons (f : ExpenseSplitFormSet.form)
    (forms : list ExpenseSplitFormSet.form) :
  participants (f :: forms)
  = match ExpenseSplitFormSet.form_cleaned_data f with
    | Some cd => if ExpenseSplitFormSet.DELETE cd then participants forms
                 else cd :: participants forms
    | None => participants forms
    end.
Proof.
  unfold participants. cbn.
  destruct (ExpenseSplitFormSet.form_cleaned_data f) as [cd|]; cbn; [|done].
  by destruct (ExpenseSplitFormSet.DELETE cd).
Qed.

Lemma percentage_sum_cons (f : ExpenseSplitFormSet.form)
    (forms : list ExpenseSplitFormSet.form) :
  percentage_sum (f :: forms)
  = match ExpenseSplitFormSet.form_cleaned_data f with
    | Some cd => if ExpenseSplitFormSet.DELETE cd then percentage_sum forms
                 else from_option hundredths 0 (ExpenseSplitFormSet.percentage cd)
                      + percentage_sum forms
    | None => percentage_sum forms
    end.
Proof.
  unfold percentage_sum. rewrite participants_cons.
  destruct (ExpenseSplitFormSet.form_cleaned_data f) as [cd|]; [|done].
  by destruct (ExpenseSplitFormSet.DELETE cd).
Qed.

Lemma visit_all_percentage (forms : list ExpenseSplitFormSet.form)
    (t : ExpenseSplitFormSet.totals) (x : Z) :
  ExpenseSplitFormSet.total_percentage t = Decimal.Dec false x (-2) →
  0 ≤ x →
  Forall (λ cd, ∀ p, ExpenseSplitFormSet.percentage cd = Some p → field_value 5 p)
         (participants forms) →
  NoDup (ExpenseSplitFormSet.users t
         ++ (ExpenseSplitFormSet.user <$> participants forms)) →
  x + percentage_sum forms < 10 ^ Decimal.prec →
  ∃ t', ExpenseSplitFormSet.visit_all PERCENTAGE t forms = Ok t'
        ∧ ExpenseSplitFormSet.total_percentage t'
          = Decimal.Dec false (x + percentage_sum forms) (-2).
Proof.
  revert t x. induction forms as [|f forms IH]; intros t x Ht Hx Hvalid Hnd Hsum.
  - exists t. split; [done|]. rewrite Ht. unfold percentage_sum. cbn.
    by rewrite Z.add_0_r.
  - cbn [ExpenseSplitFormSet.visit_all]. unfold ExpenseSplitFormSet.visit.
    rewrite percentage_sum_cons in Hsum |- *. rewrite participants_cons in Hvalid, Hnd.
    destruct (ExpenseSplitFormSet.form_cleaned_data f) as [cd|]; [|by apply IH].
    destruct (ExpenseSplitFormSet.DELETE cd); [by apply IH|].
    apply Forall_cons in Hvalid as [Hcd Hvalid].
    pose proof (percentage_sum_nonneg forms Hvalid) as Hrest.
    rewrite fmap_cons in Hnd.
    rewrite decide_False; last first.
    { intros Hin. apply NoDup_app in Hnd as (_ & Hdisjoint & _).
      apply (Hdisjoint _ Hin). apply elem_of_cons. by left. }
    set (t1 := ExpenseSplitFormSet.set_users
                 (ExpenseSplitFormSet.users t ++ [ExpenseSplitFormSet.user cd]) t).
    assert (0 ≤ from_option hundredths 0 (ExpenseSplitFormSet.percentage cd)) as Hcd0.
    { destruct (ExpenseSplitFormSet.percentage cd) as [p|]; cbn; [|done].
      apply (hundredths_nonneg 5), Hcd. done. }
    (* the rest of the loop, from the totals [t2] the body leaves *)
    assert (∀ t2,
              ExpenseSplitFormSet.users t2 = ExpenseSplitFormSet.users t1 →
              ExpenseSplitFormSet.total_percentage t2
              = Decimal.Dec false
                  (x + from_option hundredths 0 (ExpenseSplitFormSet.percentage cd))
                  (-2) →
              ∃ t', ExpenseSplitFormSet.visit_all PERCENTAGE t2 forms = Ok t'
                    ∧ ExpenseSplitFormSet.total_percentage t'
                      = Decimal.Dec false
                          (x + (from_option hundredths 0
                                  (ExpenseSplitFormSet.percentage cd)
                                + percentage_sum forms)) (-2)) as Hnext.
    { intros t2 Husers Htotal.
      destruct (IH t2 _ Htotal) as (t' & Hrun & Htotal'); [lia|done| |lia|].
      - rewrite Husers. cbn. by rewrite <-app_assoc.
      - exists t'. split; [done|]. rewrite Htotal'. f_equal. lia. }
    destruct (ExpenseSplitFormSet.percentage cd) as [p|] eqn:Hp; cbn [from_option] in *.
    + destruct (Decimal.truthy p) eqn:Htruthy.
      * apply Hnext; [done|]. cbn. rewrite Ht.
        apply (add_exact x p 5); [done|by apply Hcd|lia].
      * apply Hnext; [done|]. cbn. rewrite Ht, (hundredths_falsy p Htruthy).
        f_equal. lia.
    + apply Hnext; [done|]. cbn. rewrite Ht. f_equal. lia.
Qed.

(** C7 (amended): a PERCENTAGE formset that is bound to an expense, whose
    forms are free of errors and name distinct users, is rejected exactly
    when its percentages add up to a value that differs from 100.00 by
    more than 0.01, and accepted otherwise; the rejection is a
    ValidationError of the formset, not keyed to any field, whose message
    gives the total.  A formset that is given no expense checks no
    total. *)
Theorem percentage_total_check (expense : ExpenseInstance.t)
    (forms : list ExpenseSplitFormSet.form) :
  existsb ExpenseSplitFormSet.has_errors forms = false →
  NoDup (ExpenseSplitFormSet.user <$> participants forms) →
  Forall (λ cd, ∀ p, ExpenseSplitFormSet.percentage cd = Some p → field_value 5 p)
         (participants forms) →
  percentage_sum forms < 10 ^ Decimal.prec →
  ExpenseSplitFormSet.clean (Some expense) PERCENTAGE forms
  = (if Z.abs (percentage_sum forms - 10000) >? 1
     then Raise (ValidationError None
                   (ExpenseSplitFormSet.percentage_message
                      (Decimal.Dec false (percentage_sum forms) (-2))))
     else Ok tt)
  ∧ ExpenseSplitFormSet.clean None PERCENTAGE forms = Ok tt.
Proof.
  intros Herrors Hnd Hvalid Hsum.
  destruct (visit_all_percentage forms ExpenseSplitFormSet.initial 0)
    as (t' & Hrun & Htotal); try done.
  pose proof (percentage_sum_nonneg forms Hvalid) as Hnonneg.
  unfold ExpenseSplitFormSet.clean. rewrite Herrors, Hrun, Htotal.
  rewrite Z.add_0_l. split; [|done].
  rewrite (tolerance_check (percentage_sum forms) 10000);
    [done|lia|exact Hsum|lia|reflexivity].
Qed.

Lemma percentage_total_check_witness :
  ExpenseSplitFormSet.clean (Some Sample.dinner_object) PERCENTAGE
    [Sample.percent 1 5000; Sample.percent 2 4998]
  = Raise (ValidationError None "Percentages must add up to 100%. Current total: 99.98%")
  ∧ ExpenseSplitFormSet.clean None PERCENTAGE
      [Sample.percent 1 5000; Sample.percent 2 4998] = Ok tt.
Proof.
  apply (percentage_total_check Sample.dinner_object
           [Sample.percent 1 5000; Sample.percent 2 4998]).
  - reflexivity.
  - by_compute.
  - cbn. repeat (apply Forall_cons_2 || apply Forall_nil_2);
      intros p [= <-]; unfold field_value, hundredths; cbn; lia.
  - vm_compute. reflexivity.
Defined.

(** C7, as stated, fails twice: percentages that add up to 50.00 are
    accepted by a formset that was given no expense, and the rejection of
    99.98 is an error of the formset as a whole, which names no field. *)
Lemma percentage_rejection_counterexample :
  ExpenseSplitFormSet.clean None PERCENTAGE [Sample.percent 1 5000] = Ok tt
  ∧ ExpenseSplitFormSet.clean (Some Sample.dinner_object) PERCENTAGE
      [Sample.percent 1 5000; Sample.percent 2 4998]
    = Raise (ValidationError None
               "Percentages must add up to 100%. Current total: 99.98%")
  ∧ ¬ Spec.names_field "percentage"
        (ValidationError None "Percentages must add up to 100%. Current total: 99.98%").
Proof. split; [by vm_compute|]. split; [by vm_compute|]. cbn. tauto. Qed.

(** ** The amount of an expense *)

Lemma DecimalValidator_field_value (max_digits : Z) (d : Decimal.t) :
  0 ≤ Decimal.coeff d → 2 ≤ max_digits →
  DecimalValidator max_digits 2 d = true →
  -2 ≤ Decimal.exp d ∧ hundredths d < 10 ^ max_digits.
Proof.
  intros Hc Hmax. unfold DecimalValidator, hundredths.
  pose proof (ndigits_upper (Decimal.coeff d) Hc) as Hup.
  pose proof (ndigits_pos (Decimal.coeff d)) as Hlen.
  set (len := Decimal.ndigits (Decimal.coeff d)) in *.
  set (c := Decimal.coeff d) in *. set (e := Decimal.exp d) in *.
  (* the coefficient shifted by e + 2 places stays below len + e + 2 digits *)
  assert (-2 ≤ e → len + e + 2 ≤ max_digits → c * 10 ^ (e + 2) < 10 ^ max_digits)
    as Hfit.
  { intros He Hdigits.
    pose proof (pow10_pos (e + 2) ltac:(lia)).
    assert (10 ^ len * 10 ^ (e + 2) ≤ 10 ^ max_digits).
    { rewrite <-pow10_add by lia. apply Z.pow_le_mono_r; lia. }
    nia. }
  destruct (Z.geb_spec e 0) as [He|He].
  - destruct (Z.eqb_spec c 0) as [Hc0|Hc0].
    + intros _. split; [lia|]. rewrite Hc0. cbn. by apply pow10_pos; lia.
    + intros H. apply andb_true_iff in H as [H Hwhole].
      apply andb_true_iff in H as [Hdigits _].
      apply Z.leb_le in Hdigits, Hwhole. split; [lia|]. apply Hfit; lia.
  - destruct (Z.gtb_spec (Z.abs e) len) as [Hlong|Hshort]; intros H;
      apply andb_true_iff in H as [H Hwhole];
      apply andb_true_iff in H as [Hdigits Hdecimals];
      apply Z.leb_le in Hdigits, Hdecimals, Hwhole;
      (split; [lia|]); apply Hfit; lia.
Qed.

(** What the amount field of the expense form lets through is a positive
    value of the column. *)
Lemma ExpenseForm_amount_field_value (value : option Decimal.t) (d : Decimal.t) :
  0 ≤ Decimal.coeff d →
  ExpenseForm.clean_amount value = Ok d →
  field_value 14 d ∧ 0 < Decimal.coeff d.
Proof.
  intros Hc. unfold ExpenseForm.clean_amount.
  destruct value as [d'|]; [|done].
  destruct (Decimal_lt d' (Decimal.Dec false 1 (-2))) eqn:Hmin; [done|].
  destruct (DecimalValidator 14 2 d') eqn:Hvalid; [|done].
  intros [= ->].
  destruct (DecimalValidator_field_value 14 d Hc ltac:(lia) Hvalid) as [Hexp Hfit].
  unfold Decimal_lt, Decimal.gt, Decimal.scaled in Hmin. cbn in Hmin.
  assert (0 < 10 ^ (-2 - Z.min (-2) (Decimal.exp d))) by (apply pow10_pos; lia).
  assert (0 < 10 ^ (Decimal.exp d - Z.min (-2) (Decimal.exp d)))
    by (apply pow10_pos; lia).
  unfold field_value.
  destruct (Decimal.sign d); [exfalso; nia|].
  repeat split; try done. nia.
Qed.

(** A valid expense form respects the invariant of the data model: an
    expense is of type GROUP exactly when it has a group, and the payer
    of a group expense is a member of the group. *)
Lemma ExpenseForm_clean_invariant (expense_type : ExpenseType)
    (group : option Group.t) (paid_by : Z) :
  ExpenseForm.clean (Some expense_type) group (Some paid_by) = Ok tt →
  (expense_type = GROUP ↔ is_Some group)
  ∧ (∀ g, group = Some g → paid_by ∈ Group.members g).
Proof.
  unfold ExpenseForm.clean.
  destruct expense_type, group as [g|]; try done.
  destruct (decide (paid_by ∈ Group.members g)) as [Hin|]; [|done].
  intros _. split; [by split|]. by intros g' [= <-].
Qed.

(** ** The equal split *)

Lemma per_person_fits (a : Decimal.t) (n : Z) :
  field_value 14 a → 0 < Decimal.coeff a → 1 ≤ n →
  ∃ p, Decimal.truediv a (Decimal.of_int n) = Some p
       ∧ ∀ r, to_db_column r p = Ok (Decimal.round_cents r p)
              ∧ 0 ≤ Decimal.round_cents r p ≤ hundredths a.
Proof.
  intros (Hsign & _ & Hexp & Hfit) Hc Hn. unfold hundredths in *.
  pose proof (pow10_pos (Decimal.exp a + 2) ltac:(lia)) as HP.
  assert (Decimal.coeff a < 10 ^ 14) as Hc14 by nia.
  destruct (truediv_le a n Hsign Hc Hc14 Hn) as (p & Hdiv & Hps & Hpc & Hpe & Hval).
  set (shift := Decimal.ndigits n - Decimal.ndigits (Decimal.coeff a) + 29) in *.
  set (e := Decimal.exp a - shift) in *.
  pose proof (ndigits_lower (Decimal.coeff a) Hc) as Hlow.
  pose proof (ndigits_pos (Decimal.coeff a)) as Hla.
  pose proof (ndigits_pos n) as Hlb.
  (* the exponent of the amount is small enough for -2 to be above [e] *)
  assert (Decimal.ndigits (Decimal.coeff a) - 1 + (Decimal.exp a + 2) < 14) as Hea.
  { apply pow10_lt_inv; [lia|]. rewrite pow10_add by lia. nia. }
  assert (e ≤ -2) as He by (unfold e, shift; lia).
  exists p. split; [done|]. intros r.
  assert (0 ≤ Decimal.round_cents r p
          ≤ Decimal.coeff a * 10 ^ (Decimal.exp a + 2)) as Hbound.
  { apply (round_cents_le r p e); try done. 
    replace (Decimal.coeff a * 10 ^ (Decimal.exp a + 2) * 10 ^ (-2 - e))
      with (Decimal.coeff a * 10 ^ shift); [done|].
    rewrite <-Z.mul_assoc, <-pow10_add by lia. do 2 f_equal. unfold e. lia. }
  split; [|done]. unfold to_db_column.
  rewrite Z.abs_eq by lia.
  destruct (Z.ltb_spec (Decimal.round_cents r p) (10 ^ 14)); [done|lia].
Qed.

Lemma truediv_exact (c n : Z) :
  0 < c → c < 10 ^ 14 → 1 ≤ n → (n | c) →
  Decimal.truediv (Decimal.Dec false c (-2)) (Decimal.of_int n)
  = Some (Decimal.Dec false (c / n) (-2)).
Proof.
  intros Hc Hc14 Hn [m ->].
  pose proof (ndigits_le (m * n) 14 ltac:(lia) Hc14) as Hla.
  pose proof (ndigits_pos n) as Hlb.
  unfold Decimal.truediv, Decimal.of_int. cbn [Decimal.coeff Decimal.sign Decimal.exp].
  rewrite Z.abs_eq by lia.
  replace (n <? 0) with false by (symmetry; apply Z.ltb_ge; lia).
  cbn [xorb].
  destruct (Z.eqb_spec n 0); [lia|]. destruct (Z.eqb_spec (m * n) 0); [lia|].
  change Decimal.prec with 28.
  set (shift := Decimal.ndigits n - Decimal.ndigits (m * n) + 28 + 1).
  assert (16 ≤ shift) by (unfold shift; lia).
  destruct (Z.leb_spec 0 shift); [|lia].
  rewrite div_eucl_spec by lia.
  replace (m * n * 10 ^ shift) with (m * 10 ^ shift * n) by lia.
  rewrite Z.mod_mul, Z.div_mul by lia. cbn [Z.eqb].
  replace (-2 - 0 - (-2 - 0 - shift)) with shift by lia.
  rewrite <-(Z2Nat.id shift) at 2 by lia.
  rewrite strip_pow, Z2Nat.id by lia.
  rewrite Z.div_mul by lia.
  replace (-2 - 0 - shift + shift) with (-2) by lia.
  rewrite fix_small; [done|].
  assert (m ≤ m * n) by nia. change (10 ^ Decimal.prec) with (10 ^ 14 * 10 ^ 14). lia.
Qed.

Lemma round_div_near (r : Decimal.Rounding) (x k : Z) :
  0 ≤ k → 2 * Z.abs (Decimal.round_div r x k * 10 ^ k - x) ≤ 10 ^ k.
Proof.
  intros Hk. unfold Decimal.round_div.
  pose proof (pow10_pos k Hk) as Hp.
  pose proof (Z.div_mod x (10 ^ k) ltac:(lia)) as Hdm.
  pose proof (Z.mod_pos_bound x (10 ^ k) Hp) as Hm.
  set (p := 10 ^ k) in *. set (q := x / p) in *. set (m := x mod p) in *.
  destruct (Z.gtb_spec (2 * m) p) as [Hgt|Hle]; [lia|].
  destruct (Z.eqb_spec (2 * m) p) as [Heq|Hne]; [|lia].
  destruct r; [destruct (Z.odd q)|]; lia.
Qed.

Lemma ndigits_ge (n : Z) : Decimal.prec < Decimal.ndigits n → 10 ^ Decimal.prec ≤ n.
Proof.
  intros Hbig. destruct (Z.le_gt_cases (10 ^ Decimal.prec) n) as [|Hlt]; [done|].
  pose proof (ndigits_le n Decimal.prec ltac:(unfold Decimal.prec; lia) ltac:(lia)). lia.
Qed.

(** Rounding to the precision moves a coefficient by half a unit of its
    last digit at most. *)
Lemma fix_near (s : bool) (x ex : Z) :
  0 ≤ x →
  let p := Decimal.fix_ (Decimal.Dec s x ex) in
  ∃ dd, Decimal.exp p = ex + dd ∧ 0 ≤ Decimal.coeff p ∧ Decimal.sign p = s
        ∧ ((dd = 0 ∧ Decimal.coeff p = x)
           ∨ (10 ^ Decimal.prec ≤ x ∧ 1 ≤ dd ≤ Decimal.ndigits x - 27
              ∧ 2 * Z.abs (Decimal.coeff p * 10 ^ dd - x) ≤ 10 ^ dd)).
Proof.
  intros Hx. unfold Decimal.fix_. cbn [Decimal.coeff Decimal.sign Decimal.exp].
  destruct (Z.gtb_spec (Decimal.ndigits x) Decimal.prec) as [Hbig|Hsmall].
  - pose proof (ndigits_ge x Hbig) as Hx28.
    set (drop := Decimal.ndigits x - Decimal.prec) in *.
    set (cr := Decimal.round_div Decimal.ROUND_HALF_EVEN x drop).
    assert (1 ≤ drop) as Hdrop by (unfold drop; lia).
    pose proof (pow10_pos drop ltac:(lia)) as HP.
    pose proof (round_div_near Decimal.ROUND_HALF_EVEN x drop ltac:(lia)) as Hnear.
    fold cr in Hnear.
    assert (0 ≤ cr) as Hcr0 by (apply round_div_nonneg; lia).
    destruct (Z.gtb_spec (Decimal.ndigits cr) Decimal.prec) as [Hcarry|Hfit];
      cbn [Decimal.coeff Decimal.sign Decimal.exp].
    + exists (drop + 1). split; [lia|].
      pose proof (ndigits_ge cr Hcarry) as Hcr28.
      assert (cr ≤ 10 ^ Decimal.prec) as Hcr.
      { apply round_div_le; [lia|].
        pose proof (ndigits_upper x Hx) as Hup.
        replace (Decimal.ndigits x) with (Decimal.prec + drop) in Hup by (unfold drop; lia).
        rewrite pow10_add in Hup by (unfold Decimal.prec; lia). lia. }
      assert (cr = 10 ^ 27 * 10) as Hcr10.
      { change (10 ^ 27 * 10) with (10 ^ Decimal.prec). lia. }
      rewrite Hcr10, Z.div_mul by lia.
      split; [apply Z.pow_nonneg; lia|]. split; [done|]. right.
      split; [done|]. split; [clear -Hbig Hdrop; unfold drop, Decimal.prec in *; lia|].
      rewrite pow10_succ by lia.
      replace (10 ^ 27 * (10 * 10 ^ drop)) with (cr * 10 ^ drop)
        by (rewrite Hcr10; lia).
      lia.
    + exists drop. split; [lia|]. split; [done|]. split; [done|]. right.
      split; [done|]. split; [clear -Hbig Hdrop; unfold drop, Decimal.prec in *; lia|done].
  - exists 0. cbn. split; [lia|]. split; [done|]. split; [done|]. by left.
Qed.

(** The quotient before it is rounded to the precision: [X] at exponent
    [e + E0], within one unit of [10^e] of the exact quotient. *)
Lemma truediv_shape (a : Decimal.t) (n : Z) :
  Decimal.sign a = false → 0 < Decimal.coeff a → Decimal.coeff a < 10 ^ 14 → 1 ≤ n →
  let shift := Decimal.ndigits n - Decimal.ndigits (Decimal.coeff a) + 29 in
  let e := Decimal.exp a - shift in
  ∃ X E0,
    Decimal.truediv a (Decimal.of_int n)
    = Some (Decimal.fix_ (Decimal.Dec false X (e + E0)))
    ∧ 0 ≤ X ∧ X < 10 ^ 31 ∧ 0 ≤ E0 ≤ shift ∧ (10 ^ 28 ≤ X → E0 ≤ 1)
    ∧ Z.abs (n * (X * 10 ^ E0) - Decimal.coeff a * 10 ^ shift) < n
    ∧ n * 10 ^ 15 < 10 ^ shift ∧ 16 ≤ shift.
Proof.
  intros Hsign Hc Hc14 Hn shift e.
  set (c := Decimal.coeff a) in *.
  pose proof (ndigits_le c 14 ltac:(lia) Hc14) as Hla.
  pose proof (ndigits_pos c) as Hla1.
  pose proof (ndigits_pos n) as Hlb.
  pose proof (ndigits_upper n ltac:(lia)) as Hnup.
  pose proof (ndigits_upper c ltac:(lia)) as Hcup.
  assert (16 ≤ shift) as Hshift by (unfold shift; lia).
  pose proof (pow10_pos shift ltac:(lia)) as HPs.
  assert (n * 10 ^ 15 < 10 ^ shift) as Hbig.
  { assert (10 ^ shift = 10 ^ Decimal.ndigits n * 10 ^ 15
                         * 10 ^ (shift - Decimal.ndigits n - 15)) as ->.
    { rewrite <-!pow10_add by (unfold shift; lia). f_equal. lia. }
    pose proof (pow10_pos (shift - Decimal.ndigits n - 15) ltac:(unfold shift; lia)).
    assert (0 < 10 ^ 15) by done. nia. }
  unfold Decimal.truediv, Decimal.of_int. cbn [Decimal.coeff Decimal.sign Decimal.exp].
  fold c. rewrite Hsign, Z.abs_eq by lia.
  replace (n <? 0) with false by (symmetry; apply Z.ltb_ge; lia).
  cbn [xorb].
  destruct (Z.eqb_spec n 0); [lia|]. destruct (Z.eqb_spec c 0); [lia|].
  change Decimal.prec with 28.
  replace (Decimal.ndigits n - Decimal.ndigits c + 28 + 1) with shift by (unfold shift; lia).
  replace (Decimal.exp a - 0 - shift) with e by (unfold e; lia).
  destruct (Z.leb_spec 0 shift); [|lia].
  rewrite div_eucl_spec by lia.
  set (N := c * 10 ^ shift).
  set (q := N / n). set (r := N mod n).
  pose proof (Z.div_mod N n ltac:(lia)) as Hdm. fold q r in Hdm.
  pose proof (Z.mod_pos_bound N n ltac:(lia)) as Hr. fold r in Hr.
  assert (0 ≤ q) as Hq0 by (apply Z.div_pos; unfold N; nia).
  assert (q < 10 ^ 30) as Hq30.
  { assert (10 ^ (Decimal.ndigits c + shift)
            = 10 ^ (Decimal.ndigits n - 1) * 10 ^ 30) as Hsplit.
    { rewrite <-pow10_add by lia. f_equal. unfold shift. lia. }
    assert (N < 10 ^ (Decimal.ndigits c + shift)).
    { rewrite pow10_add by lia. unfold N. nia. }
    pose proof (pow10_pos (Decimal.ndigits n - 1) ltac:(lia)).
    pose proof (ndigits_lower n ltac:(lia)) as Hnlow.
    assert (q * 10 ^ (Decimal.ndigits n - 1) ≤ q * n) by nia.
    nia. }
  destruct (Z.eqb_spec r 0) as [Hr0|Hr0].
  - replace (Decimal.exp a - 0 - e) with shift by (unfold e; lia).
    pose proof (strip_invariant (Z.to_nat shift) q e Hq0) as (Hval & He & Hpos).
    pose proof (strip_exp_le (Z.to_nat shift) q e) as Hek.
    destruct (Decimal.strip (Z.to_nat shift) q e) as [q' e'] eqn:Hstrip.
    cbn [fst snd] in *. rewrite Z2Nat.id in Hek by lia.
    exists q', (e' - e).
    replace (e + (e' - e)) with e' by lia.
    pose proof (pow10_pos (e' - e) ltac:(lia)) as HPE.
    split; [done|]. split; [done|].
    split; [change (10 ^ 31) with (10 * 10 ^ 30); nia|].
    split; [lia|]. split.
    + intros Hq'. destruct (Z.le_gt_cases (e' - e) 1) as [|Hlong]; [done|].
      assert (10 ^ (e' - e) = 100 * 10 ^ (e' - e - 2)) as Hpow.
      { replace (e' - e) with (2 + (e' - e - 2)) at 1 by lia.
        by rewrite pow10_add by lia. }
      pose proof (pow10_pos (e' - e - 2) ltac:(lia)).
      change (10 ^ 30) with (10 ^ 28 * 100) in Hq30.
      assert (0 < 10 ^ 28) by done. nia.
    + split; [|done]. rewrite Hval. fold N. lia.
  - set (q2 := if q mod 5 =? 0 then q + 1 else q).
    assert (q ≤ q2 ≤ q + 1) as Hq2 by (unfold q2; destruct (q mod 5 =? 0); lia).
    exists q2, 0. rewrite Z.add_0_r.
    split; [done|]. split; [lia|].
    split; [change (10 ^ 31) with (10 * 10 ^ 30); lia|].
    split; [lia|]. split; [lia|]. split; [|done].
    rewrite Z.pow_0_r, Z.mul_1_r. fold N. nia.
Qed.

(** The share of an equal split is within half a cent of the exact
    quotient. *)
Lemma equal_share_near (r : Decimal.Rounding) (c n : Z) (p : Decimal.t) :
  0 < c < 10 ^ 14 → 1 ≤ n →
  Decimal.truediv (Decimal.Dec false c (-2)) (Decimal.of_int n) = Some p →
  2 * Z.abs (n * Decimal.round_cents r p - c) ≤ n.
Proof.
  intros Hc Hn Hdiv.
  destruct (truediv_shape (Decimal.Dec false c (-2)) n eq_refl ltac:(cbn; lia)
              ltac:(cbn; lia) Hn)
    as (X & E0 & Hshape & HX0 & HX31 & HE0 & Hstripped & Hquot & Hbig & Hshift).
  cbn [Decimal.coeff Decimal.exp] in *.
  set (shift := Decimal.ndigits n - Decimal.ndigits c + 29) in *.
  set (S := 10 ^ shift) in *.
  rewrite Hshape in Hdiv. injection Hdiv as Hp. clear Hshape.
  destruct (fix_near false X (-2 - shift + E0) HX0)
    as (dd & Hexp & Hcp & Hsign & Hfix).
  rewrite Hp in Hexp, Hcp, Hsign, Hfix.
  set (share := Decimal.round_cents r p).
  pose proof (pow10_pos E0 ltac:(lia)) as HPE.
  assert (0 < S) as HS by (apply pow10_pos; lia).
  (* the share, scaled to the exponent of the quotient, is within
     half a cent, and a little, of the coefficient *)
  assert (2 * Z.abs (share * S - X * 10 ^ E0) ≤ S + 10 ^ 5) as Hshare.
  { unfold share, Decimal.round_cents. rewrite Hsign, Hexp.
    destruct Hfix as [[-> ->]|(HX28 & Hdd & Hnear)].
    - rewrite Z.add_0_r.
      destruct (Z.geb_spec (-2 - shift + E0) (-2)) as [Hge|Hlt].
      + assert (E0 = shift) as -> by lia.
        replace (-2 - shift + shift + 2) with 0 by lia.
        rewrite Z.pow_0_r, Z.mul_1_r. fold S.
        replace (X * S - X * S) with 0 by lia. cbn. lia.
      + pose proof (round_div_near r X (-2 - (-2 - shift + E0)) ltac:(lia)) as Hnear.
        set (k := -2 - (-2 - shift + E0)) in *.
        set (y := Decimal.round_div r X k) in *.
        pose proof (pow10_pos k ltac:(unfold k; lia)) as HPK.
        assert (S = 10 ^ k * 10 ^ E0) as HSk.
        { unfold S. rewrite <-pow10_add by (unfold k; lia). f_equal. unfold k. lia. }
        assert (y * S - X * 10 ^ E0 = (y * 10 ^ k - X) * 10 ^ E0) as -> by (rewrite HSk; lia).
        rewrite Z.abs_mul, (Z.abs_eq (10 ^ E0)) by lia.
        assert (0 < 10 ^ 5) by done. nia.
    - specialize (Hstripped HX28).
      pose proof (ndigits_le X 31 ltac:(lia) HX31) as HXd.
      destruct (Z.geb_spec (-2 - shift + E0 + dd) (-2)) as [Hge|Hlt]; [lia|].
      pose proof (round_div_near r (Decimal.coeff p) (-2 - (-2 - shift + E0 + dd))
                    ltac:(lia)) as Hnear'.
      set (k := -2 - (-2 - shift + E0 + dd)) in *.
      set (y := Decimal.round_div r (Decimal.coeff p) k) in *.
      set (cp := Decimal.coeff p) in *.
      pose proof (pow10_pos k ltac:(unfold k; lia)) as HPK.
      pose proof (pow10_pos dd ltac:(lia)) as HPD.
      assert (S = 10 ^ k * 10 ^ dd * 10 ^ E0) as HSk.
      { unfold S. rewrite <-!pow10_add by (unfold k; lia). f_equal. unfold k. lia. }
      assert (10 ^ dd * 10 ^ E0 ≤ 10 ^ 5) as Hsmall.
      { rewrite <-pow10_add by lia. apply Z.pow_le_mono_r; lia. }
      assert (y * S - X * 10 ^ E0
              = ((y * 10 ^ k - cp) * 10 ^ dd + (cp * 10 ^ dd - X)) * 10 ^ E0) as ->
        by (rewrite HSk; lia).
      rewrite Z.abs_mul, (Z.abs_eq (10 ^ E0)) by lia.
      pose proof (Z.abs_triangle ((y * 10 ^ k - cp) * 10 ^ dd) (cp * 10 ^ dd - X))
        as Htri.
      rewrite Z.abs_mul, (Z.abs_eq (10 ^ dd)) in Htri by lia.
      nia. }
  (* hence the total is within half a cent per participant *)
  change (10 ^ 5) with 100000 in Hshare. change (10 ^ 15) with 1000000000000000 in Hbig.
  fold S in Hquot.
  set (T := n * share - c).
  assert (T * S = n * (share * S - X * 10 ^ E0) + (n * (X * 10 ^ E0) - c * S)) as HT
    by (unfold T; lia).
  destruct (Z.le_gt_cases (2 * Z.abs T) n) as [Hnear|Hfar]; [exact Hnear|exfalso].
  assert ((n + 1) * S ≤ 2 * Z.abs T * S) as Hlow by nia.
  assert (2 * Z.abs T * S = 2 * Z.abs (T * S)) as Habs
    by (rewrite Z.abs_mul, (Z.abs_eq S); lia).
  rewrite Habs, HT in Hlow.
  pose proof (Z.abs_triangle (n * (share * S - X * 10 ^ E0))
                (n * (X * 10 ^ E0) - c * S)) as Htri.
  rewrite Z.abs_mul, (Z.abs_eq n) in Htri by lia.
  nia.
Qed.

(** A quotient that falls half way between two hundredths is exact. *)
Lemma strip_stop (k : nat) (x e : Z) :
  x mod 10 ≠ 0 →
  Decimal.strip (S k) (x * 10 ^ Z.of_nat k) e = (x, e + Z.of_nat k).
Proof.
  intros Hx. revert e. induction k as [|k IH]; intros e.
  - cbn [Decimal.strip]. change (10 ^ Z.of_nat 0) with 1. rewrite Z.mul_1_r.
    destruct (Z.eqb_spec (x mod 10) 0); [done|]. f_equal. cbn. lia.
  - cbn [Decimal.strip] in *.
    replace (Z.of_nat (S k)) with (Z.of_nat k + 1) by lia.
    rewrite pow10_succ by lia.
    replace (x * (10 * 10 ^ Z.of_nat k)) with (x * 10 ^ Z.of_nat k * 10) by lia.
    rewrite Z.mod_mul, Z.div_mul by lia. cbn [Z.eqb].
    rewrite IH. f_equal. lia.
Qed.

Lemma truediv_half (c n q : Z) :
  0 < c → c < 10 ^ 14 → 1 ≤ n → 2 * c = (2 * q + 1) * n →
  Decimal.truediv (Decimal.Dec false c (-2)) (Decimal.of_int n)
  = Some (Decimal.Dec false (10 * q + 5) (-3)).
Proof.
  intros Hc Hc14 Hn Hhalf.
  assert (0 ≤ q) as Hq by nia.
  assert (q ≤ c) as Hqc by nia.
  pose proof (ndigits_le c 14 ltac:(lia) Hc14) as Hla.
  pose proof (ndigits_pos n) as Hlb.
  unfold Decimal.truediv, Decimal.of_int. cbn [Decimal.coeff Decimal.sign Decimal.exp].
  rewrite Z.abs_eq by lia.
  replace (n <? 0) with false by (symmetry; apply Z.ltb_ge; lia).
  cbn [xorb].
  destruct (Z.eqb_spec n 0); [lia|]. destruct (Z.eqb_spec c 0); [lia|].
  change Decimal.prec with 28.
  set (shift := Decimal.ndigits n - Decimal.ndigits c + 28 + 1).
  assert (16 ≤ shift) by (unfold shift; lia).
  destruct (Z.leb_spec 0 shift); [|lia].
  rewrite div_eucl_spec by lia.
  assert (c * 10 ^ shift = (10 * q + 5) * 10 ^ (shift - 1) * n) as ->.
  { replace shift with (shift - 1 + 1) at 1 by lia. rewrite pow10_succ by lia. nia. }
  rewrite Z.mod_mul, Z.div_mul by lia. cbn [Z.eqb].
  replace (-2 - 0 - (-2 - 0 - shift)) with shift by lia.
  replace (Z.to_nat shift) with (S (Z.to_nat (shift - 1))) by lia.
  rewrite <-(Z2Nat.id (shift - 1)) at 2 by lia.
  rewrite strip_stop.
  - rewrite Z2Nat.id by lia.
    replace (-2 - 0 - shift + (shift - 1)) with (-3) by lia.
    rewrite fix_small; [done|].
    change (10 ^ Decimal.prec) with (10 ^ 14 * 10 ^ 14). lia.
  - replace (10 * q + 5) with (5 + q * 10) by lia. by rewrite Z.mod_add.
Qed.

(** The share of an equal split is the quotient rounded to the
    hundredth. *)
Lemma equal_share_rounded (r : Decimal.Rounding) (c n : Z) (p : Decimal.t) :
  0 < c < 10 ^ 14 → 1 ≤ n →
  Decimal.truediv (Decimal.Dec false c (-2)) (Decimal.of_int n) = Some p →
  Decimal.round_cents r p = rounded_share r c n.
Proof.
  intros Hc Hn Hdiv.
  pose proof (Z.div_mod c n ltac:(lia)) as Hdm.
  pose proof (Z.mod_pos_bound c n ltac:(lia)) as Hm.
  unfold rounded_share.
  set (q := c / n) in *. set (m := c mod n) in *.
  destruct (Z.eqb_spec (2 * m) n) as [Htie|Hne].
  - rewrite (truediv_half c n q) in Hdiv by (lia || nia).
    injection Hdiv as <-.
    destruct (Z.gtb_spec (2 * m) n); [lia|].
    unfold Decimal.round_cents, Decimal.round_div. cbn [Decimal.sign Decimal.exp Decimal.coeff].
    change (-3 >=? -2) with false. change (10 ^ (-2 - -3)) with 10.
    replace (10 * q + 5) with (5 + q * 10) by lia.
    rewrite Z.div_add, Z.mod_add by lia.
    change (5 / 10) with 0. change (5 mod 10) with 5. cbn [Z.gtb Z.eqb Z.mul Z.compare Pos.mul Pos.compare Pos.compare_cont Pos.eqb].
    rewrite Z.add_0_l. done.
  - pose proof (equal_share_near r c n p Hc Hn Hdiv) as Hnear.
    set (s := Decimal.round_cents r p) in *.
    assert (n * s - c = n * (s - q) - m) as Hsplit by lia.
    rewrite Hsplit in Hnear. clear Hsplit Hdm Hdiv.
    set (t := s - q) in *.
    assert (- n ≤ 2 * (n * t) - 2 * m ≤ n) as Hbound by lia.
    clear Hnear.
    destruct (Z.gtb_spec (2 * m) n) as [Hup|Hdown].
    + assert (t = 1); [|lia].
      destruct (Z.le_gt_cases t 0) as [Hle|Hgt].
      * assert (n * t ≤ 0) by (apply Z.mul_nonneg_nonpos; lia). lia.
      * destruct (Z.le_gt_cases 2 t) as [Hge|Hlt]; [|lia].
        assert (n * 2 ≤ n * t) by (apply Z.mul_le_mono_nonneg_l; lia). lia.
    + assert (t = 0); [|lia].
      destruct (Z.le_gt_cases t (-1)) as [Hle|Hgt].
      * assert (n * t ≤ n * (-1)) by (apply Z.mul_le_mono_nonneg_l; lia). lia.
      * destruct (Z.le_gt_cases 1 t) as [Hge|Hlt]; [|lia].
        assert (n * 1 ≤ n * t) by (apply Z.mul_le_mono_nonneg_l; lia). lia.
Qed.

Section Backend.

(** The rounding of the database backend. *)
Variable r : Decimal.Rounding.

Lemma create_all_ok (expense : Z) (split_type : SplitType)
    (amount : Money.t) (stored : Z) (members : list Z) (db : DB.t)
    (splits : list SplitInstance.t) :
  to_db_column r (Money.amount amount) = Ok stored →
  let result := SimpleSplitForm.create_all r db expense split_type amount members
                  splits in
  (∃ created, result.2 = Ok (splits ++ created) ∧ length created = length members)
  ∧ DB.splits result.1
    = DB.splits db ++ created_rows (DB.next_split_id db) expense split_type stored
                        (Money.currency amount) members
  ∧ DB.expenses result.1 = DB.expenses db
  ∧ DB.groups result.1 = DB.groups db.
Proof.
  intros Hstored. revert db splits.
  induction members as [|member members IH]; intros db splits; cbn.
  - split; [exists []; by rewrite app_nil_r|]. by rewrite app_nil_r.
  - unfold ExpenseSplit_create. rewrite Hstored.
    match goal with
    | |- context [SimpleSplitForm.create_all r ?db' _ _ _ members ?acc] =>
        destruct (IH db' acc) as ((created & Hres & Hlen) & Hsplits & Hexp & Hgroups)
    end.
    cbn in *. repeat split.
    + eexists (_ :: created). rewrite Hres, <-app_assoc. cbn. split; [done|].
      by rewrite Hlen.
    + rewrite Hsplits, <-app_assoc. done.
    + done.
    + done.
Qed.

Lemma created_rows_Forall (pk expense : Z) (split_type : SplitType) (stored : Z)
    (currency : string) (members : list Z) :
  Forall (λ s, ExpenseSplit.expense s = expense
               ∧ ExpenseSplit.amount s = stored
               ∧ ExpenseSplit.is_settled s = false)
         (created_rows pk expense split_type stored currency members).
Proof.
  revert pk. induction members as [|m members IH]; intros pk; cbn; [done|].
  apply Forall_cons. split; [done|apply IH].
Qed.

Lemma created_rows_users (pk expense : Z) (split_type : SplitType) (stored : Z)
    (currency : string) (members : list Z) :
  ExpenseSplit.user <$> created_rows pk expense split_type stored currency members
  = members.
Proof.
  revert pk. induction members as [|m members IH]; intros pk; cbn; [done|].
  by rewrite IH.
Qed.

Lemma created_rows_length (pk expense : Z) (split_type : SplitType) (stored : Z)
    (currency : string) (members : list Z) :
  length (created_rows pk expense split_type stored currency members) = length members.
Proof.
  revert pk. induction members as [|m members IH]; intros pk; cbn; [done|].
  by rewrite IH.
Qed.

Lemma sumZ_constant {A} (f : A → Z) (v : Z) (l : list A) :
  Forall (λ x, f x = v) l → sumZ (f <$> l) = Z.of_nat (length l) * v.
Proof.
  induction 1 as [|x l Hx Hl IH]; [done|].
  rewrite fmap_cons. unfold sumZ in *. cbn [foldr length]. lia.
Qed.

Lemma splits_of_replaced (old created : list ExpenseSplit.t) (pk : Z) :
  Forall (λ s, ExpenseSplit.expense s = pk) created →
  filter (λ s, ExpenseSplit.expense s = pk)
         (filter (λ s, ExpenseSplit.expense s ≠ pk) old ++ created)
  = created.
Proof.
  intros Hcreated. rewrite filter_app, list_filter_filter.
  rewrite (filter_all _ created) by (by apply Forall_forall).
  replace (filter (λ s, ExpenseSplit.expense s = pk ∧ ExpenseSplit.expense s ≠ pk) old)
    with (@nil ExpenseSplit.t); [done|].
  induction old as [|s old IH]; [done|].
  rewrite filter_cons, decide_False by tauto. done.
Qed.

Lemma cleaned_members_nonempty (field : string) (queryset value ms : list Z) :
  ModelMultipleChoiceField_clean field queryset value = Ok ms → ms ≠ [].
Proof.
  unfold ModelMultipleChoiceField_clean.
  destruct value as [|x posted]; [done|].
  destruct (decide (Forall (λ pk, pk ∈ queryset) (x :: posted))) as [Hall|]; [|done].
  intros [= <-] Hnil.
  apply Forall_cons in Hall as [Hx _].
  assert (x ∈ filter (λ pk, pk ∈ x :: posted) queryset) as Hin.
  { apply list_elem_of_filter. split; [apply elem_of_cons; by left|done]. }
  rewrite Hnil in Hin. by apply elem_of_nil in Hin.
Qed.

(** What a valid submission of the split form writes. *)
Lemma SimpleSplitForm_save_valid (db : DB.t)
    (group : option Group.t) (expense : ExpenseInstance.t)
    (d : SimpleSplitForm.data) :
  field_value 14 (Money.amount (ExpenseInstance.amount expense)) →
  0 < Decimal.coeff (Money.amount (ExpenseInstance.amount expense)) →
  SimpleSplitForm.is_valid group d = true →
  let result := SimpleSplitForm.save r db (Some expense)
                  (SimpleSplitForm.clean_fields group d).1 in
  ∃ st ms splits created,
    SplitType_of_value (SimpleSplitForm.data_split_type d) = Some st
    ∧ SimpleSplitForm.members (SimpleSplitForm.clean_fields group d).1 = Some ms
    ∧ ms ≠ []
    ∧ result.2 = Ok splits
    ∧ DB.expenses result.1 = DB.expenses db
    ∧ DB.groups result.1 = DB.groups db
    ∧ DB.splits result.1
      = filter (λ s, ExpenseSplit.expense s ≠ ExpenseInstance.pk expense) (DB.splits db)
        ++ created
    ∧ ((st = EQUAL
        ∧ length splits = length ms
        ∧ ∃ per_person,
            Decimal.truediv (Money.amount (ExpenseInstance.amount expense))
              (Decimal.of_int (Z.of_nat (length ms))) = Some per_person
            ∧ created = created_rows (DB.next_split_id db) (ExpenseInstance.pk expense)
                          EQUAL (Decimal.round_cents r per_person)
                          (Money.currency (ExpenseInstance.amount expense)) ms)
       ∨ (st ≠ EQUAL ∧ splits = [] ∧ created = [])).
Proof.
  intros Hamount Hpos Hvalid result. subst result.
  destruct (SimpleSplitForm_valid group d Hvalid) as (st & ms & Hcd & Hst & Hms).
  pose proof (cleaned_members_nonempty _ _ _ _ Hms) as Hne.
  rewrite Hcd. unfold SimpleSplitForm.save. cbn [SimpleSplitForm.split_type
    SimpleSplitForm.members].
  destruct (decide (st = EQUAL)) as [->|Hother].
  - assert (1 ≤ Z.of_nat (length ms)) as Hn by (destruct ms; [done|cbn; lia]).
    destruct (per_person_fits _ _ Hamount Hpos Hn) as (p & Hdiv & Hfits).
    rewrite Hdiv. destruct (Hfits r) as [Hstored _].
    pose proof (create_all_ok (ExpenseInstance.pk expense) EQUAL
                  (Money.Mk p (Money.currency (ExpenseInstance.amount expense)))
                  (Decimal.round_cents r p) ms
                  (delete_splits db (ExpenseInstance.pk expense)) [] Hstored)
      as ((insts & Hres & Hlen) & Hsplits & Hexp & Hgroups).
    exists EQUAL, ms, insts, 
      (created_rows (DB.next_split_id db) (ExpenseInstance.pk expense) EQUAL
         (Decimal.round_cents r p)
         (Money.currency (ExpenseInstance.amount expense)) ms).
    repeat split; try done.
    left. repeat split; try done. by exists p.
  - exists st, ms, [], []. cbn. rewrite app_nil_r. repeat split; try done.
    by right.
Qed.

End Backend.

(** A field value fits the column as it is. *)
Lemma to_db_column_field_value (r : Decimal.Rounding) (a : Decimal.t) :
  field_value 14 a → to_db_column r a = Ok (hundredths a).
Proof.
  intros (Hsign & Hc & Hexp & Hfit). unfold hundredths in *.
  pose proof (pow10_pos (Decimal.exp a + 2) ltac:(lia)) as HP.
  unfold to_db_column, Decimal.round_cents. rewrite Hsign.
  destruct (Z.geb_spec (Decimal.exp a) (-2)); [|lia].
  assert (0 ≤ Decimal.coeff a * 10 ^ (Decimal.exp a + 2)) by nia.
  rewrite Z.abs_eq by lia.
  destruct (Z.ltb_spec (Decimal.coeff a * 10 ^ (Decimal.exp a + 2)) (10 ^ 14));
    [done|lia].
Qed.

(** What [ExpenseForm.save] writes for the cleaned data of a form. *)
Lemma ExpenseForm_save_ok (r : Decimal.Rounding) (store : Store.t) (user : Z)
    (cd : ExpenseForm.cleaned_data) :
  field_value 14 (ExpenseForm.amount cd) →
  0 < Decimal.coeff (ExpenseForm.amount cd) →
  ExpenseForm.save r store (Some user) cd
  = (with_expense store (saved_expense store user cd), Ok (saved_instance store cd)).
Proof.
  intros Hamount Hpos. unfold ExpenseForm.save.
  rewrite (to_db_column_field_value r _ Hamount).
  assert (Decimal.truthy (ExpenseForm.amount cd) = true) as ->; [|done].
  unfold Decimal.truthy. destruct (Z.eqb_spec (Decimal.coeff (ExpenseForm.amount cd)) 0);
    [lia|done].
Qed.

(** The rows that a valid submission installs are those of its members. *)
Lemma installed_users (r : Decimal.Rounding) (pk expense : Z) (amount : Money.t)
    (split_type : SplitType) (members : list Z) (per_person : Decimal.t) :
  Decimal.truediv (Money.amount amount) (Decimal.of_int (Z.of_nat (length members)))
  = Some per_person →
  ExpenseSplit.user <$> installed r pk expense amount split_type members
  = (if decide (split_type = EQUAL) then members else []).
Proof.
  intros Hdiv. unfold installed. rewrite Hdiv.
  destruct split_type; [|done..]. rewrite decide_True by done.
  apply created_rows_users.
Qed.

(** What the split form writes for an expense is what [installed]
    describes. *)
Lemma SimpleSplitForm_save_installed (r : Decimal.Rounding) (db : DB.t)
    (group : option Group.t) (expense : ExpenseInstance.t)
    (d : SimpleSplitForm.data) :
  field_value 14 (Money.amount (ExpenseInstance.amount expense)) →
  0 < Decimal.coeff (Money.amount (ExpenseInstance.amount expense)) →
  SimpleSplitForm.is_valid group d = true →
  let result := SimpleSplitForm.save r db (Some expense)
                  (SimpleSplitForm.clean_fields group d).1 in
  let pk := ExpenseInstance.pk expense in
  ∃ st ms splits,
    SplitType_of_value (SimpleSplitForm.data_split_type d) = Some st
    ∧ SimpleSplitForm.members (SimpleSplitForm.clean_fields group d).1 = Some ms
    ∧ ms ≠ []
    ∧ result.2 = Ok splits
    ∧ length splits = (if decide (st = EQUAL) then length ms else 0%nat)
    ∧ DB.groups result.1 = DB.groups db
    ∧ DB.expenses result.1 = DB.expenses db
    ∧ DB.splits result.1
      = filter (λ s, ExpenseSplit.expense s ≠ pk) (DB.splits db)
        ++ installed r (DB.next_split_id db) pk (ExpenseInstance.amount expense) st ms
    ∧ splits_of result.1 pk
      = installed r (DB.next_split_id db) pk (ExpenseInstance.amount expense) st ms
    ∧ ExpenseSplit.user
        <$> installed r (DB.next_split_id db) pk (ExpenseInstance.amount expense) st ms
      = (if decide (st = EQUAL) then ms else [])
    ∧ Forall (λ s, ExpenseSplit.is_settled s = false)
             (installed r (DB.next_split_id db) pk (ExpenseInstance.amount expense) st ms).
Proof.
  intros Hamount Hpos Hvalid result pk. subst result pk.
  destruct (SimpleSplitForm_save_valid r db group expense d Hamount Hpos Hvalid)
    as (st & ms & splits & created & Hst & Hms & Hne & Hres & Hexp & Hgroups
        & Hsplits & Hcases).
  assert (created = installed r (DB.next_split_id db) (ExpenseInstance.pk expense)
                      (ExpenseInstance.amount expense) st ms
          ∧ length splits = (if decide (st = EQUAL) then length ms else 0%nat)
          ∧ ExpenseSplit.user <$> created = (if decide (st = EQUAL) then ms else []))
    as (Hcreated & Hlen & Husers).
  { unfold installed.
    destruct Hcases as [(-> & Hlen & p & Hdiv & ->)|(Hother & -> & ->)].
    - rewrite Hdiv, !decide_True by done. split; [done|]. split; [done|].
      apply created_rows_users.
    - rewrite !decide_False by done. split; [|done]. by destruct st. }
  assert (Forall (λ s, ExpenseSplit.expense s = ExpenseInstance.pk expense
                       ∧ ExpenseSplit.is_settled s = false) created) as Hrows.
  { destruct Hcases as [(_ & _ & p & _ & ->)|(_ & _ & ->)]; [|done].
    eapply Forall_impl; [apply created_rows_Forall|]. cbn. tauto. }
  exists st, ms, splits. rewrite <-Hcreated.
  repeat split; try done.
  - unfold splits_of. rewrite Hsplits. apply splits_of_replaced.
    eapply Forall_impl; [exact Hrows|]. cbn. tauto.
  - eapply Forall_impl; [exact Hrows|]. cbn. tauto.
Qed.

(** C4: the allocation is all or nothing.  A valid submission of the split
    form, saved for an expense, leaves for that expense the allocations
    it asks for and no other: the previous ones are gone, there is one
    open allocation per posted member for an equal split (none for
    another split type), and the allocations of the other expenses and
    the expenses themselves are untouched.  In [form_valid], which
    writes the expense first, an invalid submission changes nothing
    more: the expense stays as written, every allocation as it was; a
    valid one is saved for the expense just written.  The amount of the
    expense is a positive field value. *)
Theorem allocation_replaces_or_keeps (r : Decimal.Rounding) :
  (∀ (db : DB.t) (group : option Group.t) (expense : ExpenseInstance.t)
     (d : SimpleSplitForm.data),
     field_value 14 (Money.amount (ExpenseInstance.amount expense)) →
     0 < Decimal.coeff (Money.amount (ExpenseInstance.amount expense)) →
     SimpleSplitForm.is_valid group d = true →
     let result := SimpleSplitForm.save r db (Some expense)
                     (SimpleSplitForm.clean_fields group d).1 in
     let pk := ExpenseInstance.pk expense in
     ∃ st ms splits,
       SplitType_of_value (SimpleSplitForm.data_split_type d) = Some st
       ∧ SimpleSplitForm.members (SimpleSplitForm.clean_fields group d).1 = Some ms
       ∧ ms ≠ []
       ∧ result.2 = Ok splits
       ∧ length splits = (if decide (st = EQUAL) then length ms else 0%nat)
       ∧ DB.groups result.1 = DB.groups db
       ∧ DB.expenses result.1 = DB.expenses db
       ∧ DB.splits result.1
         = filter (λ s, ExpenseSplit.expense s ≠ pk) (DB.splits db)
           ++ installed r (DB.next_split_id db) pk (ExpenseInstance.amount expense)
                st ms
       ∧ splits_of result.1 pk
         = installed r (DB.next_split_id db) pk (ExpenseInstance.amount expense) st ms
       ∧ ExpenseSplit.user
           <$> installed r (DB.next_split_id db) pk (ExpenseInstance.amount expense)
                 st ms
         = (if decide (st = EQUAL) then ms else [])
       ∧ Forall (λ s, ExpenseSplit.is_settled s = false)
                (installed r (DB.next_split_id db) pk (ExpenseInstance.amount expense)
                   st ms))
  ∧ (∀ (store : Store.t) (user : Z) (cd : ExpenseForm.cleaned_data)
       (POST : SimpleSplitForm.data) (g : Group.t),
       ExpenseForm.expense_type cd = GROUP →
       ExpenseForm.group cd = Some g →
       field_value 14 (ExpenseForm.amount cd) →
       0 < Decimal.coeff (ExpenseForm.amount cd) →
       let store1 := with_expense store (saved_expense store user cd) in
       let self_object := saved_instance store cd in
       let group := List.find (λ g', Group.id g' =? Group.id g)
                      (DB.groups (Store.db store)) in
       let result := ExpenseCreateView.form_valid r store user cd POST in
       (SimpleSplitForm.is_valid group POST = false →
        result = (store1, Reply.Mk Redirect
                            [error "Error creating splits. Please try again."]))
       ∧ (SimpleSplitForm.is_valid group POST = true →
          Reply.response result.2 = Redirect
          ∧ result.1
            = Store.with_db store1
                (SimpleSplitForm.save r (Store.db store1) (Some self_object)
                   (SimpleSplitForm.clean_fields group POST).1).1)).
Proof.
  split.
  - intros db group expense d Hamount Hpos Hvalid.
    apply (SimpleSplitForm_save_installed r db group expense d Hamount Hpos Hvalid).
  - intros store user cd POST g Htype Hg Hamount Hpos. cbn zeta.
    unfold ExpenseCreateView.form_valid.
    rewrite (ExpenseForm_save_ok r store user cd Hamount Hpos).
    change (ExpenseInstance.expense_type (saved_instance store cd))
      with (ExpenseForm.expense_type cd).
    change (ExpenseInstance.group (saved_instance store cd))
      with (Group.id <$> ExpenseForm.group cd).
    change (DB.groups (Store.db (with_expense store (saved_expense store user cd))))
      with (DB.groups (Store.db store)).
    rewrite Htype, Hg, decide_True by done. cbn [fmap option_fmap option_map].
    set (group := List.find (λ g', Group.id g' =? Group.id g)
                    (DB.groups (Store.db store))).
    split; intros Hvalid; rewrite Hvalid; [done|].
    assert (field_value 14 (Money.amount (ExpenseInstance.amount
                                            (saved_instance store cd))))
      as Hamount' by done.
    assert (0 < Decimal.coeff (Money.amount (ExpenseInstance.amount
                                               (saved_instance store cd))))
      as Hpos' by done.
    destruct (SimpleSplitForm_save_installed r
                (Store.db (with_expense store (saved_expense store user cd)))
                group (saved_instance store cd) POST Hamount' Hpos' Hvalid)
      as (st & ms & splits & _ & _ & _ & Hres & _).
    destruct (SimpleSplitForm.save r
                (Store.db (with_expense store (saved_expense store user cd)))
                (Some (saved_instance store cd))
                (SimpleSplitForm.clean_fields group POST).1) as [db2 res].
    cbn [fst snd] in *. by subst res.
Qed.

Lemma allocation_replaces_or_keeps_witness :
  (∃ splits,
     (SimpleSplitForm.save Decimal.ROUND_HALF_EVEN Sample.db_split
        (Some Sample.dinner_object)
        (SimpleSplitForm.clean_fields (Some Sample.trip)
           (SimpleSplitForm.Data "equal" [1; 2])).1).2 = Ok splits)
  ∧ ExpenseCreateView.form_valid Decimal.ROUND_HALF_EVEN Sample.store 1
      Sample.lunch_cleaned (SimpleSplitForm.Data "equal" [1; 7])
    = (with_expense Sample.store (saved_expense Sample.store 1 Sample.lunch_cleaned),
       Reply.Mk Redirect [error "Error creating splits. Please try again."])
  ∧ Reply.response
      (ExpenseCreateView.form_valid Decimal.ROUND_HALF_EVEN Sample.store 1
         Sample.lunch_cleaned (SimpleSplitForm.Data "equal" [1; 2])).2 = Redirect.
Proof.
  destruct (allocation_replaces_or_keeps Decimal.ROUND_HALF_EVEN) as [Hsave Hview].
  assert (field_value 14 (Decimal.Dec false 10000 (-2))) as Hdinner
    by (unfold field_value, hundredths; cbn; lia).
  assert (field_value 14 (Decimal.Dec false 4500 (-2))) as Hlunch
    by (unfold field_value, hundredths; cbn; lia).
  split; [|split].
  - destruct (Hsave Sample.db_split (Some Sample.trip) Sample.dinner_object
                (SimpleSplitForm.Data "equal" [1; 2]) Hdinner ltac:(cbn; lia) eq_refl)
      as (st & ms & splits & _ & _ & _ & Hres & _).
    by exists splits.
  - apply (Hview Sample.store 1 Sample.lunch_cleaned (SimpleSplitForm.Data "equal" [1; 7])
             Sample.trip eq_refl eq_refl Hlunch ltac:(cbn; lia)).
    reflexivity.
  - apply (Hview Sample.store 1 Sample.lunch_cleaned (SimpleSplitForm.Data "equal" [1; 2])
             Sample.trip eq_refl eq_refl Hlunch ltac:(cbn; lia)).
    reflexivity.
Defined.

(** C1 (amended): an EQUAL allocation of a positive 2-decimal amount stores
    for every participant the same amount, the quotient of the expense
    amount by the number of participants rounded to 2 decimals (a tie,
    half a hundredth, going the way the backend rounds); no residual
    cent is handed out, so the allocations sum to the expense amount
    exactly when, and only when, the number of participants divides the
    amount counted in cents. *)
Theorem equal_split_sum (r : Decimal.Rounding) (db : DB.t) (group : option Group.t)
    (expense : ExpenseInstance.t) (d : SimpleSplitForm.data) (c : Z) :
  Money.amount (ExpenseInstance.amount expense) = Decimal.Dec false c (-2) →
  0 < c < 10 ^ 14 →
  SimpleSplitForm.is_valid group d = true →
  SimpleSplitForm.data_split_type d = "equal" →
  let result := SimpleSplitForm.save r db (Some expense)
                  (SimpleSplitForm.clean_fields group d).1 in
  let pk := ExpenseInstance.pk expense in
  ∃ members,
    let share := rounded_share r c (Z.of_nat (length members)) in
    SimpleSplitForm.members (SimpleSplitForm.clean_fields group d).1 = Some members
    ∧ members ≠ []
    ∧ (∃ splits, result.2 = Ok splits ∧ length splits = length members)
    ∧ ExpenseSplit.user <$> splits_of result.1 pk = members
    ∧ Forall (λ s, ExpenseSplit.amount s = share) (splits_of result.1 pk)
    ∧ allocated result.1 pk = Z.of_nat (length members) * share
    ∧ 2 * Z.abs (Z.of_nat (length members) * share - c) ≤ Z.of_nat (length members)
    ∧ (allocated result.1 pk = c ↔ (Z.of_nat (length members) | c)).
Proof.
  intros Hamount Hc Hvalid Hequal result pk. subst result pk.
  assert (field_value 14 (Money.amount (ExpenseInstance.amount expense))) as Hfield.
  { rewrite Hamount. unfold field_value, hundredths. cbn. lia. }
  assert (0 < Decimal.coeff (Money.amount (ExpenseInstance.amount expense))) as Hpos.
  { rewrite Hamount. cbn. lia. }
  destruct (SimpleSplitForm_save_valid r db group expense d Hfield Hpos Hvalid)
    as (st & ms & splits & created & Hst & Hms & Hne & Hres & _ & _ & Hsplits & Hcases).
  rewrite Hequal in Hst. cbn in Hst. inversion Hst; subst st.
  destruct Hcases as [(_ & Hlen & p & Hdiv & Hcreated)|(Hother & _)]; [|done].
  set (n := Z.of_nat (length ms)) in *.
  assert (1 ≤ n) as Hn by (unfold n; destruct ms; [done|cbn; lia]).
  rewrite Hamount in Hdiv.
  pose proof (equal_share_rounded r c n p Hc Hn Hdiv) as Hrounded.
  pose proof (equal_share_near r c n p Hc Hn Hdiv) as Hnear.
  rewrite Hrounded in Hcreated, Hnear.
  set (share := rounded_share r c n) in *.
  assert (splits_of (SimpleSplitForm.save r db (Some expense)
                       (SimpleSplitForm.clean_fields group d).1).1
                    (ExpenseInstance.pk expense) = created) as Hof.
  { unfold splits_of. rewrite Hsplits. apply splits_of_replaced. subst created.
    eapply Forall_impl; [apply created_rows_Forall|]. cbn. tauto. }
  assert (Forall (λ s, ExpenseSplit.amount s = share) created) as Hshare.
  { subst created. eapply Forall_impl; [apply created_rows_Forall|]. cbn. tauto. }
  assert (length created = length ms) as Hcount.
  { subst created. apply created_rows_length. }
  assert (allocated (SimpleSplitForm.save r db (Some expense)
                       (SimpleSplitForm.clean_fields group d).1).1
                    (ExpenseInstance.pk expense) = n * share) as Hallocated.
  { unfold allocated. rewrite Hof, (sumZ_constant _ share) by done.
    by rewrite Hcount. }
  exists ms. cbn zeta. fold n share. rewrite Hof, Hallocated.
  repeat split; try done.
  - by exists splits.
  - subst created. apply created_rows_users.
  - intros Hsum. exists share. lia.
  - intros [k Hk]. unfold share, rounded_share.
    rewrite Hk, Z.mod_mul, Z.div_mul by lia. rewrite Z.mul_0_r.
    destruct (Z.gtb_spec 0 n); [lia|]. destruct (Z.eqb_spec 0 n); lia.
Qed.

Lemma equal_split_sum_witness :
  ∃ members,
    SimpleSplitForm.members
      (SimpleSplitForm.clean_fields (Some Sample.trip) Sample.equal_three).1
    = Some members
    ∧ members ≠ []
    ∧ (∃ splits, (Sample.allocate_dinner Decimal.ROUND_HALF_EVEN).2 = Ok splits
                 ∧ length splits = length members)
    ∧ ExpenseSplit.user <$> splits_of (Sample.allocate_dinner Decimal.ROUND_HALF_EVEN).1 1
      = members
    ∧ Forall (λ s, ExpenseSplit.amount s
                   = rounded_share Decimal.ROUND_HALF_EVEN 10000
                       (Z.of_nat (length members)))
             (splits_of (Sample.allocate_dinner Decimal.ROUND_HALF_EVEN).1 1)
    ∧ allocated (Sample.allocate_dinner Decimal.ROUND_HALF_EVEN).1 1
      = Z.of_nat (length members)
        * rounded_share Decimal.ROUND_HALF_EVEN 10000 (Z.of_nat (length members))
    ∧ 2 * Z.abs (Z.of_nat (length members)
                 * rounded_share Decimal.ROUND_HALF_EVEN 10000
                     (Z.of_nat (length members)) - 10000)
      ≤ Z.of_nat (length members)
    ∧ (allocated (Sample.allocate_dinner Decimal.ROUND_HALF_EVEN).1 1 = 10000
       ↔ (Z.of_nat (length members) | 10000)).
Proof.
  apply (equal_split_sum Decimal.ROUND_HALF_EVEN Sample.db_unsplit (Some Sample.trip)
           Sample.dinner_object Sample.equal_three 10000).
  - reflexivity.
  - lia.
  - by vm_compute.
  - reflexivity.
Defined.

(** C1, as stated, fails: 100.00 split equally among three members is
    stored as 33.33, 33.33 and 33.33, which add up to 99.99, whichever
    way the backend rounds; the instances handed back hold the quotient
    to 28 digits. *)
Lemma equal_split_sum_counterexample :
  ExpenseSplit.amount <$> splits_of (Sample.allocate_dinner Decimal.ROUND_HALF_EVEN).1 1
  = [3333; 3333; 3333]
  ∧ allocated (Sample.allocate_dinner Decimal.ROUND_HALF_EVEN).1 1 = 9999
  ∧ ExpenseSplit.amount <$> splits_of (Sample.allocate_dinner Decimal.ROUND_HALF_UP).1 1
    = [3333; 3333; 3333]
  ∧ allocated (Sample.allocate_dinner Decimal.ROUND_HALF_UP).1 1 = 9999
  ∧ allocated (Sample.allocate_dinner Decimal.ROUND_HALF_EVEN).1 1
    ≠ Expense.amount Sample.dinner
  ∧ (Sample.allocate_dinner Decimal.ROUND_HALF_EVEN).2
    = Ok ((λ pk, SplitInstance.Mk pk 1 pk EQUAL
                   (Money.Mk (Decimal.Dec false 3333333333333333333333333333 (-26))
                             "INR")) <$> [1; 2; 3]).
Proof.
  repeat split; try (vm_compute; reflexivity). vm_compute. discriminate.
Qed.

(** * More of the application *)

(** ** The formset of splits: who takes part *)

Lemma visit_users (split_type : SplitType) (t : ExpenseSplitFormSet.totals)
    (f : ExpenseSplitFormSet.form) (cd : ExpenseSplitFormSet.cleaned_data) :
  ExpenseSplitFormSet.form_cleaned_data f = Some cd →
  ExpenseSplitFormSet.DELETE cd = false →
  ExpenseSplitFormSet.user cd ∉ ExpenseSplitFormSet.users t →
  ∃ t', ExpenseSplitFormSet.visit split_type t f = Ok t'
        ∧ ExpenseSplitFormSet.users t'
          = ExpenseSplitFormSet.users t ++ [ExpenseSplitFormSet.user cd].
Proof.
  intros Hcd Hkeep Hnew. unfold ExpenseSplitFormSet.visit.
  rewrite Hcd, Hkeep. destruct (decide _) as [?|_]; [done|].
  destruct split_type.
  - eauto.
  - destruct (ExpenseSplitFormSet.amount cd) as [a|]; [|eauto].
    destruct (Decimal.truthy a); eauto.
  - destruct (ExpenseSplitFormSet.percentage cd) as [p|]; [|eauto].
    destruct (Decimal.truthy p); eauto.
  - destruct (ExpenseSplitFormSet.shares cd) as [s|]; [|eauto].
    destruct (negb (s =? 0)); eauto.
Qed.

(** The loop over the forms either meets a user for the second time and
    raises, or ends with the users of the participants, in order. *)
Lemma visit_all_users (split_type : SplitType) (forms : list ExpenseSplitFormSet.form)
    (t : ExpenseSplitFormSet.totals) :
  NoDup (ExpenseSplitFormSet.users t) →
  if decide (NoDup (ExpenseSplitFormSet.users t
                    ++ (ExpenseSplitFormSet.user <$> participants forms)))
  then ∃ t', ExpenseSplitFormSet.visit_all split_type t forms = Ok t'
             ∧ ExpenseSplitFormSet.users t'
               = ExpenseSplitFormSet.users t
                 ++ (ExpenseSplitFormSet.user <$> participants forms)
  else ExpenseSplitFormSet.visit_all split_type t forms
       = Raise (ValidationError None "Each user can only be added once.").
Proof.
  revert t. induction forms as [|f forms IH]; intros t Hnd.
  - cbn. rewrite app_nil_r. rewrite decide_True by done. eauto.
  - rewrite participants_cons. cbn [ExpenseSplitFormSet.visit_all].
    destruct (ExpenseSplitFormSet.form_cleaned_data f) as [cd|] eqn:Hcd.
    + destruct (ExpenseSplitFormSet.DELETE cd) eqn:Hkeep.
      * unfold ExpenseSplitFormSet.visit. rewrite Hcd, Hkeep. by apply IH.
      * rewrite fmap_cons.
        destruct (decide (ExpenseSplitFormSet.user cd ∈ ExpenseSplitFormSet.users t))
          as [Hold|Hnew].
        -- rewrite decide_False.
           ++ unfold ExpenseSplitFormSet.visit. rewrite Hcd, Hkeep.
              by rewrite decide_True.
           ++ intros (_ & Hdisjoint & _)%NoDup_app.
              apply (Hdisjoint _ Hold). apply elem_of_cons. by left.
        -- destruct (visit_users split_type t f cd Hcd Hkeep Hnew) as (t1 & -> & Ht1).
           assert (NoDup (ExpenseSplitFormSet.users t1)) as Hnd1.
           { rewrite Ht1. apply NoDup_app. repeat split; [done| |apply NoDup_singleton].
             intros x Hx ->%list_elem_of_singleton. done. }
           specialize (IH t1 Hnd1). rewrite Ht1, <-app_assoc in IH. exact IH.
    + unfold ExpenseSplitFormSet.visit. rewrite Hcd. by apply IH.
Qed.

(** X1: a formset whose forms are free of errors is refused with "Each
    user can only be added once." exactly when two of its participants
    (the forms that are filled in and not marked for deletion) name the
    same user.  This is for the split types other than EXACT, whose
    branch converts the amounts of the forms met before the second
    occurrence. *)
Theorem formset_duplicate_user (expense : option ExpenseInstance.t)
    (split_type : SplitType) (forms : list ExpenseSplitFormSet.form) :
  split_type ≠ EXACT →
  existsb ExpenseSplitFormSet.has_errors forms = false →
  ExpenseSplitFormSet.clean expense split_type forms
  = Raise (ValidationError None "Each user can only be added once.")
  ↔ ¬ NoDup (ExpenseSplitFormSet.user <$> participants forms).
Proof.
  intros Htype Herrors. unfold ExpenseSplitFormSet.clean. rewrite Herrors.
  pose proof (visit_all_users split_type forms ExpenseSplitFormSet.initial
                (NoDup_nil_2 : NoDup (ExpenseSplitFormSet.users
                                        ExpenseSplitFormSet.initial))) as Hloop.
  cbn [ExpenseSplitFormSet.users ExpenseSplitFormSet.initial app] in Hloop.
  destruct (decide (NoDup (ExpenseSplitFormSet.user <$> participants forms)))
    as [Hnd|Hdup].
  - destruct Hloop as (t' & -> & _). split; [|done].
    destruct expense as [e|]; [|done].
    destruct split_type; try done.
    destruct (Decimal.gt _ _); [|done].
    unfold ExpenseSplitFormSet.percentage_message. cbn. discriminate.
  - rewrite Hloop. done.
Qed.

Lemma formset_duplicate_user_witness :
  ExpenseSplitFormSet.clean (Some Sample.dinner_object) PERCENTAGE
    [Sample.percent 1 5000; Sample.percent 1 5000]
  = Raise (ValidationError None "Each user can only be added once.").
Proof.
  apply (formset_duplicate_user (Some Sample.dinner_object) PERCENTAGE
           [Sample.percent 1 5000; Sample.percent 1 5000]).
  - discriminate.
  - reflexivity.
  - cbn. intros Hnd. apply NoDup_cons in Hnd as [Hin _].
    apply Hin. apply elem_of_cons. by left.
Defined.

(** X2: an EQUAL or a SHARES formset checks nothing but the users: when
    its participants name distinct users it is accepted, whatever the
    shares and the amounts are (shares of 0 or below included) and
    whether it is bound to an expense or not. *)
Theorem formset_checks_no_shares (expense : option ExpenseInstance.t)
    (split_type : SplitType) (forms : list ExpenseSplitFormSet.form) :
  split_type = EQUAL ∨ split_type = SHARES →
  NoDup (ExpenseSplitFormSet.user <$> participants forms) →
  ExpenseSplitFormSet.clean expense split_type forms = Ok tt.
Proof.
  intros Htype Hnd. unfold ExpenseSplitFormSet.clean.
  destruct (existsb _ forms); [done|].
  pose proof (visit_all_users split_type forms ExpenseSplitFormSet.initial
                (NoDup_nil_2 : NoDup (ExpenseSplitFormSet.users
                                        ExpenseSplitFormSet.initial))) as Hloop.
  cbn [ExpenseSplitFormSet.users ExpenseSplitFormSet.initial app] in Hloop.
  rewrite decide_True in Hloop by done. destruct Hloop as (t' & -> & _).
  destruct expense as [e|]; [|done].
  destruct Htype as [->| ->]; done.
Qed.

Lemma formset_checks_no_shares_witness :
  ExpenseSplitFormSet.clean (Some Sample.dinner_object) SHARES
    [ExpenseSplitFormSet.Form false
       (Some (ExpenseSplitFormSet.Cleaned (Some 1) None None (Some 0) false));
     ExpenseSplitFormSet.Form false
       (Some (ExpenseSplitFormSet.Cleaned (Some 2) None None (Some (-3)) false))]
  = Ok tt.
Proof.
  apply formset_checks_no_shares.
  - by right.
  - by_compute.
Defined.

Lemma visit_all_takes_part (split_type : SplitType)
    (forms : list ExpenseSplitFormSet.form) (t : ExpenseSplitFormSet.totals) :
  ExpenseSplitFormSet.visit_all split_type t forms
  = ExpenseSplitFormSet.visit_all split_type t
      (filter (λ f, takes_part f = true) forms).
Proof.
  revert t. induction forms as [|f forms IH]; intros t; [done|].
  rewrite filter_cons. cbn [ExpenseSplitFormSet.visit_all].
  destruct (decide (takes_part f = true)) as [Hpart|Hpart].
  - cbn [ExpenseSplitFormSet.visit_all].
    destruct (ExpenseSplitFormSet.visit split_type t f); [apply IH|done].
  - unfold takes_part in Hpart. unfold ExpenseSplitFormSet.visit.
    destruct (ExpenseSplitFormSet.form_cleaned_data f) as [cd|]; [|apply IH].
    destruct (ExpenseSplitFormSet.DELETE cd); [apply IH|done].
Qed.

(** X3: the forms marked for deletion and the extra forms left empty do
    not count: a formset whose forms are free of errors is cleaned as
    the formset of its other forms is, whatever the split type. *)
Theorem formset_ignores_deleted_forms (expense : option ExpenseInstance.t)
    (split_type : SplitType) (forms : list ExpenseSplitFormSet.form) :
  existsb ExpenseSplitFormSet.has_errors forms = false →
  ExpenseSplitFormSet.clean expense split_type forms
  = ExpenseSplitFormSet.clean expense split_type
      (filter (λ f, takes_part f = true) forms).
Proof.
  intros Herrors. unfold ExpenseSplitFormSet.clean.
  rewrite Herrors, <-visit_all_takes_part.
  assert (existsb ExpenseSplitFormSet.has_errors
            (filter (λ f, takes_part f = true) forms) = false) as ->; [|done].
  induction forms as [|f forms IH]; [done|].
  cbn in Herrors. apply orb_false_iff in Herrors as [Hf Hforms].
  rewrite filter_cons. destruct (decide (takes_part f = true)); [|by apply IH].
  cbn. rewrite Hf. by apply IH.
Qed.

Lemma formset_ignores_deleted_forms_witness :
  ExpenseSplitFormSet.clean (Some Sample.dinner_object) PERCENTAGE
    [Sample.percent 1 6000;
     ExpenseSplitFormSet.Form false
       (Some (ExpenseSplitFormSet.Cleaned (Some 1) None
                (Some (Decimal.Dec false 5000 (-2))) None true));
     ExpenseSplitFormSet.Form false None;
     Sample.percent 2 4000]
  = ExpenseSplitFormSet.clean (Some Sample.dinner_object) PERCENTAGE
      [Sample.percent 1 6000; Sample.percent 2 4000].
Proof.
  apply (formset_ignores_deleted_forms (Some Sample.dinner_object) PERCENTAGE
           [Sample.percent 1 6000;
            ExpenseSplitFormSet.Form false
              (Some (ExpenseSplitFormSet.Cleaned (Some 1) None
                       (Some (Decimal.Dec false 5000 (-2))) None true));
            ExpenseSplitFormSet.Form false None;
            Sample.percent 2 4000]).
  reflexivity.
Defined.

(** ** The split form: who takes part *)

(** X4: the split form is valid exactly when the posted split type is one
    of the four, at least one member is posted and every posted member
    belongs to the group the form was given (so never without a group);
    its participants are then the members of the group that were posted,
    each once when the members of the group are distinct. *)
Theorem split_form_participants (group : option Group.t) (d : SimpleSplitForm.data) :
  (SimpleSplitForm.is_valid group d = true ↔
   ∃ g, group = Some g
        ∧ is_Some (SplitType_of_value (SimpleSplitForm.data_split_type d))
        ∧ SimpleSplitForm.data_members d ≠ []
        ∧ Forall (λ pk, pk ∈ Group.members g) (SimpleSplitForm.data_members d))
  ∧ (SimpleSplitForm.is_valid group d = true →
     ∃ g ms, group = Some g
             ∧ SimpleSplitForm.members (SimpleSplitForm.clean_fields group d).1
               = Some ms
             ∧ ms ≠ []
             ∧ (∀ m, m ∈ ms ↔ m ∈ SimpleSplitForm.data_members d)
             ∧ Forall (λ m, m ∈ Group.members g) ms
             ∧ (NoDup (Group.members g) → NoDup ms)).
Proof.
  assert (SimpleSplitForm.is_valid group d = true →
          ∃ g, group = Some g
               ∧ is_Some (SplitType_of_value (SimpleSplitForm.data_split_type d))
               ∧ SimpleSplitForm.data_members d ≠ []
               ∧ Forall (λ pk, pk ∈ Group.members g) (SimpleSplitForm.data_members d)
               ∧ SimpleSplitForm.members (SimpleSplitForm.clean_fields group d).1
                 = Some (filter (λ pk, pk ∈ SimpleSplitForm.data_members d)
                                (Group.members g))) as Hvalid.
  { intros Hvalid.
    destruct (SimpleSplitForm_valid group d Hvalid) as (st & ms & Hcd & Hst & Hms).
    rewrite Hcd. cbn. unfold ModelMultipleChoiceField_clean in Hms.
    destruct (SimpleSplitForm.data_members d) as [|x posted] eqn:Hposted; [done|].
    destruct (decide (Forall _ (x :: posted))) as [Hall|]; [|done].
    inversion Hms; subst ms. clear Hms.
    destruct group as [g|].
    - exists g. repeat split; try done; by rewrite Hst.
    - cbn in Hall. apply Forall_cons in Hall as [Hx _]. by apply elem_of_nil in Hx. }
  split; [split|].
  - intros H. destruct (Hvalid H) as (g & ? & ? & ? & ? & _). by exists g.
  - intros (g & -> & [st Hst] & Hne & Hall).
    apply bool_decide_eq_true.
    unfold SimpleSplitForm.errors, SimpleSplitForm.clean_fields,
      SimpleSplitForm.clean_split_type, ModelMultipleChoiceField_clean. cbn.
    rewrite Hst. destruct (SimpleSplitForm.data_members d) as [|x posted]; [done|].
    by rewrite decide_True.
  - intros H. destruct (Hvalid H) as (g & Hg & _ & Hne & Hall & Hms).
    exists g, (filter (λ pk, pk ∈ SimpleSplitForm.data_members d) (Group.members g)).
    repeat split; try done.
    + intros Hnil. destruct (SimpleSplitForm.data_members d) as [|x posted]; [done|].
      apply Forall_cons in Hall as [Hx _].
      assert (x ∈ filter (λ pk, pk ∈ x :: posted) (Group.members g)) as Hin.
      { apply list_elem_of_filter. split; [apply elem_of_cons; by left|done]. }
      rewrite Hnil in Hin. by apply elem_of_nil in Hin.
    + by intros [? _]%list_elem_of_filter.
    + intros Hm. apply list_elem_of_filter. split; [done|].
      rewrite Forall_forall in Hall. by apply Hall.
    + apply Forall_forall. by intros m [_ ?]%list_elem_of_filter.
    + intros Hnd. by apply NoDup_filter.
Qed.

Lemma split_form_participants_witness :
  ∃ g ms, Some Sample.trip = Some g
          ∧ SimpleSplitForm.members
              (SimpleSplitForm.clean_fields (Some Sample.trip)
                 (SimpleSplitForm.Data "equal" [3; 1; 3])).1 = Some ms
          ∧ ms ≠ []
          ∧ (∀ m, m ∈ ms ↔ m ∈ SimpleSplitForm.data_members
                                  (SimpleSplitForm.Data "equal" [3; 1; 3]))
          ∧ Forall (λ m, m ∈ Group.members g) ms
          ∧ (NoDup (Group.members g) → NoDup ms).
Proof.
  apply (split_form_participants (Some Sample.trip)
           (SimpleSplitForm.Data "equal" [3; 1; 3])).
  vm_compute. reflexivity.
Defined.

(** ** The split form: keys and links *)

Lemma delete_splits_keys (db : DB.t) (pk : Z) :
  split_keys_ok db → split_keys_ok (delete_splits db pk).
Proof.
  intros [Hnd Hbelow]. split; cbn.
  - eapply sublist_NoDup; [exact Hnd|]. apply fmap_sublist, sublist_filter.
  - apply Forall_forall. intros s [_ Hs]%list_elem_of_filter.
    rewrite Forall_forall in Hbelow. by apply Hbelow.
Qed.

Lemma delete_splits_links (db : DB.t) (pk : Z) :
  links_ok db → links_ok (delete_splits db pk).
Proof.
  unfold links_ok. rewrite !Forall_forall. intros Hlinks st' Hst'. cbn in Hst'.
  apply list_elem_of_fmap in Hst' as (st & -> & Hst). cbn.
  apply Forall_forall. intros i [Hkept Hi]%list_elem_of_filter.
  specialize (Hlinks st Hst). rewrite Forall_forall in Hlinks.
  apply Hlinks, list_elem_of_fmap in Hi as (s & -> & Hs).
  apply list_elem_of_fmap_2, list_elem_of_filter. split; [|done].
  intros Hexpense. apply Hkept. apply list_elem_of_fmap_2, list_elem_of_filter. done.
Qed.

(** What the loop of [save] does to the table of splits, whether it ends
    or raises on the way. *)
Lemma create_all_splits (r : Decimal.Rounding) (expense : Z) (split_type : SplitType)
    (amount : Money.t) (members : list Z) (db : DB.t)
    (splits : list SplitInstance.t) :
  let result := SimpleSplitForm.create_all r db expense split_type amount members
                  splits in
  ∃ created,
    DB.splits result.1 = DB.splits db ++ created
    ∧ Forall (λ s, DB.next_split_id db ≤ ExpenseSplit.id s
                   ∧ ExpenseSplit.id s < DB.next_split_id result.1) created
    ∧ NoDup (ExpenseSplit.id <$> created)
    ∧ DB.next_split_id db ≤ DB.next_split_id result.1
    ∧ DB.settlements result.1 = DB.settlements db.
Proof.
  revert db splits. induction members as [|member members IH]; intros db splits; cbn.
  - exists []. rewrite app_nil_r. repeat split; try done; try lia. apply NoDup_nil_2.
  - unfold ExpenseSplit_create.
    destruct (to_db_column r (Money.amount amount)) as [stored|e]; cbn.
    + match goal with
      | |- context [SimpleSplitForm.create_all r ?db' _ _ _ members ?acc] =>
          destruct (IH db' acc) as (created & Hsplits & Hkeys & Hnd & Hnext & Hst)
      end.
      cbn in *. eexists (_ :: created). rewrite Hsplits, <-app_assoc.
      repeat split; try done; try lia.
      * apply Forall_cons. split; [cbn; lia|].
        eapply Forall_impl; [exact Hkeys|]. cbn. lia.
      * cbn. apply NoDup_cons. split; [|done].
        intros (s & Hid & Hs)%list_elem_of_fmap.
        rewrite Forall_forall in Hkeys. specialize (Hkeys s Hs). lia.
    + exists []. rewrite app_nil_r. repeat split; try done; try lia. apply NoDup_nil_2.
Qed.

Lemma appended_keys (db db' : DB.t) (created : list ExpenseSplit.t) :
  DB.splits db' = DB.splits db ++ created →
  Forall (λ s, DB.next_split_id db ≤ ExpenseSplit.id s
               ∧ ExpenseSplit.id s < DB.next_split_id db') created →
  NoDup (ExpenseSplit.id <$> created) →
  DB.next_split_id db ≤ DB.next_split_id db' →
  split_keys_ok db → split_keys_ok db'.
Proof.
  intros Hsplits Hkeys Hnd Hnext [Hold Hbelow]. unfold split_keys_ok.
  rewrite Hsplits, fmap_app. rewrite Forall_forall in Hkeys, Hbelow. split.
  - apply NoDup_app. repeat split; [done| |done].
    intros i (s & -> & Hs)%list_elem_of_fmap (s' & Hid & Hs')%list_elem_of_fmap.
    specialize (Hbelow s Hs). specialize (Hkeys s' Hs'). lia.
  - apply Forall_app. split; apply Forall_forall; intros s Hs.
    + specialize (Hbelow s Hs). lia.
    + by apply Hkeys.
Qed.

Lemma appended_links (db db' : DB.t) (created : list ExpenseSplit.t) :
  DB.splits db' = DB.splits db ++ created →
  DB.settlements db' = DB.settlements db →
  links_ok db → links_ok db'.
Proof.
  unfold links_ok. intros -> -> Hlinks.
  eapply Forall_impl; [exact Hlinks|]. intros st Hst.
  eapply Forall_impl; [exact Hst|]. intros i Hi.
  rewrite fmap_app. apply elem_of_app. by left.
Qed.

(** X5: saving the split form keeps the table of splits sound, whatever
    it is given and whether it ends or raises: the keys stay distinct and
    below the sequence, which never goes back, and no settlement is left
    with a link to a split that is gone. *)
Theorem split_form_save_integrity (r : Decimal.Rounding) (db : DB.t)
    (expense : option ExpenseInstance.t) (cd : SimpleSplitForm.cleaned_data) :
  split_keys_ok db → links_ok db →
  let db' := (SimpleSplitForm.save r db expense cd).1 in
  split_keys_ok db' ∧ links_ok db' ∧ DB.next_split_id db ≤ DB.next_split_id db'.
Proof.
  intros Hkeys Hlinks. unfold SimpleSplitForm.save.
  destruct expense as [expense|]; [|cbn; split; [done|split; [done|lia]]].
  destruct (SimpleSplitForm.split_type cd) as [st|];
    [|cbn; split; [done|split; [done|lia]]].
  destruct (SimpleSplitForm.members cd) as [ms|];
    [|cbn; split; [done|split; [done|lia]]].
  pose proof (delete_splits_keys db (ExpenseInstance.pk expense) Hkeys) as Hkeys1.
  pose proof (delete_splits_links db (ExpenseInstance.pk expense) Hlinks) as Hlinks1.
  set (db1 := delete_splits db (ExpenseInstance.pk expense)) in *.
  assert (DB.next_split_id db1 = DB.next_split_id db) as Hnext1 by done.
  destruct (decide (st = EQUAL)) as [->|_];
    [|cbn; split; [done|split; [done|lia]]].
  destruct (Decimal.truediv _ _) as [per_person|];
    [|cbn; split; [done|split; [done|lia]]].
  match goal with
  | |- context [SimpleSplitForm.create_all r db1 ?e ?t ?a ms []] =>
      destruct (create_all_splits r e t a ms db1 [])
        as (created & Hsplits & Hnew & Hnd & Hnext & Hst)
  end.
  cbn zeta. split; [|split].
  - by eapply appended_keys.
  - by eapply appended_links.
  - lia.
Qed.

Lemma split_form_save_integrity_witness :
  split_keys_ok (Sample.allocate_dinner Decimal.ROUND_HALF_EVEN).1
  ∧ links_ok (Sample.allocate_dinner Decimal.ROUND_HALF_EVEN).1
  ∧ DB.next_split_id Sample.db_unsplit
    ≤ DB.next_split_id (Sample.allocate_dinner Decimal.ROUND_HALF_EVEN).1.
Proof.
  apply (split_form_save_integrity Decimal.ROUND_HALF_EVEN Sample.db_unsplit
           (Some Sample.dinner_object)
           (SimpleSplitForm.clean_fields (Some Sample.trip) Sample.equal_three).1).
  - split; [apply NoDup_nil_2|apply Forall_nil_2].
  - apply Forall_nil_2.
Defined.

(** X6: once the split form has run on an expense, the keys of the splits
    it had before belong to no split any more: the new splits take keys
    the sequence had not yet handed out. *)
Theorem split_form_save_retires_keys (r : Decimal.Rounding) (db : DB.t)
    (expense : ExpenseInstance.t) (cd : SimpleSplitForm.cleaned_data)
    (s : ExpenseSplit.t) :
  split_keys_ok db →
  is_Some (SimpleSplitForm.split_type cd) →
  is_Some (SimpleSplitForm.members cd) →
  s ∈ DB.splits db →
  ExpenseSplit.expense s = ExpenseInstance.pk expense →
  ExpenseSplit.id s
  ∉ (ExpenseSplit.id <$> DB.splits (SimpleSplitForm.save r db (Some expense) cd).1).
Proof.
  intros [Hnd Hbelow] [st Hst] [ms Hms] Hs Hexpense.
  unfold SimpleSplitForm.save. rewrite Hst, Hms.
  set (db1 := delete_splits db (ExpenseInstance.pk expense)).
  assert (ExpenseSplit.id s ∉ (ExpenseSplit.id <$> DB.splits db1)) as Hgone.
  { cbn. clear Hbelow. induction (DB.splits db) as [|x l IH]; [by apply elem_of_nil in Hs|].
    cbn in Hnd. apply NoDup_cons in Hnd as [Hx Hnd]. rewrite filter_cons.
    apply elem_of_cons in Hs as [<-|Hs].
    - rewrite decide_False by (intros H; by apply H).
      intros (s' & Hid & [_ Hs']%list_elem_of_filter)%list_elem_of_fmap.
      apply Hx. rewrite Hid. by apply list_elem_of_fmap_2.
    - destruct (decide (ExpenseSplit.expense x ≠ ExpenseInstance.pk expense));
        [|by apply IH].
      cbn. intros [Hid|Hin]%elem_of_cons; [|by apply IH].
      apply Hx. rewrite <-Hid. by apply list_elem_of_fmap_2. }
  assert (ExpenseSplit.id s < DB.next_split_id db1) as Hlt.
  { rewrite Forall_forall in Hbelow. by apply Hbelow. }
  destruct (decide (st = EQUAL)) as [->|_]; [|done].
  destruct (Decimal.truediv _ _) as [per_person|]; [|done].
  match goal with
  | |- context [SimpleSplitForm.create_all r db1 ?e ?t ?a ms []] =>
      destruct (create_all_splits r e t a ms db1 [])
        as (created & Hsplits & Hnew & _)
  end.
  cbn zeta in Hsplits. rewrite Hsplits, fmap_app.
  intros [Hin|Hin]%elem_of_app; [done|].
  apply list_elem_of_fmap in Hin as (s' & Hid & Hs').
  rewrite Forall_forall in Hnew. specialize (Hnew s' Hs'). lia.
Qed.

Lemma split_form_save_retires_keys_witness :
  ExpenseSplit.id (Sample.share 2 1 2)
  ∉ (ExpenseSplit.id <$>
       DB.splits (SimpleSplitForm.save Decimal.ROUND_HALF_EVEN Sample.db_split
                    (Some Sample.dinner_object)
                    (SimpleSplitForm.clean_fields (Some Sample.trip)
                       Sample.equal_three).1).1).
Proof.
  apply (split_form_save_retires_keys Decimal.ROUND_HALF_EVEN Sample.db_split
           Sample.dinner_object
           (SimpleSplitForm.clean_fields (Some Sample.trip) Sample.equal_three).1
           (Sample.share 2 1 2)).
  - split; [by_compute|by_compute].
  - by eexists.
  - by eexists.
  - apply (list_elem_of_lookup_2 _ 1%nat). reflexivity.
  - reflexivity.
Defined.

(** ** Recording a settlement: what is written *)

Lemma filter_none {A} (P : A → Prop) `{!∀ x, Decision (P x)} (l : list A) :
  (∀ x, x ∈ l → ¬ P x) → filter P l = [].
Proof.
  induction l as [|x l IH]; intros Hnone; [done|].
  rewrite filter_cons, decide_False by (apply Hnone, elem_of_cons; by left).
  apply IH. intros y Hy. apply Hnone. by apply elem_of_cons; right.
Qed.

(** X8: no settlement is recorded through the settlement page: whatever
    is posted, the database is left as it was.  The answer is a 404
    exactly when the address names a group (a key other than 0) of which
    the user who posts is not a member; otherwise the form comes back
    with its errors, one of which is on the amount, whose field refuses
    every value: "This field is required." when none is posted, "Enter
    a list of values." for any other. *)
Theorem settlement_page_records_nothing (r : Decimal.Rounding) (db : DB.t)
    (user group_pk : Z) (d : SettlementForm.data) :
  let result := SettlementCreateView.post r db user group_pk d in
  result.1 = db
  ∧ (result.2 = Http404
     ↔ group_pk ≠ 0
       ∧ ∀ g, g ∈ DB.groups db → Group.id g = group_pk → user ∉ Group.members g)
  ∧ (result.2 ≠ Http404 →
     ∃ errors,
       result.2 = FormInvalid errors
       ∧ ValidationError (Some "amount")
           (if decide (SettlementForm.data_amount d = EmptyString)
            then "This field is required." else "Enter a list of values.")
         ∈ errors).
Proof.
  cbn zeta. rewrite SettlementCreateView_post_answer. cbn [fst snd].
  split; [done|].
  assert (∀ group,
            ValidationError (Some "amount")
              (if decide (SettlementForm.data_amount d = EmptyString)
               then "This field is required." else "Enter a list of values.")
            ∈ SettlementForm.errors db group d) as Herror.
  { intros group. unfold SettlementForm.errors, SettlementForm.clean_fields,
      SettlementForm.clean_amount.
    rewrite !elem_of_app. left. right. right. left.
    destruct (decide (SettlementForm.data_amount d = EmptyString));
      by apply list_elem_of_singleton. }
  unfold SettlementCreateView.get_form_kwargs, SettlementCreateView.get_group.
  destruct (Z.eqb_spec group_pk 0) as [Hzero|Hpk].
  - split; [split; [done|by intros [? _]]|]. intros _. eexists. split; [done|].
    apply Herror.
  - destruct (List.find _ (DB.groups db)) as [g|] eqn:Hfind.
    + apply find_some in Hfind as [Hin Hg].
      apply bool_decide_eq_true in Hg as [Hid Hmember].
      apply list_elem_of_In in Hin.
      split; [split; [done|]|].
      * intros [_ Hnone]. by destruct (Hnone g Hin Hid).
      * intros _. eexists. split; [done|]. apply Herror.
    + split; [|done]. split; [|done]. intros _. split; [done|].
      intros g Hin Hid Hmember.
      apply list_elem_of_In in Hin.
      eapply find_none in Hfind; [|exact Hin].
      apply bool_decide_eq_false in Hfind. by apply Hfind.
Qed.

(** X9: the list of the settlements of a group shows a member of the
    group every settlement of the group, whether the group is active or
    not; a user who is a member of no group of that key gets a 404
    instead of the list, the queryset itself being empty for that
    user. *)
Theorem settlement_list_for_members (db : DB.t) (user group_pk : Z) :
  (SettlementListView.get db user group_pk = None
   ↔ ∀ g, g ∈ DB.groups db → Group.id g = group_pk → user ∉ Group.members g)
  ∧ (∀ l, SettlementListView.get db user group_pk = Some l →
          l = filter (λ st, Settlement.group st = group_pk) (DB.settlements db))
  ∧ (SettlementListView.get db user group_pk = None →
     SettlementListView.get_queryset db user group_pk = []).
Proof.
  unfold SettlementListView.get, SettlementCreateView.get_group.
  destruct (List.find _ (DB.groups db)) as [g|] eqn:Hfind.
  - apply find_some in Hfind as [Hin Hg].
    apply bool_decide_eq_true in Hg as [Hid Hmember]. apply list_elem_of_In in Hin.
    split; [split; [done|]|split; [|done]].
    + intros Hnone. by destruct (Hnone g Hin Hid).
    + intros l [= <-]. unfold SettlementListView.get_queryset.
      apply list_filter_iff. intros st. split; [tauto|].
      intros Hst. split; [done|]. apply Exists_exists. exists g.
      split; [done|]. split; [congruence|done].
  - assert (∀ g, g ∈ DB.groups db → Group.id g = group_pk → user ∉ Group.members g)
      as Hnone.
    { intros g Hin Hid Hmember. apply list_elem_of_In in Hin.
      eapply find_none in Hfind; [|exact Hin].
      apply bool_decide_eq_false in Hfind. by apply Hfind. }
    split; [done|]. split; [done|]. intros _.
    apply filter_none. intros st _ [Hid (g & Hg & Hgid & Hmember)%Exists_exists].
    apply (Hnone g); [done|congruence|done].
Qed.

(** ** Deleting a group *)

(** What [delete] leaves of the table of groups. *)
Lemma GroupDeleteView_delete_groups (db : DB.t) (user pk : Z) (object : Group.t) :
  GroupDeleteView.get_object db user pk = Some object →
  object ∈ DB.groups db ∧ Group.id object = pk ∧ Group.created_by object = user
  ∧ Group.is_active object = true
  ∧ GroupDeleteView.delete db user pk
    = (DB.Mk (DB.users db)
         ((λ g, if decide (Group.id g = pk) then archived object else g)
            <$> DB.groups db)
         (DB.expenses db) (DB.splits db) (DB.settlements db)
         (DB.next_group_id db) (DB.next_split_id db) (DB.next_settlement_id db),
       Reply.Mk Redirect
         [success ("Group " +:+ dquote +:+ Group.name object +:+ dquote
                   +:+ " deleted successfully!")]).
Proof.
  intros Hobject. unfold GroupDeleteView.delete. rewrite Hobject.
  apply find_some in Hobject as [Hin Hobject].
  apply bool_decide_eq_true in Hobject as (Hid & Hcreator & Hactive).
  apply list_elem_of_In in Hin.
  repeat split; try done.
  unfold GroupForm.save_row.
  assert (existsb (λ g, Group.id g =? Group.id object) (DB.groups db) = true) as ->.
  { apply existsb_exists. exists object. split; [by apply list_elem_of_In|lia]. }
  cbn. rewrite Hid. unfold archived. by rewrite Hid.
Qed.

(** What is left of the tables once a group is gone. *)
Lemma Group_delete_splits (db : DB.t) (pk : Z) (s : ExpenseSplit.t) :
  s ∈ DB.splits (Group_delete db pk)
  ↔ s ∈ DB.splits db
    ∧ ∀ e, e ∈ DB.expenses db → Expense.id e = ExpenseSplit.expense s →
           Expense.group e ≠ Some pk.
Proof.
  unfold Group_delete. cbn [DB.splits]. rewrite list_elem_of_filter.
  split.
  - intros [Hkept Hs]. split; [done|].
    intros e He Hid Hgroup. apply Hkept. rewrite <-Hid.
    apply list_elem_of_fmap_2. by apply list_elem_of_filter.
  - intros [Hs Hkept]. split; [|done].
    intros (e & Hid & [Hgroup He]%list_elem_of_filter)%list_elem_of_fmap.
    by apply (Hkept e).
Qed.

Lemma Group_delete_sound (db : DB.t) (pk : Z) :
  (splits_have_expense db → splits_have_expense (Group_delete db pk))
  ∧ (links_ok db → links_ok (Group_delete db pk)).
Proof.
  split.
  - unfold splits_have_expense. rewrite !Forall_forall.
    intros Hsound s Hs. apply Group_delete_splits in Hs as [Hs Hkept].
    specialize (Hsound s Hs).
    apply list_elem_of_fmap in Hsound as (e & Hid & He).
    rewrite Hid. apply list_elem_of_fmap_2. cbn. apply list_elem_of_filter.
    split; [|done]. by apply Hkept.
  - unfold links_ok. rewrite !Forall_forall.
    intros Hsound st Hst. cbn [Group_delete DB.settlements] in Hst.
    apply list_elem_of_fmap in Hst as (st0 & -> & [_ Hst0]%list_elem_of_filter).
    cbn [Settlement.expense_splits]. apply Forall_forall.
    intros i [Hkept Hi]%list_elem_of_filter.
    specialize (Hsound st0 Hst0). rewrite Forall_forall in Hsound.
    specialize (Hsound i Hi).
    apply list_elem_of_fmap in Hsound as (s & -> & Hs).
    apply list_elem_of_fmap_2. cbn [Group_delete DB.splits].
    apply list_elem_of_filter. split; [|done].
    intros Hgone. apply Hkept. apply list_elem_of_fmap_2.
    by apply list_elem_of_filter.
Qed.

(** X10: how a group is deleted depends on the method of the request, and
    only its creator deletes it, while it is active: otherwise the answer
    is a 404 and nothing changes.  The method [delete] of the view, which
    answers a request DELETE, keeps the group as an inactive row with its
    name, members and currency, and the expenses, the splits and the
    settlements as they were.  A POST, as the confirmation page sends
    it, does not reach that method: the group is removed, and with it
    its expenses, their splits and its settlements, the rest staying,
    every split with its expense and every link of a settlement with
    its split; no message is queued. *)
Theorem group_delete_by_method (db : DB.t) (user pk : Z) :
  let soft := GroupDeleteView.delete db user pk in
  let hard := GroupDeleteView.post db user pk in
  (Reply.response soft.2 = Http404
   ↔ ∀ g, g ∈ DB.groups db → Group.id g = pk →
          Group.created_by g ≠ user ∨ Group.is_active g = false)
  ∧ (Reply.response hard.2 = Http404 ↔ Reply.response soft.2 = Http404)
  ∧ (Reply.response soft.2 = Http404 → soft.1 = db ∧ hard.1 = db)
  ∧ (Reply.response soft.2 ≠ Http404 →
     Reply.response soft.2 = Redirect
     ∧ DB.expenses soft.1 = DB.expenses db
     ∧ DB.splits soft.1 = DB.splits db
     ∧ DB.settlements soft.1 = DB.settlements db
     ∧ (∃ object, object ∈ DB.groups db ∧ Group.id object = pk
                  ∧ Group.created_by object = user
                  ∧ DB.groups soft.1
                    = (λ g, if decide (Group.id g = pk) then archived object else g)
                        <$> DB.groups db)
     ∧ hard.2 = Reply.Mk Redirect []
     ∧ DB.groups hard.1 = filter (λ g, Group.id g ≠ pk) (DB.groups db)
     ∧ DB.expenses hard.1 = filter (λ e, Expense.group e ≠ Some pk) (DB.expenses db)
     ∧ (∀ s, s ∈ DB.splits hard.1
             ↔ s ∈ DB.splits db
               ∧ ∀ e, e ∈ DB.expenses db → Expense.id e = ExpenseSplit.expense s →
                      Expense.group e ≠ Some pk)
     ∧ Settlement.id <$> DB.settlements hard.1
       = Settlement.id <$> filter (λ st, Settlement.group st ≠ pk) (DB.settlements db)
     ∧ Forall (λ st, Settlement.group st ≠ pk) (DB.settlements hard.1)
     ∧ (splits_have_expense db → splits_have_expense hard.1)
     ∧ (links_ok db → links_ok hard.1)).
Proof.
  cbn zeta. unfold GroupDeleteView.post.
  destruct (GroupDeleteView.get_object db user pk) as [object|] eqn:Hobject.
  - destruct (GroupDeleteView_delete_groups db user pk object Hobject)
      as (Hin & Hid & Hcreator & Hactive & ->). cbn [fst snd Reply.response].
    rewrite Hid.
    split; [split; [done|]|].
    { intros Hnone. destruct (Hnone object Hin Hid) as [?|Hoff]; [done|].
      by rewrite Hactive in Hoff. }
    split; [done|]. split; [done|]. intros _.
    split; [done|]. split; [done|]. split; [done|]. split; [done|].
    split; [by exists object|]. split; [done|]. split; [done|]. split; [done|].
    split; [apply Group_delete_splits|].
    split; [cbn [Group_delete DB.settlements]; by rewrite <-list_fmap_compose|].
    split; [|apply Group_delete_sound].
    cbn [Group_delete DB.settlements]. apply Forall_fmap, Forall_forall.
    by intros st [Hgroup _]%list_elem_of_filter.
  - unfold GroupDeleteView.delete. rewrite Hobject. cbn.
    split; [split; [|done]|done].
    intros _ g Hg Hid. unfold GroupDeleteView.get_object in Hobject.
    apply list_elem_of_In in Hg.
    eapply find_none in Hobject; [|exact Hg].
    apply bool_decide_eq_false in Hobject.
    destruct (decide (Group.created_by g = user)) as [Hcreator|?]; [|by left].
    right. destruct (Group.is_active g); [|done]. exfalso. by apply Hobject.
Qed.

Lemma deleted_group_inactive (db : DB.t) (user pk : Z) (g : Group.t) :
  Reply.response (GroupDeleteView.delete db user pk).2 = Redirect →
  g ∈ DB.groups (GroupDeleteView.delete db user pk).1 →
  Group.id g = pk → Group.is_active g = false.
Proof.
  destruct (GroupDeleteView.get_object db user pk) as [object|] eqn:Hobject.
  - destruct (GroupDeleteView_delete_groups db user pk object Hobject)
      as (_ & Hid & _ & _ & ->). cbn.
    intros _ (g0 & -> & _)%list_elem_of_fmap.
    destruct (decide (Group.id g0 = pk)); [done|]. intros ?. done.
  - unfold GroupDeleteView.delete. rewrite Hobject. done.
Qed.

Lemma user_balance_group (db : DB.t) (user : Z) (entry : UserBalance.t) :
  entry ∈ DashboardView.calculate_user_balances db user →
  UserBalance.group entry ∈ DB.groups db
  ∧ user ∈ Group.members (UserBalance.group entry)
  ∧ Group.is_active (UserBalance.group entry) = true.
Proof.
  rewrite calculate_user_balances_concat, list_elem_of_join.
  intros (l & Hentry & Hl).
  apply list_elem_of_fmap in Hl as (g & -> & Hg).
  apply list_elem_of_filter in Hg as [[Hmember Hactive] Hg].
  unfold DashboardView.balance_entry in Hentry.
  destruct (negb _); [|by apply elem_of_nil in Hentry].
  by apply list_elem_of_singleton in Hentry as ->.
Qed.

(** X11: once a group is deleted, it is out of reach for every user: no
    dashboard holds a balance for it, its page and its edit form answer
    404, it cannot be deleted again, and the expense form no longer
    offers it. *)
Theorem group_delete_hides_group (db : DB.t) (user pk : Z) (u : Z) :
  Reply.response (GroupDeleteView.delete db user pk).2 = Redirect →
  let db' := (GroupDeleteView.delete db user pk).1 in
  (∀ entry, entry ∈ DashboardView.calculate_user_balances db' u →
            Group.id (UserBalance.group entry) ≠ pk)
  ∧ GroupDetailView.get_object db' u pk = None
  ∧ GroupUpdateView.get_object db' u pk = None
  ∧ Reply.response (GroupDeleteView.delete db' u pk).2 = Http404
  ∧ (∀ g, g ∈ ExpenseForm.group_queryset db' (Some u) → Group.id g ≠ pk).
Proof.
  intros Hdeleted db'.
  pose proof (deleted_group_inactive db user pk) as Hoff.
  specialize (λ g, Hoff g Hdeleted). fold db' in Hoff.
  assert (∀ p : Group.t → Prop, ∀ Hdec : ∀ g, Decision (p g),
            (∀ g, p g → Group.id g = pk ∧ Group.is_active g = true) →
            List.find (λ g, bool_decide (p g)) (DB.groups db') = None) as Hfind.
  { intros p Hdec Hp.
    destruct (List.find _ (DB.groups db')) as [g|] eqn:Hg; [|done].
    apply find_some in Hg as [Hin Hg]. apply bool_decide_eq_true, Hp in Hg as [Hid Hon].
    apply list_elem_of_In in Hin. rewrite (Hoff g Hin Hid) in Hon. done. }
  repeat split.
  - intros entry Hentry Hid.
    apply user_balance_group in Hentry as (Hin & _ & Hon).
    rewrite (Hoff _ Hin Hid) in Hon. done.
  - apply Hfind. tauto.
  - apply Hfind. tauto.
  - unfold GroupDeleteView.delete, GroupDeleteView.get_object.
    rewrite Hfind; [done|tauto].
  - intros g [[_ Hon] Hin]%list_elem_of_filter Hid.
    rewrite (Hoff g Hin Hid) in Hon. done.
Qed.

Lemma group_delete_hides_group_witness :
  (∀ entry,
     entry ∈ DashboardView.calculate_user_balances
               (GroupDeleteView.delete Sample.db_split 1 1).1 2 →
     Group.id (UserBalance.group entry) ≠ 1)
  ∧ GroupDetailView.get_object (GroupDeleteView.delete Sample.db_split 1 1).1 2 1 = None
  ∧ GroupUpdateView.get_object (GroupDeleteView.delete Sample.db_split 1 1).1 2 1 = None
  ∧ Reply.response
      (GroupDeleteView.delete (GroupDeleteView.delete Sample.db_split 1 1).1 2 1).2
    = Http404
  ∧ (∀ g, g ∈ ExpenseForm.group_queryset
                (GroupDeleteView.delete Sample.db_split 1 1).1 (Some 2) →
          Group.id g ≠ 1).
Proof.
  apply (group_delete_hides_group Sample.db_split 1 1 2).
  vm_compute. reflexivity.
Defined.

Lemma find_fmap_in {A} (f : A → A) (p : A → bool) (l : list A) :
  (∀ x, x ∈ l → p (f x) = p x) → List.find p (f <$> l) = f <$> List.find p l.
Proof.
  induction l as [|x l IH]; intros Hp; [done|].
  cbn. rewrite Hp by (apply elem_of_cons; by left).
  destruct (p x); [done|]. apply IH. intros y Hy. apply Hp. by apply elem_of_cons; right.
Qed.

Lemma group_unique_id (groups : list Group.t) (g g' : Group.t) :
  NoDup (Group.id <$> groups) → g ∈ groups → g' ∈ groups →
  Group.id g = Group.id g' → g = g'.
Proof.
  induction groups as [|x groups IH]; intros Hnd Hg Hg' Hid.
  - by apply elem_of_nil in Hg.
  - cbn in Hnd. apply NoDup_cons in Hnd as [Hx Hnd].
    apply elem_of_cons in Hg as [->|Hg]; apply elem_of_cons in Hg' as [->|Hg'].
    + done.
    + exfalso. apply Hx. rewrite Hid. by apply list_elem_of_fmap_2.
    + exfalso. apply Hx. rewrite <-Hid. by apply list_elem_of_fmap_2.
    + by apply IH.
Qed.

(** X12: what becomes of the settlement pages of a deleted group.  When
    the method [delete] has made the group inactive, they answer every
    user as before, the group keys being distinct: the page that records
    a settlement gives the same reply, and the list shows the same
    settlements.  When a POST has removed the group, both answer 404. *)
Theorem deleted_group_settlement_pages (r : Decimal.Rounding) (db : DB.t)
    (user pk u : Z) (d : SettlementForm.data) :
  NoDup (Group.id <$> DB.groups db) →
  Reply.response (GroupDeleteView.delete db user pk).2 = Redirect →
  pk ≠ 0 →
  let soft := (GroupDeleteView.delete db user pk).1 in
  let hard := (GroupDeleteView.post db user pk).1 in
  (SettlementCreateView.post r soft u pk d).2 = (SettlementCreateView.post r db u pk d).2
  ∧ SettlementListView.get soft u pk = SettlementListView.get db u pk
  ∧ (SettlementCreateView.post r hard u pk d).2 = Http404
  ∧ SettlementListView.get hard u pk = None.
Proof.
  intros Hnd Hdeleted Hpk. cbn zeta. unfold GroupDeleteView.post.
  destruct (GroupDeleteView.get_object db user pk) as [object|] eqn:Hobject;
    [|unfold GroupDeleteView.delete in Hdeleted; by rewrite Hobject in Hdeleted].
  destruct (GroupDeleteView_delete_groups db user pk object Hobject)
    as (Hin & Hid & _ & _ & ->). cbn [fst].
  set (db' := DB.Mk _ _ _ _ _ _ _ _).
  assert (∀ g, g ∈ DB.groups db → Group.id g = pk → g = object) as Hunique.
  { intros g Hg Hgid. apply (group_unique_id (DB.groups db)); [done..|congruence]. }
  assert (SettlementCreateView.get_group db' u pk
          = archived <$> SettlementCreateView.get_group db u pk) as Hgroup.
  { unfold SettlementCreateView.get_group, db'. cbn [DB.groups].
    rewrite find_fmap_in.
    - destruct (List.find _ (DB.groups db)) as [g|] eqn:Hg; [|done].
      apply find_some in Hg as [Hgin Hg].
      apply bool_decide_eq_true in Hg as [Hgid _]. apply list_elem_of_In in Hgin.
      cbn. rewrite decide_True by done. f_equal. f_equal.
      symmetry. by apply Hunique.
    - intros g Hg. destruct (decide (Group.id g = pk)) as [Hgid|]; [|done].
      by rewrite (Hunique g Hg Hgid). }
  assert (SettlementCreateView.get_group (Group_delete db (Group.id object)) u pk = None)
    as Hgone.
  { unfold SettlementCreateView.get_group.
    destruct (List.find _ _) as [g|] eqn:Hg; [|done].
    apply find_some in Hg as [Hgin Hg].
    apply bool_decide_eq_true in Hg as [Hgid _]. apply list_elem_of_In in Hgin.
    cbn [Group_delete DB.groups] in Hgin.
    apply list_elem_of_filter in Hgin as [Hne _]. congruence. }
  rewrite !SettlementCreateView_post_answer. cbn [snd].
  unfold SettlementListView.get, SettlementCreateView.get_form_kwargs.
  rewrite Hgroup, Hgone.
  destruct (Z.eqb_spec pk 0) as [?|_]; [done|].
  split; [|split; [|done]].
  - destruct (SettlementCreateView.get_group db u pk) as [g|]; [|done].
    cbn [fmap option_fmap option_map]. done.
  - destruct (SettlementCreateView.get_group db u pk) as [g|]; [|done].
    cbn [fmap option_fmap option_map]. f_equal.
    unfold SettlementListView.get_queryset, db'. cbn [DB.settlements DB.groups].
    apply list_filter_iff. intros st. rewrite !Exists_exists.
    split; intros [Hst (g' & Hg' & Hgid & Hmember)]; (split; [done|]).
    + apply list_elem_of_fmap in Hg' as (g0 & -> & Hg0).
      exists g0. split; [done|].
      destruct (decide (Group.id g0 = pk)) as [Hg0id|]; [|done].
      by rewrite (Hunique g0 Hg0 Hg0id) in *.
    + assert (g' = object) as -> by (apply Hunique; [done|congruence]).
      exists (archived object). split; [|done].
      apply list_elem_of_fmap. exists object. by rewrite decide_True.
Qed.

Lemma deleted_group_settlement_pages_witness :
  (SettlementCreateView.post Decimal.ROUND_HALF_EVEN
     (GroupDeleteView.delete Sample.db_linked 1 1).1 2 1 Sample.repay).2
  = (SettlementCreateView.post Decimal.ROUND_HALF_EVEN Sample.db_linked 2 1
       Sample.repay).2
  ∧ SettlementListView.get (GroupDeleteView.delete Sample.db_linked 1 1).1 2 1
    = SettlementListView.get Sample.db_linked 2 1
  ∧ (SettlementCreateView.post Decimal.ROUND_HALF_EVEN
       (GroupDeleteView.post Sample.db_linked 1 1).1 2 1 Sample.repay).2 = Http404
  ∧ SettlementListView.get (GroupDeleteView.post Sample.db_linked 1 1).1 2 1 = None.
Proof.
  apply (deleted_group_settlement_pages Decimal.ROUND_HALF_EVEN Sample.db_linked
           1 1 2 Sample.repay).
  - by_compute.
  - vm_compute. reflexivity.
  - lia.
Defined.

(** ** The group views and the table of groups *)

(** What [instance.save()] does to the table, by cases. *)
Lemma save_row_groups (db : DB.t) (pk : option Z) (row : Z → Group.t) :
  let result := GroupForm.save_row db pk row in
  DB.users result.1 = DB.users db
  ∧ DB.expenses result.1 = DB.expenses db
  ∧ DB.splits result.1 = DB.splits db
  ∧ DB.settlements result.1 = DB.settlements db
  ∧ match pk with
    | Some i =>
        result.2 = i ∧ DB.next_group_id result.1 = DB.next_group_id db
        ∧ ((∃ g, g ∈ DB.groups db ∧ Group.id g = i)
           → DB.groups result.1
             = (λ g, if decide (Group.id g = i) then row i else g) <$> DB.groups db)
    | None =>
        result.2 = DB.next_group_id db
        ∧ DB.next_group_id result.1 = DB.next_group_id db + 1
        ∧ DB.groups result.1 = DB.groups db ++ [row (DB.next_group_id db)]
    end.
Proof.
  unfold GroupForm.save_row. destruct pk as [i|]; cbn; repeat split; try done.
  intros (g & Hg & Hid).
  assert (existsb (λ g, Group.id g =? i) (DB.groups db) = true) as ->; [|done].
  apply existsb_exists. exists g. split; [by apply list_elem_of_In|lia].
Qed.

Lemma replaced_row_keys (db db' : DB.t) (i : Z) (row : Group.t) :
  Group.id row = i →
  DB.groups db' = (λ g, if decide (Group.id g = i) then row else g) <$> DB.groups db →
  DB.next_group_id db' = DB.next_group_id db →
  group_keys_ok db → group_keys_ok db'.
Proof.
  intros Hid Hgroups Hnext [Hnd Hbelow]. unfold group_keys_ok.
  rewrite Hgroups, Hnext.
  assert (Group.id <$> ((λ g, if decide (Group.id g = i) then row else g)
                          <$> DB.groups db)
          = Group.id <$> DB.groups db) as Hids.
  { rewrite <-list_fmap_compose. apply list_fmap_ext. intros _ g _. cbn.
    destruct (decide (Group.id g = i)); congruence. }
  split; [by rewrite Hids|].
  rewrite Forall_fmap. eapply Forall_impl; [exact Hbelow|].
  intros g Hg. cbn. destruct (decide (Group.id g = i)); [|done]. congruence.
Qed.

Lemma replaced_row_members (db db' : DB.t) (i : Z) (row : Group.t) :
  DB.groups db' = (λ g, if decide (Group.id g = i) then row else g) <$> DB.groups db →
  Group.created_by row ∈ Group.members row → NoDup (Group.members row) →
  members_ok db → members_ok db'.
Proof.
  intros Hgroups Hcreator Hnd Hok. unfold members_ok. rewrite Hgroups, Forall_fmap.
  eapply Forall_impl; [exact Hok|].
  intros g Hg. cbn. by destruct (decide (Group.id g = i)).
Qed.

Lemma cleaned_row_members (u : Z) (ms : list Z) :
  u ∈ remove_dups (ms ++ [u]) ∧ NoDup (remove_dups (ms ++ [u])).
Proof.
  split; [|apply NoDup_remove_dups].
  apply elem_of_remove_dups, elem_of_app. right. apply elem_of_cons. by left.
Qed.

(** X13: the views that create, edit and delete groups keep the table of
    groups sound: the keys stay distinct and below the sequence, the
    creator of every group is among its members, and no member is listed
    twice. *)
Theorem group_views_keep_invariant (db : DB.t) (user pk : Z) (d : GroupForm.data) :
  group_keys_ok db → members_ok db →
  (group_keys_ok (GroupCreateView.post db user d).1
   ∧ members_ok (GroupCreateView.post db user d).1)
  ∧ (group_keys_ok (GroupUpdateView.post db user pk d).1
     ∧ members_ok (GroupUpdateView.post db user pk d).1)
  ∧ (group_keys_ok (GroupDeleteView.delete db user pk).1
     ∧ members_ok (GroupDeleteView.delete db user pk).1).
Proof.
  intros Hkeys Hmembers. split; [|split].
  - unfold GroupCreateView.post.
    destruct (GroupForm.full_clean db (Some user) d) as [cd|]; [|done].
    unfold GroupForm.save. cbn.
    destruct (cleaned_row_members user (GroupForm.members cd)) as [Hin Hnd].
    destruct Hkeys as [Hids Hbelow]. rewrite Forall_forall in Hbelow.
    split.
    + split; cbn.
      * rewrite fmap_app. apply NoDup_app. repeat split; [done| |apply NoDup_singleton].
        intros i (g & -> & Hg)%list_elem_of_fmap Hi%list_elem_of_singleton.
        specialize (Hbelow g Hg). cbn in Hi. lia.
      * apply Forall_app. split; [|apply Forall_singleton; cbn; lia].
        apply Forall_forall. intros g Hg. specialize (Hbelow g Hg). lia.
    + unfold members_ok. cbn. apply Forall_app. split; [done|].
      by apply Forall_singleton.
  - unfold GroupUpdateView.post.
    destruct (GroupUpdateView.get_object db user pk) as [instance|] eqn:Hobject; [|done].
    destruct (GroupForm.full_clean db (Some user) d) as [cd|]; [|done].
    apply find_some in Hobject as [Hin Hobject].
    apply bool_decide_eq_true in Hobject as (Hid & _ & _).
    apply list_elem_of_In in Hin.
    unfold GroupForm.save. cbn -[GroupForm.save_row].
    set (row := λ i : Z,
           Group.Mk i (GroupForm.name cd) (GroupForm.description cd) user
             (remove_dups (GroupForm.members cd ++ [user]))
             (GroupForm.default_currency cd) (Group.is_active instance)).
    destruct (save_row_groups db (Some (Group.id instance)) row)
      as (_ & _ & _ & _ & _ & Hnext & Hgroups).
    specialize (Hgroups ltac:(by exists instance)).
    destruct (GroupForm.save_row db (Some (Group.id instance)) row) as [db' i].
    cbn in *. destruct (cleaned_row_members user (GroupForm.members cd)) as [Hu Hnd].
    split.
    + by apply (replaced_row_keys db db' (Group.id instance) (row (Group.id instance))).
    + by apply (replaced_row_members db db' (Group.id instance)
                  (row (Group.id instance))).
  - destruct (GroupDeleteView.get_object db user pk) as [object|] eqn:Hobject;
      [|unfold GroupDeleteView.delete; by rewrite Hobject].
    destruct (GroupDeleteView_delete_groups db user pk object Hobject)
      as (Hin & Hid & _ & _ & ->). cbn [fst].
    pose proof Hmembers as Hobjects.
    unfold members_ok in Hobjects. rewrite Forall_forall in Hobjects.
    destruct (Hobjects object Hin) as [Hcreator Hnd].
    split.
    + apply (replaced_row_keys db _ pk (archived object));
        [exact Hid|reflexivity|reflexivity|exact Hkeys].
    + apply (replaced_row_members db _ pk (archived object));
        [reflexivity|exact Hcreator|exact Hnd|exact Hmembers].
Qed.

Lemma group_views_keep_invariant_witness :
  (group_keys_ok (GroupCreateView.post Sample.db_split 1 Sample.new_group).1
   ∧ members_ok (GroupCreateView.post Sample.db_split 1 Sample.new_group).1)
  ∧ (group_keys_ok (GroupUpdateView.post Sample.db_split 1 1 Sample.new_group).1
     ∧ members_ok (GroupUpdateView.post Sample.db_split 1 1 Sample.new_group).1)
  ∧ (group_keys_ok (GroupDeleteView.delete Sample.db_split 1 1).1
     ∧ members_ok (GroupDeleteView.delete Sample.db_split 1 1).1).
Proof.
  apply (group_views_keep_invariant Sample.db_split 1 1 Sample.new_group).
  - split; [by_compute|by_compute].
  - unfold members_ok. by_compute.
Defined.

(** X14: only its creator edits a group, and only while it is active: the
    edit form answers 404 exactly when the user created no active group
    of that key; an answer other than the redirect of a success leaves
    the database as it was, and a success rewrites the row of that key
    alone, the other groups, the expenses, the splits and the settlements
    being untouched. *)
Theorem group_update_by_creator_only (db : DB.t) (user pk : Z) (d : GroupForm.data) :
  let result := GroupUpdateView.post db user pk d in
  (result.2 = Http404
   ↔ ∀ g, g ∈ DB.groups db → Group.id g = pk →
          Group.created_by g ≠ user ∨ Group.is_active g = false)
  ∧ (result.2 ≠ Redirect → result.1 = db)
  ∧ DB.expenses result.1 = DB.expenses db
  ∧ DB.splits result.1 = DB.splits db
  ∧ DB.settlements result.1 = DB.settlements db
  ∧ (∀ g, Group.id g ≠ pk → g ∈ DB.groups result.1 ↔ g ∈ DB.groups db).
Proof.
  cbn zeta. unfold GroupUpdateView.post.
  destruct (GroupUpdateView.get_object db user pk) as [instance|] eqn:Hobject.
  - apply find_some in Hobject as [Hin Hobject].
    apply bool_decide_eq_true in Hobject as (Hid & Hcreator & Hactive).
    apply list_elem_of_In in Hin.
    assert (¬ ∀ g, g ∈ DB.groups db → Group.id g = pk →
                   Group.created_by g ≠ user ∨ Group.is_active g = false) as Hnot.
    { intros Hnone. destruct (Hnone instance Hin Hid) as [?|Hoff]; [done|].
      by rewrite Hactive in Hoff. }
    destruct (GroupForm.full_clean db (Some user) d) as [cd|];
      [|cbn; repeat split; done].
    unfold GroupForm.save. cbn -[GroupForm.save_row].
    set (row := λ i : Z,
           Group.Mk i (GroupForm.name cd) (GroupForm.description cd) user
             (remove_dups (GroupForm.members cd ++ [user]))
             (GroupForm.default_currency cd) (Group.is_active instance)).
    destruct (save_row_groups db (Some (Group.id instance)) row)
      as (_ & Hexpenses & Hsplits & Hsettlements & _ & _ & Hgroups).
    specialize (Hgroups ltac:(by exists instance)).
    destruct (GroupForm.save_row db (Some (Group.id instance)) row) as [db' i].
    cbn in *. repeat split; try done.
    + rewrite Hgroups. intros (g0 & Hg & Hg0)%list_elem_of_fmap.
      destruct (decide (Group.id g0 = Group.id instance)) as [|_]; [|by subst g].
      subst g. cbn in *. congruence.
    + intros Hg. rewrite Hgroups. apply list_elem_of_fmap. exists g.
      split; [|done]. rewrite decide_False; [done|congruence].
  - cbn. repeat split; try done.
    intros _ g Hg Hid. unfold GroupUpdateView.get_object in Hobject.
    apply list_elem_of_In in Hg.
    eapply find_none in Hobject; [|exact Hg].
    apply bool_decide_eq_false in Hobject.
    destruct (decide (Group.created_by g = user)) as [Hcreator|?]; [|by left].
    right. destruct (Group.is_active g); [|done]. exfalso. by apply Hobject.
Qed.

(** ** Creating an expense *)

(** The expense form has no cleaned data to give: a form whose amount
    passes its field does not come out of the validation of the model. *)
Lemma ExpenseForm_clean_form_amount (store : Store.t) (user : option Z)
    (d : ExpenseForm.data) (e : Exception) :
  ExpenseForm.clean_amount (ExpenseForm.data_amount d) = Raise e →
  ExpenseForm.clean_form store user d = None
  ∧ e ∈ ExpenseForm.errors store user d.
Proof.
  intros Hamount. unfold ExpenseForm.clean_form, ExpenseForm.errors. rewrite Hamount.
  split.
  - by destruct (ExpenseForm.data_description d).
  - rewrite !elem_of_app. right. left. by apply list_elem_of_singleton.
Qed.

(** X15: no expense is created through the expense page: whatever is
    posted, the store is left as it was and no message is queued.  A
    request whose amount passes the field of the form (at least 0.01, at
    most 14 digits and 2 decimal places) ends in the exception
    MoneyComparisonError, which the validation of the model lets out;
    any other comes back as a form with its errors, that of the amount
    among them.  So the form never hands cleaned data to
    [form_valid]. *)
Theorem expense_page_creates_nothing (r : Decimal.Rounding) (store : Store.t)
    (user : Z) (d : ExpenseForm.data) (POST : SimpleSplitForm.data) :
  let result := ExpenseCreateView.post r store user d POST in
  result.1 = store
  ∧ Reply.messages result.2 = []
  ∧ (∀ cd, ExpenseForm.full_clean store (Some user) d ≠ Ok (Some cd))
  ∧ (∀ a, ExpenseForm.data_amount d = Some a →
          Decimal_lt a (Decimal.Dec false 1 (-2)) = false →
          DecimalValidator 14 2 a = true →
          Reply.response result.2 = Raised MoneyComparisonError)
  ∧ (∀ e, ExpenseForm.clean_amount (ExpenseForm.data_amount d) = Raise e →
          Reply.response result.2 = FormInvalid (ExpenseForm.errors store (Some user) d)
          ∧ e ∈ ExpenseForm.errors store (Some user) d).
Proof.
  cbn zeta. unfold ExpenseCreateView.post, ExpenseForm.full_clean, ExpenseForm.post_clean.
  destruct (ExpenseForm.clean_amount (ExpenseForm.data_amount d)) as [a0|e0] eqn:Hamount.
  - cbn. repeat split; done.
  - destruct (ExpenseForm_clean_form_amount store (Some user) d e0 Hamount)
      as [-> Herror]. cbn.
    split; [done|]. split; [done|]. split; [done|]. split.
    + intros a Ha Hmin Hdigits. unfold ExpenseForm.clean_amount in Hamount.
      by rewrite Ha, Hmin, Hdigits in Hamount.
    + by intros e [= <-].
Qed.

Example lunch_fields_cleaned :
  ExpenseForm.clean_form Sample.store (Some 1) Sample.lunch = Some Sample.lunch_cleaned
  ∧ ExpenseForm.clean_form Sample.store (Some 2) Sample.coffee
    = Some Sample.coffee_cleaned.
Proof. split; reflexivity. Qed.

Example lunch_not_created :
  ExpenseCreateView.post Decimal.ROUND_HALF_EVEN Sample.store 1 Sample.lunch
    Sample.equal_three
  = (Sample.store, Reply.Mk (Raised MoneyComparisonError) []).
Proof. reflexivity. Qed.

Example coffee_without_amount :
  ExpenseCreateView.post Decimal.ROUND_HALF_EVEN Sample.store 2
    (ExpenseForm.Data (Ok "Coffee") None "personal" None (Some 2) (Some 1) (Some 0) "")
    Sample.no_member
  = (Sample.store,
     Reply.Mk (FormInvalid [ValidationError (Some "amount") "This field is required."])
       []).
Proof. reflexivity. Qed.

Lemma find_group_unique (groups : list Group.t) (g : Group.t) :
  NoDup (Group.id <$> groups) → g ∈ groups →
  List.find (λ x, Group.id x =? Group.id g) groups = Some g.
Proof.
  induction groups as [|x groups IH]; intros Hnd Hg.
  - by apply elem_of_nil in Hg.
  - cbn in Hnd. apply NoDup_cons in Hnd as [Hx Hnd]. cbn.
    destruct (Z.eqb_spec (Group.id x) (Group.id g)) as [E|E].
    + apply elem_of_cons in Hg as [->|Hg]; [done|].
      exfalso. apply Hx. rewrite E. by apply list_elem_of_fmap_2.
    + apply elem_of_cons in Hg as [->|Hg]; [done|]. by apply IH.
Qed.

(** X16: in [form_valid] the expense and its splits are not saved
    together: for the cleaned data of a group expense, when the split
    data of the request do not pass the split form, the expense is
    written all the same, with no split at all, so that nothing of its
    amount is allocated, and the request ends in a redirect with the
    message "Error creating splits. Please try again.".  The amount is
    a positive field value, the group is in the table, where the keys
    are distinct, and no split refers to the key the expense takes. *)
Theorem expense_kept_without_allocation (r : Decimal.Rounding) (store : Store.t)
    (user : Z) (cd : ExpenseForm.cleaned_data) (POST : SimpleSplitForm.data)
    (g : Group.t) :
  ExpenseForm.expense_type cd = GROUP →
  ExpenseForm.group cd = Some g →
  field_value 14 (ExpenseForm.amount cd) →
  0 < Decimal.coeff (ExpenseForm.amount cd) →
  g ∈ DB.groups (Store.db store) →
  NoDup (Group.id <$> DB.groups (Store.db store)) →
  Forall (λ s, ExpenseSplit.expense s ≠ Store.next_expense_id store)
         (DB.splits (Store.db store)) →
  SimpleSplitForm.is_valid (Some g) POST = false →
  let result := ExpenseCreateView.form_valid r store user cd POST in
  result.2 = Reply.Mk Redirect [error "Error creating splits. Please try again."]
  ∧ DB.splits (Store.db result.1) = DB.splits (Store.db store)
  ∧ ∃ row, DB.expenses (Store.db result.1) = DB.expenses (Store.db store) ++ [row]
           ∧ Expense.id row = Store.next_expense_id store
           ∧ Expense.expense_type row = GROUP
           ∧ Expense.group row = Some (Group.id g)
           ∧ 0 < Expense.amount row
           ∧ splits_of (Store.db result.1) (Expense.id row) = []
           ∧ residual (Store.db result.1) row = Expense.amount row.
Proof.
  intros Htype Hg Hamount Hpos Hin Hnd Hfresh Hinvalid. cbn zeta.
  unfold ExpenseCreateView.form_valid.
  rewrite (ExpenseForm_save_ok r store user cd Hamount Hpos).
  change (ExpenseInstance.expense_type (saved_instance store cd))
    with (ExpenseForm.expense_type cd).
  change (ExpenseInstance.group (saved_instance store cd))
    with (Group.id <$> ExpenseForm.group cd).
  change (DB.groups (Store.db (with_expense store (saved_expense store user cd))))
    with (DB.groups (Store.db store)).
  rewrite Htype, Hg, decide_True by done. cbn [fmap option_fmap option_map].
  rewrite (find_group_unique _ g Hnd Hin), Hinvalid.
  cbn [fst snd with_expense Store.db DB.splits DB.expenses].
  split; [done|]. split; [done|].
  exists (saved_expense store user cd). split; [done|].
  assert (0 < hundredths (ExpenseForm.amount cd)) as Hcents.
  { destruct Hamount as (_ & _ & Hexp & _). unfold hundredths.
    pose proof (pow10_pos (Decimal.exp (ExpenseForm.amount cd) + 2) ltac:(lia)). nia. }
  unfold saved_expense at 1 2 3 4.
  cbn [Expense.id Expense.expense_type Expense.group Expense.amount].
  rewrite Htype, Hg. cbn [fmap option_fmap option_map].
  assert (∀ db', DB.splits db' = DB.splits (Store.db store) →
                 splits_of db' (Store.next_expense_id store) = []) as Hnone.
  { intros db' Hsplits. unfold splits_of. rewrite Hsplits. apply filter_none.
    rewrite Forall_forall in Hfresh. intros s Hs. by apply Hfresh. }
  repeat split; try done.
  - by apply Hnone.
  - unfold residual, allocated, saved_expense. cbn [Expense.id Expense.amount].
    rewrite Hnone by done. cbn. lia.
Qed.

Lemma expense_kept_without_allocation_witness :
  (ExpenseCreateView.form_valid Decimal.ROUND_HALF_EVEN Sample.store 1
     Sample.lunch_cleaned Sample.no_member).2
  = Reply.Mk Redirect [error "Error creating splits. Please try again."].
Proof.
  apply (expense_kept_without_allocation Decimal.ROUND_HALF_EVEN Sample.store 1
           Sample.lunch_cleaned Sample.no_member Sample.trip).
  - reflexivity.
  - reflexivity.
  - unfold field_value, hundredths. cbn. lia.
  - cbn. lia.
  - apply (list_elem_of_lookup_2 _ 0%nat). reflexivity.
  - by_compute.
  - by_compute.
  - vm_compute. reflexivity.
Defined.

(** ** Personal expenses and the balances *)

Lemma find_app_l {A} (p : A → bool) (l l' : list A) :
  List.find p (l ++ l')
  = match List.find p l with Some x => Some x | None => List.find p l' end.
Proof. induction l as [|x l IH]; [done|]. cbn. by destruct (p x). Qed.

Lemma expense__group_appended (db db' : DB.t) (row : Expense.t) (s : ExpenseSplit.t) :
  DB.expenses db' = DB.expenses db ++ [row] →
  Expense.group row = None →
  expense__group db' s = expense__group db s.
Proof.
  intros Hexpenses Hgroup. unfold expense__group. rewrite Hexpenses, find_app_l.
  destruct (List.find _ (DB.expenses db)); [done|]. cbn.
  destruct (Expense.id row =? ExpenseSplit.expense s); [|done]. cbn. done.
Qed.

(** The balances of a database to which an expense without group is
    added. *)
Lemma balances_appended (db db' : DB.t) (row : Expense.t) :
  DB.groups db' = DB.groups db →
  DB.splits db' = DB.splits db →
  DB.expenses db' = DB.expenses db ++ [row] →
  Expense.group row = None →
  (∀ g, GroupDetailView.calculate_group_balances db' g
        = GroupDetailView.calculate_group_balances db g)
  ∧ (∀ u, DashboardView.calculate_user_balances db' u
          = DashboardView.calculate_user_balances db u).
Proof.
  intros Hgroups Hsplits Hexpenses Hgroup.
  assert (∀ g m, GroupDetailView.paid db' g m = GroupDetailView.paid db g m) as Hpaid.
  { intros g m. unfold GroupDetailView.paid. rewrite Hexpenses, filter_app.
    rewrite (filter_none _ [row]); [by rewrite app_nil_r|].
    intros e ->%list_elem_of_singleton [He _]. congruence. }
  assert (∀ g m, GroupDetailView.owed db' g m = GroupDetailView.owed db g m) as Howed.
  { intros g m. unfold GroupDetailView.owed. rewrite Hsplits. do 3 f_equal.
    apply list_filter_iff. intros s.
    by rewrite (expense__group_appended db db' row s Hexpenses Hgroup). }
  assert (∀ g m, DashboardView.owed db' g m = DashboardView.owed db g m) as Hopen.
  { intros g m. unfold DashboardView.owed. rewrite Hsplits. do 3 f_equal.
    apply list_filter_iff. intros s.
    by rewrite (expense__group_appended db db' row s Hexpenses Hgroup). }
  split.
  - intros g. unfold GroupDetailView.calculate_group_balances.
    generalize (∅ : gmap Z BalanceEntry.t).
    induction (Group.members g) as [|m ms IH]; intros balances; [done|].
    cbn [foldl]. rewrite IH, Hpaid, Howed. done.
  - intros u. rewrite !calculate_user_balances_concat, Hgroups.
    f_equal. apply list_fmap_ext. intros _ g _.
    unfold DashboardView.balance_entry.
    change (DashboardView.paid db' g u) with (GroupDetailView.paid db' g u).
    change (DashboardView.paid db g u) with (GroupDetailView.paid db g u).
    by rewrite Hpaid, Hopen.
Qed.

(** X17: a personal expense changes no balance: for the cleaned data of
    a personal expense, which has no group, [form_valid] writes the
    expense without group and does not look at the split data; no split
    or settlement is touched, and the balances of every group and the
    dashboard of every user are what they were.  The amount is a
    positive field value. *)
Theorem personal_expense_changes_no_balance (r : Decimal.Rounding) (store : Store.t)
    (user : Z) (cd : ExpenseForm.cleaned_data) (POST : SimpleSplitForm.data) :
  ExpenseForm.expense_type cd = PERSONAL →
  ExpenseForm.group cd = None →
  field_value 14 (ExpenseForm.amount cd) →
  0 < Decimal.coeff (ExpenseForm.amount cd) →
  let result := ExpenseCreateView.form_valid r store user cd POST in
  result.2
  = Reply.Mk Redirect
      [success ("Personal expense " +:+ dquote +:+ ExpenseForm.description cd
                +:+ dquote +:+ " added!")]
  ∧ DB.splits (Store.db result.1) = DB.splits (Store.db store)
  ∧ DB.settlements (Store.db result.1) = DB.settlements (Store.db store)
  ∧ (∃ row, DB.expenses (Store.db result.1) = DB.expenses (Store.db store) ++ [row]
            ∧ Expense.group row = None ∧ Expense.user row = user
            ∧ Expense.amount row = hundredths (ExpenseForm.amount cd))
  ∧ (∀ g, GroupDetailView.calculate_group_balances (Store.db result.1) g
          = GroupDetailView.calculate_group_balances (Store.db store) g)
  ∧ (∀ u, DashboardView.calculate_user_balances (Store.db result.1) u
          = DashboardView.calculate_user_balances (Store.db store) u).
Proof.
  intros Htype Hgroup Hamount Hpos. cbn zeta.
  unfold ExpenseCreateView.form_valid.
  rewrite (ExpenseForm_save_ok r store user cd Hamount Hpos).
  change (ExpenseInstance.expense_type (saved_instance store cd))
    with (ExpenseForm.expense_type cd).
  rewrite Htype, decide_False by done.
  cbn [fst snd with_expense Store.db DB.splits DB.settlements DB.expenses
       saved_instance ExpenseInstance.description].
  assert (Expense.group (saved_expense store user cd) = None) as Hnone.
  { unfold saved_expense. cbn. by rewrite Hgroup. }
  split; [done|]. split; [done|]. split; [done|].
  split; [by exists (saved_expense store user cd)|].
  by eapply balances_appended.
Qed.

Lemma personal_expense_changes_no_balance_witness :
  (ExpenseCreateView.form_valid Decimal.ROUND_HALF_EVEN Sample.store 2
     Sample.coffee_cleaned Sample.no_member).2
  = Reply.Mk Redirect
      [success ("Personal expense " +:+ dquote +:+ "Coffee" +:+ dquote +:+ " added!")].
Proof.
  apply (personal_expense_changes_no_balance Decimal.ROUND_HALF_EVEN Sample.store 2
           Sample.coffee_cleaned Sample.no_member).
  - reflexivity.
  - reflexivity.
  - unfold field_value, hundredths. cbn. lia.
  - cbn. lia.
Defined.

(** ** Deleting an expense *)

(** X18: only the user who recorded an expense deletes it: the answer is
    a 404, and nothing changes, exactly when that user recorded no
    expense of that key.  Otherwise the expense goes together with its
    splits, and with nothing else; the deletion leaves no split without
    expense and no settlement with a link to a split that is gone, and
    keeps the keys of the splits distinct. *)
Theorem expense_delete_cascades (db : DB.t) (user pk : Z) :
  let result := ExpenseDeleteView.delete db user pk in
  (Reply.response result.2 = Http404
   ↔ ∀ e, e ∈ DB.expenses db → Expense.id e = pk → Expense.user e ≠ user)
  ∧ (Reply.response result.2 = Http404 → result.1 = db)
  ∧ (Reply.response result.2 ≠ Http404 →
     Reply.response result.2 = Redirect
     ∧ DB.expenses result.1 = filter (λ e, Expense.id e ≠ pk) (DB.expenses db)
     ∧ DB.splits result.1 = filter (λ s, ExpenseSplit.expense s ≠ pk) (DB.splits db)
     ∧ DB.groups result.1 = DB.groups db
     ∧ length (DB.settlements result.1) = length (DB.settlements db))
  ∧ (splits_have_expense db → splits_have_expense result.1)
  ∧ (links_ok db → links_ok result.1)
  ∧ (split_keys_ok db → split_keys_ok result.1).
Proof.
  cbn zeta. unfold ExpenseDeleteView.delete.
  destruct (ExpenseDeleteView.get_object db user pk) as [expense|] eqn:Hobject.
  - apply find_some in Hobject as [Hin Hobject].
    apply bool_decide_eq_true in Hobject as [Hid Huser].
    apply list_elem_of_In in Hin.
    cbn [fst snd Reply.response].
    split; [|split; [done|split; [|split; [|split]]]].
    + split; [done|]. intros Hnone. by destruct (Hnone expense Hin Hid).
    + intros _. cbn. repeat split. by rewrite length_fmap.
    + unfold splits_have_expense. cbn. rewrite !Forall_forall.
      intros Hfk s [Hkept Hs]%list_elem_of_filter.
      apply Hfk, list_elem_of_fmap in Hs as (e & He & Hein).
      rewrite He. apply list_elem_of_fmap_2, list_elem_of_filter.
      split; [congruence|done].
    + intros Hlinks. by apply (delete_splits_links db pk) in Hlinks.
    + intros Hkeys. by apply (delete_splits_keys db pk) in Hkeys.
  - cbn. split; [|split; [done|split; [intros H; by destruct H|done]]].
    split; [|done].
    intros _ e He Hid Huser. unfold ExpenseDeleteView.get_object in Hobject.
    apply list_elem_of_In in He.
    eapply find_none in Hobject; [|exact He].
    apply bool_decide_eq_false in Hobject. by apply Hobject.
Qed.

(** ** The list of expenses *)

Lemma group__members_nonempty (db : DB.t) (e : Expense.t) :
  ExpenseListView.group__members db e ≠ [].
Proof.
  unfold ExpenseListView.group__members.
  destruct (_ ≫= _) as [g|]; [|done]. by destruct (Group.members g).
Qed.

Lemma group__members_Some (db : DB.t) (e : Expense.t) (user : Z) :
  Some user ∈ ExpenseListView.group__members db e
  ↔ ∃ pk g, Expense.group e = Some pk
            ∧ List.find (λ g, Group.id g =? pk) (DB.groups db) = Some g
            ∧ user ∈ Group.members g.
Proof.
  unfold ExpenseListView.group__members.
  destruct (Expense.group e) as [pk|]; cbn [mbind option_bind].
  - destruct (List.find _ (DB.groups db)) as [g|] eqn:Hfind.
    + split.
      * intros Hin. exists pk, g. split; [done|]. split; [done|].
        destruct (Group.members g) as [|m ms] eqn:Hms.
        -- by apply list_elem_of_singleton in Hin.
        -- by apply list_elem_of_fmap in Hin as (m' & [= ->] & ?).
      * intros (pk' & g' & [= <-] & Hg' & Hin).
        rewrite Hfind in Hg'. inversion Hg'; subst g'.
        destruct (Group.members g) as [|m ms] eqn:Hms; [by apply elem_of_nil in Hin|].
        by apply list_elem_of_fmap_2.
    + split; [by intros ?%list_elem_of_singleton|].
      intros (pk' & g' & [= <-] & Hg' & _). by rewrite Hfind in Hg'.
  - split; [by intros ?%list_elem_of_singleton|]. by intros (? & ? & ? & _).
Qed.

Lemma filter_Q_elem_of (db : DB.t) (user : Z) (e : Expense.t) :
  e ∈ ExpenseListView.filter_Q db user
  ↔ e ∈ DB.expenses db
    ∧ (Expense.user e = user
       ∨ ∃ pk g, Expense.group e = Some pk
                 ∧ List.find (λ g, Group.id g =? pk) (DB.groups db) = Some g
                 ∧ user ∈ Group.members g).
Proof.
  unfold ExpenseListView.filter_Q. rewrite list_elem_of_bind. split.
  - intros (x & Hrows & Hx).
    apply list_elem_of_fmap in Hrows as (m & -> & Hm).
    apply list_elem_of_filter in Hm as [Hpass Hm]. split; [done|].
    destruct Hpass as [?| ->]; [by left|right]. by apply group__members_Some.
  - intros [He Hpass]. exists e. split; [|done].
    destruct Hpass as [Huser|Hmember].
    + pose proof (group__members_nonempty db e) as Hne.
      destruct (ExpenseListView.group__members db e) as [|m ms]; [done|].
      rewrite filter_cons, decide_True by (by left). cbn. apply elem_of_cons. by left.
    + apply group__members_Some in Hmember.
      apply (list_elem_of_fmap_2 (λ _, e) _ (Some user)).
      apply list_elem_of_filter. split; [by right|done].
Qed.

(** X19: the list of expenses shows a user the expenses that user
    recorded and those of the groups of which the user is a member, and
    no other: the personal expenses of another user never appear.  The
    parameter "personal" or "group" keeps the expenses of that type; any
    other value keeps them all. *)
Theorem expense_list_visibility (db : DB.t) (user : Z) (expense_type : string)
    (e : Expense.t) :
  e ∈ ExpenseListView.get_queryset db user expense_type
  ↔ e ∈ DB.expenses db
    ∧ (Expense.user e = user
       ∨ ∃ pk g, Expense.group e = Some pk
                 ∧ List.find (λ g, Group.id g =? pk) (DB.groups db) = Some g
                 ∧ user ∈ Group.members g)
    ∧ (expense_type = "personal" → Expense.expense_type e = PERSONAL)
    ∧ (expense_type = "group" → Expense.expense_type e = GROUP).
Proof.
  unfold ExpenseListView.get_queryset.
  destruct (decide (expense_type = "personal")) as [->|Hp].
  - rewrite list_elem_of_filter, filter_Q_elem_of. split.
    + intros (? & ? & ?). repeat split; try done.
    + intros (? & ? & Ht & _). repeat split; try done. by apply Ht.
  - destruct (decide (expense_type = "group")) as [->|Hg].
    + rewrite list_elem_of_filter, filter_Q_elem_of. split.
      * intros (? & ? & ?). repeat split; try done.
      * intros (? & ? & _ & Ht). repeat split; try done. by apply Ht.
    + rewrite filter_Q_elem_of. split.
      * intros (? & ?). repeat split; try done.
      * intros (? & ? & _). done.
Qed.

(** The rows of the join that an expense contributes are copies of it. *)
Lemma filter_Q_cons (users : list Z) (groups : list Group.t) (e : Expense.t)
    (expenses : list Expense.t) (splits : list ExpenseSplit.t)
    (settlements : list Settlement.t) (n1 n2 n3 : Z) (user : Z) :
  let db := DB.Mk users groups (e :: expenses) splits settlements n1 n2 n3 in
  let db' := DB.Mk users groups expenses splits settlements n1 n2 n3 in
  ExpenseListView.filter_Q db user
  = ((λ _, e) <$> filter (λ m, Expense.user e = user ∨ m = Some user)
                         (ExpenseListView.group__members db' e))
    ++ ExpenseListView.filter_Q db' user.
Proof. reflexivity. Qed.

Lemma filter_id_copies (pk : Z) (e : Expense.t) {A} (rows : list A) :
  filter (λ x, Expense.id x = pk) ((λ _, e) <$> rows)
  = if decide (Expense.id e = pk) then (λ _, e) <$> rows else [].
Proof.
  induction rows as [|m rows IH]; [by destruct (decide _)|].
  rewrite fmap_cons, filter_cons, IH. by destruct (decide (Expense.id e = pk)).
Qed.

(** X20: the page of an expense cannot be shown to the user who recorded
    it once its group has two members or more: the queryset of the view
    joins the expense with every member of its group and is not made
    distinct, so the lookup finds the expense several times and raises
    MultipleObjectsReturned.  A personal expense is found, by the user
    who recorded it, when the keys of the expenses are distinct. *)
Theorem own_group_expense_detail_fails (db : DB.t) (user : Z) (e : Expense.t) :
  e ∈ DB.expenses db →
  Expense.user e = user →
  ((∃ g, Expense.group e = Some (Group.id g)
         ∧ List.find (λ x, Group.id x =? Group.id g) (DB.groups db) = Some g
         ∧ (2 ≤ length (Group.members g))%nat) →
   ExpenseDetailView.get_object db user (Expense.id e) = MultipleObjectsReturned)
  ∧ (Expense.group e = None → NoDup (Expense.id <$> DB.expenses db) →
     ExpenseDetailView.get_object db user (Expense.id e) = Found e).
Proof.
  intros He Huser. unfold ExpenseDetailView.get_object.
  destruct db as [users groups expenses splits settlements n1 n2 n3].
  cbn [DB.expenses DB.groups] in *. split.
  - intros (g & Hgroup & Hfind & Hmembers).
    assert (2 ≤ length (filter (λ x, Expense.id x = Expense.id e)
                          (ExpenseListView.filter_Q
                             (DB.Mk users groups expenses splits settlements n1 n2 n3)
                             user)))%nat as Hcount.
    { induction expenses as [|x expenses IH]; [by apply elem_of_nil in He|].
      rewrite filter_Q_cons. cbn zeta. rewrite filter_app, length_app, filter_id_copies.
      apply elem_of_cons in He as [<-|He].
      - rewrite decide_True by done. rewrite length_fmap.
        unfold ExpenseListView.group__members. cbn [DB.groups].
        rewrite Hgroup. cbn [mbind option_bind]. rewrite Hfind.
        destruct (Group.members g) as [|m ms] eqn:Hms; [cbn in Hmembers; lia|].
        rewrite <-Hms.
        rewrite (filter_all _ (Some <$> Group.members g)) by (intros; by left).
        rewrite length_fmap, Hms. lia.
      - specialize (IH He). lia. }
    destruct (filter _ _) as [|a [|b l]]; cbn in Hcount; [lia|lia|done].
  - intros Hgroup Hnd.
    assert (filter (λ x, Expense.id x = Expense.id e)
              (ExpenseListView.filter_Q
                 (DB.Mk users groups expenses splits settlements n1 n2 n3) user)
            = [e]) as ->; [|done].
    induction expenses as [|x expenses IH]; [by apply elem_of_nil in He|].
    rewrite filter_Q_cons. cbn zeta. rewrite filter_app, filter_id_copies.
    cbn in Hnd. apply NoDup_cons in Hnd as [Hx Hnd].
    apply elem_of_cons in He as [<-|He].
    + rewrite decide_True by done.
      unfold ExpenseListView.group__members at 1. rewrite Hgroup. cbn [mbind option_bind].
      rewrite filter_cons, decide_True by (by left). cbn.
      rewrite filter_none; [done|].
      intros y [Hy _]%filter_Q_elem_of Hid. cbn in Hy.
      apply Hx. rewrite <-Hid. by apply list_elem_of_fmap_2.
    + rewrite decide_False.
      * cbn. by apply IH.
      * intros Hid. apply Hx. rewrite Hid. by apply list_elem_of_fmap_2.
Qed.

Lemma own_group_expense_detail_fails_witness :
  ExpenseDetailView.get_object Sample.db_coffee 1 (Expense.id Sample.dinner)
  = MultipleObjectsReturned
  ∧ ExpenseDetailView.get_object Sample.db_coffee 2 (Expense.id Sample.coffee_row)
    = Found Sample.coffee_row.
Proof.
  split.
  - destruct (own_group_expense_detail_fails Sample.db_coffee 1 Sample.dinner)
      as [Hfails _].
    + apply (list_elem_of_lookup_2 _ 0%nat). reflexivity.
    + reflexivity.
    + apply Hfails. exists Sample.trip. repeat split. cbn. lia.
  - destruct (own_group_expense_detail_fails Sample.db_coffee 2 Sample.coffee_row)
      as [_ Hfound].
    + apply (list_elem_of_lookup_2 _ 1%nat). reflexivity.
    + reflexivity.
    + apply Hfound; [reflexivity|by_compute].
Defined.

(** ** Categories *)

(** X21: a category that a user creates is that user's own: it is
    written with the next key and the user as its creator, the list of
    categories of that user holds it and what it held before, and the
    list of every other user is what it was.  The expense form, whose
    category field is not restricted, takes its key all the same. *)
Theorem category_created_is_private (store : Store.t) (user : Z)
    (d : CategoryForm.data) (name : string) :
  CategoryForm.data_name d = Ok name →
  let result := CategoryCreateView.post store user d in
  let c := Category.Mk (Store.next_category_id store) name (Some user) in
  Reply.response result.2 = Redirect
  ∧ Store.categories result.1 = Store.categories store ++ [c]
  ∧ Store.next_category_id result.1 = Store.next_category_id store + 1
  ∧ Store.db result.1 = Store.db store
  ∧ (∀ x, x ∈ CategoryListView.get_queryset result.1 user
          ↔ x = c ∨ x ∈ CategoryListView.get_queryset store user)
  ∧ (∀ other, other ≠ user →
              CategoryListView.get_queryset result.1 other
              = CategoryListView.get_queryset store other)
  ∧ ExpenseForm.clean_category result.1 (Some (Category.id c)) = Ok (Category.id c).
Proof.
  intros Hname. cbn zeta. unfold CategoryCreateView.post. rewrite Hname. cbn.
  repeat split.
  - unfold CategoryListView.get_queryset. cbn.
    rewrite filter_app, filter_cons, decide_True by (by right).
    intros [?|?%list_elem_of_singleton]%elem_of_app; [by right|by left].
  - unfold CategoryListView.get_queryset. cbn.
    rewrite filter_app, filter_cons, decide_True by (by right).
    intros [->|?]; apply elem_of_app; [right|by left].
    apply elem_of_cons. by left.
  - intros other Hother. unfold CategoryListView.get_queryset. cbn.
    rewrite filter_app, filter_cons, decide_False, app_nil_r; [done|].
    cbn. intros [?|[= ?]]; done.
  - unfold ExpenseForm.clean_category, ModelChoiceField_clean. cbn.
    rewrite decide_True; [done|].
    rewrite fmap_app. apply elem_of_app. right. apply elem_of_cons. by left.
Qed.

Lemma category_created_is_private_witness :
  ExpenseForm.clean_category
    (CategoryCreateView.post Sample.store 2 (CategoryForm.Data (Ok "Rent"))).1
    (Some 2) = Ok 2
  ∧ CategoryListView.get_queryset
      (CategoryCreateView.post Sample.store 2 (CategoryForm.Data (Ok "Rent"))).1 1
    = CategoryListView.get_queryset Sample.store 1.
Proof.
  destruct (category_created_is_private Sample.store 2 (CategoryForm.Data (Ok "Rent"))
              "Rent" eq_refl) as (_ & _ & _ & _ & _ & Hother & Hform).
  split; [exact Hform|]. apply Hother. lia.
Defined.

(** ** The two balance calculators *)

Lemma sumZ_filter_settled (l : list ExpenseSplit.t) :
  sumZ (ExpenseSplit.amount <$> l)
  = sumZ (ExpenseSplit.amount <$> filter (λ s, ExpenseSplit.is_settled s = false) l)
    + sumZ (ExpenseSplit.amount <$> filter (λ s, ExpenseSplit.is_settled s = true) l).
Proof.
  induction l as [|s l IH]; [done|].
  rewrite !filter_cons, fmap_cons. unfold sumZ in *. cbn [foldr].
  destruct (ExpenseSplit.is_settled s).
  - rewrite decide_False, decide_True by done. rewrite fmap_cons. cbn [foldr]. lia.
  - rewrite decide_True, decide_False by done. rewrite fmap_cons. cbn [foldr]. lia.
Qed.

(** X22: the dashboard and the page of a group do not count alike: for a
    member of an active group, the balance the dashboard shows is the
    balance of the page of the group plus the amounts of the allocations
    of that member that are closed; and the dashboard has an entry for
    the group exactly when that sum is not zero. *)
Theorem dashboard_balance_adds_settled (db : DB.t) (g : Group.t) (u : Z) :
  g ∈ DB.groups db → u ∈ Group.members g → Group.is_active g = true →
  ∃ entry,
    GroupDetailView.calculate_group_balances db g !! u = Some entry
    ∧ (∀ b, b ∈ DashboardView.calculate_user_balances db u →
            UserBalance.group b = g →
            UserBalance.balance b = BalanceEntry.balance entry + settled db g u)
    ∧ (BalanceEntry.balance entry + settled db g u ≠ 0
       ↔ ∃ b, b ∈ DashboardView.calculate_user_balances db u
              ∧ UserBalance.group b = g).
Proof.
  intros Hg Hmember Hactive. exists (group_entry db g u).
  rewrite calculate_group_balances_lookup, decide_True by done.
  split; [done|].
  assert (DashboardView.paid db g u - DashboardView.owed db g u
          = BalanceEntry.balance (group_entry db g u) + settled db g u) as Hbalance.
  { unfold group_entry. cbn [BalanceEntry.balance].
    rewrite owed_spec, user_owed_spec. unfold Spec.owed, Spec.owed_open, settled.
    rewrite (sumZ_filter_settled (filter _ (filter _ (DB.splits db)))).
    change (DashboardView.paid db g u) with (GroupDetailView.paid db g u). lia. }
  assert (∀ b, b ∈ DashboardView.calculate_user_balances db u →
               UserBalance.group b = g →
               b ∈ DashboardView.balance_entry db u g) as Hentry.
  { intros b Hb Hgroup.
    rewrite calculate_user_balances_concat, list_elem_of_join in Hb.
    destruct Hb as (l & Hb & Hl).
    apply list_elem_of_fmap in Hl as (g' & -> & _).
    assert (UserBalance.group b = g') as Hg'.
    { unfold DashboardView.balance_entry in Hb.
      destruct (negb _); [|by apply elem_of_nil in Hb].
      by apply list_elem_of_singleton in Hb as ->. }
    congruence. }
  split.
  - intros b Hb Hgroup. specialize (Hentry b Hb Hgroup).
    unfold DashboardView.balance_entry in Hentry.
    destruct (negb _); [|by apply elem_of_nil in Hentry].
    apply list_elem_of_singleton in Hentry as ->. cbn. exact Hbalance.
  - rewrite <-Hbalance. split.
    + intros Hne.
      exists (UserBalance.Mk g
                (DashboardView.paid db g u - DashboardView.owed db g u)
                (if DashboardView.paid db g u - DashboardView.owed db g u >? 0
                 then "owed" else "owes")).
      split; [|reflexivity].
      rewrite calculate_user_balances_concat, list_elem_of_join.
      exists (DashboardView.balance_entry db u g). split.
      * unfold DashboardView.balance_entry.
        destruct (Z.eqb_spec (DashboardView.paid db g u - DashboardView.owed db g u) 0);
          [done|].
        cbn. apply list_elem_of_singleton. reflexivity.
      * apply list_elem_of_fmap_2, list_elem_of_filter. done.
    + intros (b & Hb & Hgroup). specialize (Hentry b Hb Hgroup).
      unfold DashboardView.balance_entry in Hentry.
      destruct (Z.eqb_spec (DashboardView.paid db g u - DashboardView.owed db g u) 0);
        [by apply elem_of_nil in Hentry|done].
Qed.

Lemma dashboard_balance_adds_settled_witness :
  ∃ entry,
    GroupDetailView.calculate_group_balances Sample.db_settled Sample.trip !! 2
    = Some entry
    ∧ (∀ b, b ∈ DashboardView.calculate_user_balances Sample.db_settled 2 →
            UserBalance.group b = Sample.trip →
            UserBalance.balance b
            = BalanceEntry.balance entry + settled Sample.db_settled Sample.trip 2)
    ∧ (BalanceEntry.balance entry + settled Sample.db_settled Sample.trip 2 ≠ 0
       ↔ ∃ b, b ∈ DashboardView.calculate_user_balances Sample.db_settled 2
              ∧ UserBalance.group b = Sample.trip).
Proof.
  apply (dashboard_balance_adds_settled Sample.db_settled Sample.trip 2).
  - apply (list_elem_of_lookup_2 _ 0%nat). reflexivity.
  - by_compute.
  - reflexivity.
Defined.

(** X23: the page of a group holds a balance for each member of the group
    and for nobody else: a user who paid or owes in the group without
    being one of its members has no entry, and what that user paid or
    owes enters no entry. *)
Theorem group_balances_are_of_members (db : DB.t) (group : Group.t) (m : Z) :
  (is_Some (GroupDetailView.calculate_group_balances db group !! m)
   ↔ m ∈ Group.members group)
  ∧ (NoDup (Group.members group) →
     size (GroupDetailView.calculate_group_balances db group)
     = length (Group.members group)).
Proof.
  split.
  - rewrite calculate_group_balances_lookup.
    destruct (decide (m ∈ Group.members group)); split; try done;
      by intros [? ?].
  - intros Hnd. unfold GroupDetailView.calculate_group_balances.
    assert (∀ balances : gmap Z BalanceEntry.t,
              (∀ x, x ∈ Group.members group → balances !! x = None) →
              size (foldl (λ balances member,
                             <[member := group_entry db group member]> balances)
                          balances (Group.members group))
              = (length (Group.members group) + size balances)%nat) as Hloop.
    { induction Hnd as [|x members Hx Hnd IH]; intros balances Hfresh; [done|].
      cbn [foldl length]. rewrite IH.
      - rewrite map_size_insert_None by (apply Hfresh, elem_of_cons; by left). lia.
      - intros y Hy. rewrite lookup_insert_ne by (intros ->; done).
        apply Hfresh. by apply elem_of_cons; right. }
    rewrite (Hloop ∅) by (intros; apply lookup_empty).
    rewrite map_size_empty. lia.
Qed.

(** ** The equal split: how far from the amount *)

(** X24: an equal split never strays from the amount of the expense by
    more than half a cent per participant: with n participants, n times
    the share differs from the amount by n/2 cents at most, and so does
    the sum of the allocations; up to three participants the allocations
    reconcile within 0.01.  The amount is positive, of 2 decimal places
    and at most 14 digits. *)
Theorem equal_split_within_half_cent (r : Decimal.Rounding) (db : DB.t)
    (group : option Group.t) (expense : ExpenseInstance.t)
    (d : SimpleSplitForm.data) (c : Z) :
  Money.amount (ExpenseInstance.amount expense) = Decimal.Dec false c (-2) →
  0 < c < 10 ^ 14 →
  SimpleSplitForm.is_valid group d = true →
  SimpleSplitForm.data_split_type d = "equal" →
  let result := SimpleSplitForm.save r db (Some expense)
                  (SimpleSplitForm.clean_fields group d).1 in
  let pk := ExpenseInstance.pk expense in
  ∃ members,
    SimpleSplitForm.members (SimpleSplitForm.clean_fields group d).1 = Some members
    ∧ Forall (λ s, 2 * Z.abs (Z.of_nat (length members) * ExpenseSplit.amount s - c)
                   ≤ Z.of_nat (length members))
             (splits_of result.1 pk)
    ∧ 2 * Z.abs (allocated result.1 pk - c) ≤ Z.of_nat (length members)
    ∧ ((length members ≤ 3)%nat → Z.abs (allocated result.1 pk - c) ≤ 1).
Proof.
  intros Hamount Hc Hvalid Hequal result pk. subst result pk.
  assert (field_value 14 (Money.amount (ExpenseInstance.amount expense))) as Hfield.
  { rewrite Hamount. unfold field_value, hundredths. cbn. lia. }
  assert (0 < Decimal.coeff (Money.amount (ExpenseInstance.amount expense))) as Hpos.
  { rewrite Hamount. cbn. lia. }
  destruct (SimpleSplitForm_save_valid r db group expense d Hfield Hpos Hvalid)
    as (st & ms & splits & created & Hst & Hms & Hne & Hres & _ & _ & Hsplits & Hcases).
  rewrite Hequal in Hst. cbn in Hst. inversion Hst; subst st.
  destruct Hcases as [(_ & Hlen & p & Hdiv & Hcreated)|(Hother & _)]; [|done].
  set (n := Z.of_nat (length ms)) in *.
  assert (1 ≤ n) as Hn by (unfold n; destruct ms; [done|cbn; lia]).
  rewrite Hamount in Hdiv.
  pose proof (equal_share_near r c n p Hc Hn Hdiv) as Hnear.
  set (share := Decimal.round_cents r p) in *.
  assert (splits_of (SimpleSplitForm.save r db (Some expense)
                       (SimpleSplitForm.clean_fields group d).1).1
                    (ExpenseInstance.pk expense) = created) as Hof.
  { unfold splits_of. rewrite Hsplits. apply splits_of_replaced. subst created.
    eapply Forall_impl; [apply created_rows_Forall|]. cbn. tauto. }
  assert (Forall (λ s, ExpenseSplit.amount s = share) created) as Hshare.
  { subst created. eapply Forall_impl; [apply created_rows_Forall|]. cbn. tauto. }
  assert (length created = length ms) as Hcount.
  { subst created. apply created_rows_length. }
  assert (allocated (SimpleSplitForm.save r db (Some expense)
                       (SimpleSplitForm.clean_fields group d).1).1
                    (ExpenseInstance.pk expense) = n * share) as Hallocated.
  { unfold allocated. rewrite Hof, (sumZ_constant _ share) by done.
    by rewrite Hcount. }
  exists ms. rewrite Hof, Hallocated. fold n.
  split; [done|]. split; [|split; [done|]].
  - eapply Forall_impl; [exact Hshare|]. intros s ->. exact Hnear.
  - intros Hfew. assert (n ≤ 3) by (unfold n; lia). lia.
Qed.

Lemma equal_split_within_half_cent_witness :
  ∃ members,
    SimpleSplitForm.members
      (SimpleSplitForm.clean_fields (Some Sample.trip) Sample.equal_three).1
    = Some members
    ∧ Forall (λ s, 2 * Z.abs (Z.of_nat (length members) * ExpenseSplit.amount s - 10000)
                   ≤ Z.of_nat (length members))
             (splits_of (Sample.allocate_dinner Decimal.ROUND_HALF_UP).1 1)
    ∧ 2 * Z.abs (allocated (Sample.allocate_dinner Decimal.ROUND_HALF_UP).1 1 - 10000)
      ≤ Z.of_nat (length members)
    ∧ ((length members ≤ 3)%nat →
       Z.abs (allocated (Sample.allocate_dinner Decimal.ROUND_HALF_UP).1 1 - 10000) ≤ 1).
Proof.
  apply (equal_split_within_half_cent Decimal.ROUND_HALF_UP Sample.db_unsplit
           (Some Sample.trip) Sample.dinner_object Sample.equal_three 10000).
  - reflexivity.
  - lia.
  - by vm_compute.
  - reflexivity.
Defined.

(** ** The template filter *)

Lemma fix_idempotent (d : Decimal.t) :
  Decimal.fix_ (Decimal.fix_ d) = Decimal.fix_ d.
Proof.
  destruct d as [s x ex].
  assert (∀ c e, c ≤ 10 ^ 27 ∨ Decimal.ndigits c ≤ Decimal.prec →
                 Decimal.fix_ (Decimal.Dec s c e) = Decimal.Dec s c e) as Hkept.
  { intros c e Hc. unfold Decimal.fix_. cbn [Decimal.coeff].
    destruct (Z.gtb_spec (Decimal.ndigits c) Decimal.prec) as [Hbig|]; [|done].
    destruct Hc as [Hc|Hc]; [|lia].
    pose proof (ndigits_ge c Hbig) as Hc28.
    change (10 ^ Decimal.prec) with (10 * 10 ^ 27) in Hc28.
    assert (0 < 10 ^ 27) by done. lia. }
  assert (∃ c e, Decimal.fix_ (Decimal.Dec s x ex) = Decimal.Dec s c e
                 ∧ (c ≤ 10 ^ 27 ∨ Decimal.ndigits c ≤ Decimal.prec))
    as (c & e & -> & Hc); [|by apply Hkept].
  unfold Decimal.fix_. cbn [Decimal.coeff Decimal.sign Decimal.exp].
  destruct (Z.gtb_spec (Decimal.ndigits x) Decimal.prec) as [Hbig|Hsmall].
  - pose proof (ndigits_ge x Hbig) as Hx28.
    assert (0 ≤ x) as Hx by (assert (0 < 10 ^ Decimal.prec) by done; lia).
    set (drop := Decimal.ndigits x - Decimal.prec) in *.
    set (cr := Decimal.round_div Decimal.ROUND_HALF_EVEN x drop).
    destruct (Z.gtb_spec (Decimal.ndigits cr) Decimal.prec) as [Hcarry|Hfit].
    + eexists _, _. split; [reflexivity|]. left.
      assert (cr ≤ 10 ^ Decimal.prec) as Hcr.
      { apply round_div_le; [unfold drop; lia|].
        pose proof (ndigits_upper x Hx) as Hup.
        replace (Decimal.ndigits x) with (Decimal.prec + drop) in Hup by (unfold drop; lia).
        rewrite pow10_add in Hup by (unfold drop, Decimal.prec in *; lia). lia. }
      change (10 ^ Decimal.prec) with (10 ^ 27 * 10) in Hcr.
      apply Z.div_le_upper_bound; lia.
    + eexists _, _. split; [reflexivity|]. by right.
  - eexists _, _. split; [reflexivity|]. by right.
Qed.

(** X25: the filter [abs_value] gives the magnitude of a number and hands
    back anything else untouched: a Decimal comes out with a positive
    sign, and with its own digits when it has 28 of them at most, an int
    as its absolute value, a string and None as they are; applying the
    filter twice is applying it once. *)
Theorem abs_value_magnitude (v : expense_filters.value) :
  expense_filters.abs_value (expense_filters.abs_value v) = expense_filters.abs_value v
  ∧ match v with
    | expense_filters.Number d =>
        ∃ d', expense_filters.abs_value v = expense_filters.Number d'
              ∧ Decimal.sign d' = false
              ∧ (Decimal.coeff d < 10 ^ Decimal.prec →
                 d' = Decimal.Dec false (Decimal.coeff d) (Decimal.exp d))
    | expense_filters.Integer n =>
        expense_filters.abs_value v = expense_filters.Integer (Z.abs n)
    | _ => expense_filters.abs_value v = v
    end.
Proof.
  destruct v as [d|n|s|]; cbn; (split; [try done|try done]).
  - f_equal. unfold Decimal.abs.
    assert (∀ q, Decimal.Dec false (Decimal.coeff q) (Decimal.exp q) = q
                 ∨ Decimal.sign q = true) as Hq.
    { intros [[] ? ?]; [by right|by left]. }
    assert (Decimal.sign (Decimal.fix_ (Decimal.Dec false (Decimal.coeff d)
                                          (Decimal.exp d))) = false) as Hsign.
    { unfold Decimal.fix_. cbn. destruct (_ >? _); [|done]. by destruct (_ >? _). }
    destruct (Hq (Decimal.fix_ (Decimal.Dec false (Decimal.coeff d) (Decimal.exp d))))
      as [->|Hneg]; [apply fix_idempotent|congruence].
  - eexists. split; [reflexivity|]. unfold Decimal.abs. split.
    + unfold Decimal.fix_. cbn. destruct (_ >? _); [|done]. by destruct (_ >? _).
    + intros Hc. by apply fix_small.
  - f_equal. lia.
Qed.

(** ** The split form, run again *)

Lemma created_rows_shares (pk expense : Z) (split_type : SplitType) (stored : Z)
    (currency : string) (members : list Z) :
  (λ s, (ExpenseSplit.user s, ExpenseSplit.amount s))
    <$> created_rows pk expense split_type stored currency members
  = (λ m, (m, stored)) <$> members.
Proof.
  revert pk. induction members as [|m members IH]; intros pk; cbn; [done|].
  by rewrite IH.
Qed.

Lemma filter_others_replaced (old created : list ExpenseSplit.t) (pk : Z) :
  Forall (λ s, ExpenseSplit.expense s = pk) created →
  filter (λ s, ExpenseSplit.expense s ≠ pk)
         (filter (λ s, ExpenseSplit.expense s ≠ pk) old ++ created)
  = filter (λ s, ExpenseSplit.expense s ≠ pk) old.
Proof.
  intros Hcreated. rewrite filter_app, list_filter_filter.
  rewrite (filter_none _ created); last first.
  { rewrite Forall_forall in Hcreated. intros s Hs Hne. by apply Hne, Hcreated. }
  rewrite app_nil_r. apply list_filter_iff. intros s. tauto.
Qed.

(** X26: the split form can be run again: a valid submission saved a
    second time leaves the expense with the same users owing the same
    amounts as the first time (only the keys of the splits change), and
    the splits of the other expenses as they were at the start.  The
    amount of the expense is positive, of 2 decimal places and at most
    14 digits. *)
Theorem split_form_save_idempotent (r : Decimal.Rounding) (db : DB.t)
    (group : option Group.t) (expense : ExpenseInstance.t)
    (d : SimpleSplitForm.data) :
  field_value 14 (Money.amount (ExpenseInstance.amount expense)) →
  0 < Decimal.coeff (Money.amount (ExpenseInstance.amount expense)) →
  SimpleSplitForm.is_valid group d = true →
  let cd := (SimpleSplitForm.clean_fields group d).1 in
  let pk := ExpenseInstance.pk expense in
  let db1 := (SimpleSplitForm.save r db (Some expense) cd).1 in
  let db2 := (SimpleSplitForm.save r db1 (Some expense) cd).1 in
  shares_of db2 pk = shares_of db1 pk
  ∧ filter (λ s, ExpenseSplit.expense s ≠ pk) (DB.splits db2)
    = filter (λ s, ExpenseSplit.expense s ≠ pk) (DB.splits db)
  ∧ DB.expenses db2 = DB.expenses db.
Proof.
  intros Hamount Hpos Hvalid cd pk db1 db2.
  destruct (SimpleSplitForm_save_valid r db group expense d Hamount Hpos Hvalid)
    as (st & ms & splits & created & Hst & Hms & _ & _ & Hexp & _ & Hsplits & Hcases).
  fold cd pk db1 in Hexp, Hsplits.
  destruct (SimpleSplitForm_save_valid r db1 group expense d Hamount Hpos Hvalid)
    as (st' & ms' & splits' & created' & Hst' & Hms' & _ & _ & Hexp' & _ & Hsplits'
        & Hcases').
  fold cd pk db2 in Hexp', Hsplits'.
  rewrite Hst in Hst'. inversion Hst'; subst st'. clear Hst'.
  fold cd in Hms, Hms'. rewrite Hms in Hms'. inversion Hms'; subst ms'. clear Hms'.
  assert (Forall (λ s, ExpenseSplit.expense s = pk) created) as Hcreated.
  { destruct Hcases as [(_ & _ & p & _ & ->)|(_ & _ & ->)]; [|done].
    eapply Forall_impl; [apply created_rows_Forall|]. cbn. tauto. }
  assert (Forall (λ s, ExpenseSplit.expense s = pk) created') as Hcreated'.
  { destruct Hcases' as [(_ & _ & p & _ & ->)|(_ & _ & ->)]; [|done].
    eapply Forall_impl; [apply created_rows_Forall|]. cbn. tauto. }
  split; [|split].
  - unfold shares_of, splits_of. rewrite Hsplits', Hsplits.
    rewrite !splits_of_replaced by done.
    destruct Hcases as [(Hequal & _ & p & Hp & ->)|(Hother & _ & ->)],
      Hcases' as [(Hequal' & _ & p' & Hp' & ->)|(Hother' & _ & ->)];
      [|done..].
    rewrite Hp in Hp'. inversion Hp'; subst p'.
    by rewrite !created_rows_shares.
  - rewrite Hsplits', Hsplits.
    rewrite filter_others_replaced by done. by apply filter_others_replaced.
  - by rewrite Hexp', Hexp.
Qed.

Lemma split_form_save_idempotent_witness :
  shares_of
    (SimpleSplitForm.save Decimal.ROUND_HALF_EVEN
       (Sample.allocate_dinner Decimal.ROUND_HALF_EVEN).1 (Some Sample.dinner_object)
       (SimpleSplitForm.clean_fields (Some Sample.trip) Sample.equal_three).1).1 1
  = shares_of (Sample.allocate_dinner Decimal.ROUND_HALF_EVEN).1 1.
Proof.
  apply (split_form_save_idempotent Decimal.ROUND_HALF_EVEN Sample.db_unsplit
           (Some Sample.trip) Sample.dinner_object Sample.equal_three).
  - unfold field_value, hundredths. cbn. lia.
  - cbn. lia.
  - by vm_compute.
Defined.
